(** * AgroNexus backend: a shallow embedding of [backend/main.py]

    The service is a thin layer over a relational store.  The store is
    modelled as one record of tables (lists of rows, in table order), the
    endpoints as computations in a state-and-exception monad: a raised
    [HTTPException] leaves the writes done before it in place, exactly as
    the sequence of remote calls of the source does.

    What lies outside the repository is taken as an interface ([Env]):
    the JSON numbers used for prices, [uuid.uuid4], [hashlib.sha256],
    [jwt.encode], the process configuration and the [ilike] operator of
    the store.  Timestamp columns ([created_at], [updated_at]) are not
    modelled. *)

From Stdlib Require Import List String Ascii ZArith Bool Arith Lia DecimalString.
From Stdlib Require Import Sorted.
Import ListNotations.
Local Open Scope string_scope.
Local Open Scope list_scope.

(** ** The environment of the service *)

Class Env : Type := {
  (** JSON numbers: [price], [total], [total_amount] (Python floats). *)
  number : Type;
  (** the integer literal [0] sums start from *)
  num_zero : number;
  (** [a + b] *)
  num_add : number -> number -> number;
  (** [price * quantity], a number times an [int] *)
  num_mul : number -> Z -> number;
  (** the n-th value drawn from [str(uuid.uuid4())] *)
  uuid4 : nat -> string;
  (** [hashlib.sha256(s.encode()).hexdigest()] *)
  sha256_hexdigest : string -> string;
  (** [jwt.encode(claims, key, algorithm=alg)] *)
  jwt_encode : list (string * string) -> string -> string -> string;
  (** [datetime.utcnow() + timedelta(days=7)] *)
  token_expiry : string;
  SECRET_KEY : string;
  ALGORITHM : string;
  PASSWORD_SALT : string;
  (** the store's [ilike] operator: pattern, then text *)
  ilike : string -> string -> bool
}.

(** ** Python values and helpers *)

(** A value found under a key that may hold [None]. *)
Inductive pyval : Type :=
| PyNone
| PyStr (s : string).

Record HTTPException : Type := {
  status_code : Z;
  detail : string
}.

Inductive outcome (A : Type) : Type :=
| Ok (a : A)
| Raise (e : HTTPException).
Arguments Ok {A} a.
Arguments Raise {A} e.

(** Truthiness of an optional string: [None] and [""] are falsy. *)
Definition truthy (o : option string) : bool :=
  match o with
  | Some s => negb (String.eqb s "")
  | None => false
  end.

(** How an f-string renders a value that may be [None]. *)
Definition fmt (o : option string) : string :=
  match o with
  | Some s => s
  | None => "None"
  end.

(** [str.isspace] on the ASCII range: tab to carriage return, the four
    separators 28 to 31 and the space.  Names are taken to be ASCII text;
    the white space Python knows beyond it (U+0085, U+00A0, U+2003, ...)
    is not covered. *)
Definition is_space (c : ascii) : bool :=
  let n := nat_of_ascii c in
  orb (andb (9 <=? n)%nat (n <=? 13)%nat)
      (orb (andb (28 <=? n)%nat (n <=? 32)%nat) false).

Fixpoint lstrip (s : string) : string :=
  match s with
  | String c r => if is_space c then lstrip r else s
  | EmptyString => EmptyString
  end.

Fixpoint rstrip (s : string) : string :=
  match s with
  | String c r =>
      match rstrip r with
      | EmptyString => if is_space c then EmptyString else String c EmptyString
      | r' => String c r'
      end
  | EmptyString => EmptyString
  end.

(** [s.strip()], for ASCII white space (see [is_space]). *)
Definition strip (s : string) : string := rstrip (lstrip s).

(** ** Rows *)

Record user : Type := {
  u_id : string;
  u_username : string;
  u_email : string;
  (** [None]: the row has no ['password_hash'] key *)
  u_password_hash : option pyval;
  u_first_name : option string;
  u_last_name : option string;
  u_farm_name : option string;
  u_location : option string;
  u_user_type : string;
  u_phone : option string;
  u_address : option string;
  u_profile_image_url : option string;
  u_full_name : option string
}.

Definition set_password_hash (v : option pyval) (u : user) : user :=
  {| u_id := u_id u; u_username := u_username u; u_email := u_email u;
     u_password_hash := v;
     u_first_name := u_first_name u; u_last_name := u_last_name u;
     u_farm_name := u_farm_name u; u_location := u_location u;
     u_user_type := u_user_type u; u_phone := u_phone u;
     u_address := u_address u; u_profile_image_url := u_profile_image_url u;
     u_full_name := u_full_name u |}.

Definition set_full_name (v : option string) (u : user) : user :=
  {| u_id := u_id u; u_username := u_username u; u_email := u_email u;
     u_password_hash := u_password_hash u;
     u_first_name := u_first_name u; u_last_name := u_last_name u;
     u_farm_name := u_farm_name u; u_location := u_location u;
     u_user_type := u_user_type u; u_phone := u_phone u;
     u_address := u_address u; u_profile_image_url := u_profile_image_url u;
     u_full_name := v |}.

(** [if 'password_hash' in user: del user['password_hash']] *)
Definition del_password_hash (u : user) : user := set_password_hash None u.

(** The display name every user-returning endpoint adds. *)
Definition add_full_name (u : user) : user :=
  if orb (truthy (u_first_name u)) (truthy (u_last_name u))
  then set_full_name
         (Some (strip (fmt (u_first_name u) ++ " " ++ fmt (u_last_name u)))) u
  else set_full_name (Some (u_username u)) u.

Section Model.
Context {E : Env}.

Record product : Type := {
  p_id : string;
  p_name : string;
  p_category : string;
  p_price : number;
  p_description : option string;
  p_quantity : Z;
  p_unit : option string;
  p_farmer_id : string;
  p_images : list string;
  p_status : string
}.

Record cart : Type := {
  c_id : string;
  c_user_id : string;
  c_total : number
}.

Record cart_item : Type := {
  ci_id : string;
  ci_cart_id : string;
  ci_product_id : string;
  ci_quantity : Z;
  ci_price : number
}.

Record order : Type := {
  o_id : string;
  o_buyer_id : string;
  o_farmer_id : string;
  o_total_amount : number;
  o_status : string;
  o_shipping_address : option string;
  o_delivery_address : option string;
  o_delivery_notes : option string;
  o_phone_number : option string;
  o_payment_info : option string
}.

Record order_item : Type := {
  oi_id : string;
  oi_order_id : string;
  oi_product_id : string;
  oi_quantity : Z;
  oi_price : number
}.

(** ** The store and the monad *)

Record state : Type := {
  users : list user;
  products : list product;
  carts : list cart;
  cart_items : list cart_item;
  orders : list order;
  order_items : list order_item;
  (** how many uuids have been drawn *)
  uuid_draws : nat
}.

Definition with_users (f : list user -> list user) (s : state) : state :=
  {| users := f (users s); products := products s; carts := carts s;
     cart_items := cart_items s; orders := orders s;
     order_items := order_items s; uuid_draws := uuid_draws s |}.

Definition with_products (f : list product -> list product) (s : state) : state :=
  {| users := users s; products := f (products s); carts := carts s;
     cart_items := cart_items s; orders := orders s;
     order_items := order_items s; uuid_draws := uuid_draws s |}.

Definition with_carts (f : list cart -> list cart) (s : state) : state :=
  {| users := users s; products := products s; carts := f (carts s);
     cart_items := cart_items s; orders := orders s;
     order_items := order_items s; uuid_draws := uuid_draws s |}.

Definition with_cart_items (f : list cart_item -> list cart_item) (s : state) : state :=
  {| users := users s; products := products s; carts := carts s;
     cart_items := f (cart_items s); orders := orders s;
     order_items := order_items s; uuid_draws := uuid_draws s |}.

Definition with_orders (f : list order -> list order) (s : state) : state :=
  {| users := users s; products := products s; carts := carts s;
     cart_items := cart_items s; orders := f (orders s);
     order_items := order_items s; uuid_draws := uuid_draws s |}.

Definition with_order_items (f : list order_item -> list order_item) (s : state) : state :=
  {| users := users s; products := products s; carts := carts s;
     cart_items := cart_items s; orders := orders s;
     order_items := f (order_items s); uuid_draws := uuid_draws s |}.

Definition M (A : Type) : Type := state -> state * outcome A.

Definition ret {A : Type} (a : A) : M A := fun s => (s, Ok a).

Definition bind {A B : Type} (c : M A) (k : A -> M B) : M B :=
  fun s =>
    match c s with
    | (s', Ok a) => k a s'
    | (s', Raise e) => (s', Raise e)
    end.

Definition raise {A : Type} (code : Z) (msg : string) : M A :=
  fun s => (s, Raise {| status_code := code; detail := msg |}).

Definition gets {A : Type} (f : state -> A) : M A := fun s => (s, Ok (f s)).

Definition modify (f : state -> state) : M unit := fun s => (f s, Ok tt).

(** [str(uuid.uuid4())] *)
Definition new_uuid : M string :=
  fun s =>
    ({| users := users s; products := products s; carts := carts s;
        cart_items := cart_items s; orders := orders s;
        order_items := order_items s; uuid_draws := S (uuid_draws s) |},
     Ok (uuid4 (uuid_draws s))).

End Model.

Notation "x <- c ;; k" := (bind c (fun x => k))
  (at level 61, c at next level, right associativity).
Notation "c ;;; k" := (bind c (fun _ => k))
  (at level 61, right associativity).

(** ** Credentials *)

Section Credentials.
Context {E : Env}.

Definition create_access_token (data : list (string * string)) : string :=
  jwt_encode (data ++ [("exp", token_expiry)]) SECRET_KEY ALGORITHM.

Definition get_password_hash (password : string) : string :=
  sha256_hexdigest (password ++ PASSWORD_SALT ++ SECRET_KEY).

(** Comparing the digest with [None] is [False]. *)
Definition verify_password (plain_password : string) (hashed_password : pyval) : bool :=
  match hashed_password with
  | PyStr h => String.eqb (get_password_hash plain_password) h
  | PyNone => false
  end.

(** [user.get('password_hash', '')] *)
Definition get_password_hash_or_empty (u : user) : pyval :=
  match u_password_hash u with
  | Some v => v
  | None => PyStr ""
  end.

Definition token_claims (u : user) : list (string * string) :=
  [("sub", u_id u); ("email", u_email u); ("user_type", u_user_type u)].

End Credentials.

(** ** Query helpers *)

(** [.range(start, stop)]: the rows at offsets [start] to [stop], both
    included. *)
Definition range {A : Type} (start stop : Z) (rows : list A) : list A :=
  firstn (Z.to_nat (stop - start + 1)) (skipn (Z.to_nat start) rows).

(** [if x:] on an optional query parameter. *)
Definition given (o : option string) : option string :=
  if truthy o then o else None.

Definition eq_if_given {A : Type} (col : A -> string) (o : option string) (row : A) : bool :=
  match given o with
  | Some v => String.eqb (col row) v
  | None => true
  end.

(** ** Request and response bodies *)

Record UserLogin : Type := {
  ul_email : string;
  ul_password : string
}.

Record UserCreate : Type := {
  uc_username : string;
  uc_email : string;
  uc_password : string;
  uc_user_type : string;
  uc_first_name : option string;
  uc_last_name : option string;
  uc_farm_name : option string;
  uc_location : option string;
  uc_phone : option string;
  uc_address : option string;
  uc_profile_image_url : option string
}.

Record auth_response : Type := {
  ar_message : string;
  ar_user : user;
  ar_token : string
}.

(** ** Accounts *)

Section Accounts.
Context {E : Env}.

Definition users_by_email (email : string) (s : state) : list user :=
  filter (fun u => String.eqb (u_email u) email) (users s).

Definition users_by_username (name : string) (s : state) : list user :=
  filter (fun u => String.eqb (u_username u) name) (users s).

Definition users_by_id (uid : string) (s : state) : list user :=
  filter (fun u => String.eqb (u_id u) uid) (users s).

(** [.update({"password_hash": h}).eq('id', uid)] *)
Definition store_password_hash (uid h : string) (us : list user) : list user :=
  map (fun u => if String.eqb (u_id u) uid
                then set_password_hash (Some (PyStr h)) u else u) us.

Definition register_user (user_data : UserCreate) : M auth_response :=
  existing <- gets (users_by_email (uc_email user_data)) ;;
  match existing with
  | _ :: _ => raise 400 "User with this email already exists"
  | [] =>
    existing_username <- gets (users_by_username (uc_username user_data)) ;;
    match existing_username with
    | _ :: _ => raise 400 "Username already taken"
    | [] =>
      uid <- new_uuid ;;
      let is_farmer := String.eqb (uc_user_type user_data) "farmer" in
      let user_obj :=
        {| u_id := uid;
           u_username := uc_username user_data;
           u_email := uc_email user_data;
           u_password_hash := Some (PyStr (get_password_hash (uc_password user_data)));
           u_first_name := uc_first_name user_data;
           u_last_name := uc_last_name user_data;
           u_farm_name := if is_farmer then uc_farm_name user_data else None;
           u_location := if is_farmer then uc_location user_data else None;
           u_user_type := uc_user_type user_data;
           u_phone := uc_phone user_data;
           u_address := uc_address user_data;
           u_profile_image_url := uc_profile_image_url user_data;
           u_full_name := None |} in
      modify (with_users (fun us => us ++ [user_obj])) ;;;
      let token := create_access_token (token_claims user_obj) in
      ret {| ar_message := "Registration successful";
             ar_user := add_full_name (del_password_hash user_obj);
             ar_token := token |}
    end
  end.

Definition login_user (login_data : UserLogin) : M auth_response :=
  response <- gets (users_by_email (ul_email login_data)) ;;
  match response with
  | [] => raise 401 "Invalid email or password"
  | user0 :: _ =>
    user1 <-
      match u_password_hash user0 with
      | None =>
          let hashed_password := get_password_hash (ul_password login_data) in
          modify (with_users (store_password_hash (u_id user0) hashed_password)) ;;;
          ret (set_password_hash (Some (PyStr hashed_password)) user0)
      | Some _ => ret user0
      end ;;
    if negb (verify_password (ul_password login_data) (get_password_hash_or_empty user1))
    then raise 401 "Invalid email or password"
    else
      let token := create_access_token (token_claims user1) in
      ret {| ar_message := "Login successful";
             ar_user := add_full_name (del_password_hash user1);
             ar_token := token |}
  end.

(** [GET /api/auth/me] *)
Definition get_current_user_profile (current_user : user) : M user :=
  ret (add_full_name (del_password_hash current_user)).

(** [GET /api/users/{user_id}] *)
Definition get_user_profile (user_id : string) : M user :=
  response <- gets (users_by_id user_id) ;;
  match response with
  | [] => raise 404 "User not found"
  | u :: _ => ret (add_full_name (del_password_hash u))
  end.

End Accounts.

(** ** Catalog *)

(** [Query(1, ge=1)] and [Query(20, ge=1, le=100)]: the defaults and the
    bounds the framework enforces before the handler runs. *)
Definition page_or_default (page : option Z) : Z :=
  match page with Some p => p | None => 1%Z end.

Definition limit_or_default (limit : option Z) : Z :=
  match limit with Some l => l | None => 20%Z end.

Definition query_in_bounds (page limit : Z) : bool :=
  andb (1 <=? page)%Z (andb (1 <=? limit)%Z (limit <=? 100)%Z).

Record pagination : Type := {
  pg_page : Z;
  pg_limit : Z;
  pg_total : Z;
  pg_pages : Z
}.

(** The columns [users(full_name, profile_image_url, farm_name, location)]. *)
Record farmer_card : Type := {
  fc_full_name : option string;
  fc_profile_image_url : option string;
  fc_farm_name : option string;
  fc_location : option string
}.

Section Catalog.
Context {E : Env}.

Record product_view : Type := {
  pv_product : product;
  pv_users : option farmer_card
}.

Record products_response : Type := {
  pr_products : list product_view;
  pr_pagination : pagination
}.

Record ProductUpdate : Type := {
  pu_name : option string;
  pu_category : option string;
  pu_price : option number;
  pu_description : option (option string);
  pu_quantity : option Z;
  pu_unit : option (option string);
  pu_images : option (list string);
  pu_status : option string
}.

Record product_response : Type := {
  prr_message : string;
  prr_product : product
}.

Definition check_query (page limit : Z) : M unit :=
  if query_in_bounds page limit then ret tt
  else raise 422 "Unprocessable Entity".

Definition card_of (u : user) : farmer_card :=
  {| fc_full_name := u_full_name u;
     fc_profile_image_url := u_profile_image_url u;
     fc_farm_name := u_farm_name u;
     fc_location := u_location u |}.

Definition with_farmer (s : state) (p : product) : product_view :=
  {| pv_product := p;
     pv_users := option_map card_of
                   (find (fun u => String.eqb (u_id u) (p_farmer_id p)) (users s)) |}.

(** [name.ilike.%search%,description.ilike.%search%] under [or_]. *)
Definition matches_search (search : option string) (p : product) : bool :=
  match given search with
  | Some q =>
      orb (ilike ("%" ++ q ++ "%") (p_name p))
          (match p_description p with
           | Some d => ilike ("%" ++ q ++ "%") d
           | None => false
           end)
  | None => true
  end.

Definition product_filter (category farmer_id search : option string) (p : product) : bool :=
  andb (eq_if_given p_category category p)
       (andb (eq_if_given p_farmer_id farmer_id p) (matches_search search p)).

(** The rows the listing query and the count query both select. *)
Definition matching_products (category farmer_id search : option string) (s : state)
  : list product_view :=
  map (with_farmer s) (filter (product_filter category farmer_id search) (products s)).

Definition get_products (category farmer_id search : option string)
    (page limit : option Z) : M products_response :=
  let page := page_or_default page in
  let limit := limit_or_default limit in
  check_query page limit ;;;
  let start := ((page - 1) * limit)%Z in
  products <- gets (fun s => range start (start + limit - 1)%Z
                               (matching_products category farmer_id search s)) ;;
  total <- gets (fun s => Z.of_nat (List.length (matching_products category farmer_id search s))) ;;
  ret {| pr_products := products;
         pr_pagination := {| pg_page := page; pg_limit := limit; pg_total := total;
                             pg_pages := ((total + limit - 1) / limit)%Z |} |}.

Definition or_keep {A : Type} (o : option A) (old : A) : A :=
  match o with Some v => v | None => old end.

(** [product_data.dict(exclude_unset=True)] applied to a row. *)
Definition apply_update (d : ProductUpdate) (p : product) : product :=
  {| p_id := p_id p;
     p_name := or_keep (pu_name d) (p_name p);
     p_category := or_keep (pu_category d) (p_category p);
     p_price := or_keep (pu_price d) (p_price p);
     p_description := or_keep (pu_description d) (p_description p);
     p_quantity := or_keep (pu_quantity d) (p_quantity p);
     p_unit := or_keep (pu_unit d) (p_unit p);
     p_farmer_id := p_farmer_id p;
     p_images := or_keep (pu_images d) (p_images p);
     p_status := or_keep (pu_status d) (p_status p) |}.

Definition products_by_id (pid : string) (s : state) : list product :=
  filter (fun p => String.eqb (p_id p) pid) (products s).

(** [.eq('id', product_id).eq('farmer_id', current_user['id'])] *)
Definition owned_products (pid uid : string) (s : state) : list product :=
  filter (fun p => andb (String.eqb (p_id p) pid) (String.eqb (p_farmer_id p) uid))
         (products s).

Definition update_product (product_id : string) (product_data : ProductUpdate)
    (current_user : user) : M product_response :=
  response <- gets (owned_products product_id (u_id current_user)) ;;
  match response with
  | [] => raise 404 "Product not found or unauthorized"
  | _ :: _ =>
    modify (with_products
              (map (fun p => if String.eqb (p_id p) product_id
                             then apply_update product_data p else p))) ;;;
    result <- gets (products_by_id product_id) ;;
    match result with
    | r :: _ => ret {| prr_message := "Product updated successfully"; prr_product := r |}
    | [] => raise 500 "Product update failed"
    end
  end.

Definition delete_product (product_id : string) (current_user : user) : M string :=
  response <- gets (owned_products product_id (u_id current_user)) ;;
  match response with
  | [] => raise 404 "Product not found or unauthorized"
  | _ :: _ =>
    modify (with_products (filter (fun p => negb (String.eqb (p_id p) product_id)))) ;;;
    ret "Product deleted successfully"
  end.

End Catalog.

(** ** Cart *)

Record CartItemAdd : Type := {
  cia_product_id : string;
  cia_quantity : Z
}.

Section Cart.
Context {E : Env}.

Definition carts_of_user (uid : string) (s : state) : list cart :=
  filter (fun c => String.eqb (c_user_id c) uid) (carts s).

Definition lines_of_cart (cid : string) (s : state) : list cart_item :=
  filter (fun i => String.eqb (ci_cart_id i) cid) (cart_items s).

(** [sum(item['price'] * item['quantity'] for item in lines)] *)
Definition cart_sum (lines : list cart_item) : number :=
  fold_left (fun acc i => num_add acc (num_mul (ci_price i) (ci_quantity i)))
            lines num_zero.

(** [carts.update({"total": t}).eq('id', cid)] *)
Definition set_total (cid : string) (t : number) (s : state) : state :=
  with_carts (map (fun c => if String.eqb (c_id c) cid
                            then {| c_id := c_id c; c_user_id := c_user_id c; c_total := t |}
                            else c)) s.

Definition same_line (a b : cart_item) : bool :=
  andb (String.eqb (ci_cart_id a) (ci_cart_id b))
       (String.eqb (ci_product_id a) (ci_product_id b)).

(** [upsert(item, on_conflict='cart_id,product_id')]: the row that holds
    the pair is overwritten by the new row, and without such a row the new
    one is inserted.  The store keeps the pair unique. *)
Fixpoint upsert (item : cart_item) (rows : list cart_item) : list cart_item :=
  match rows with
  | [] => [item]
  | r :: rest => if same_line r item then item :: rest else r :: upsert item rest
  end.

Definition add_to_cart (cart_item : CartItemAdd) (current_user : user) : M string :=
  cart_response <- gets (carts_of_user (u_id current_user)) ;;
  cart_id <-
    match cart_response with
    | [] =>
        cart_id <- new_uuid ;;
        modify (with_carts (fun cs => cs ++ [{| c_id := cart_id;
                                                c_user_id := u_id current_user;
                                                c_total := num_zero |}])) ;;;
        ret cart_id
    | c :: _ => ret (c_id c)
    end ;;
  product_response <- gets (products_by_id (cia_product_id cart_item)) ;;
  match product_response with
  | [] => raise 404 "Product not found"
  | p :: _ =>
    let product_price := p_price p in
    item_id <- new_uuid ;;
    let item_obj := {| ci_id := item_id; ci_cart_id := cart_id;
                       ci_product_id := cia_product_id cart_item;
                       ci_quantity := cia_quantity cart_item;
                       ci_price := product_price |} in
    modify (with_cart_items (upsert item_obj)) ;;;
    cart_items <- gets (lines_of_cart cart_id) ;;
    let total := cart_sum cart_items in
    modify (set_total cart_id total) ;;;
    ret "Item added to cart successfully"
  end.

Definition remove_from_cart (product_id : string) (current_user : user) : M string :=
  cart_response <- gets (carts_of_user (u_id current_user)) ;;
  match cart_response with
  | [] => raise 404 "Cart not found"
  | c :: _ =>
    let cart_id := c_id c in
    modify (with_cart_items
              (filter (fun i => negb (andb (String.eqb (ci_cart_id i) cart_id)
                                           (String.eqb (ci_product_id i) product_id))))) ;;;
    cart_items <- gets (lines_of_cart cart_id) ;;
    let total := cart_sum cart_items in
    modify (set_total cart_id total) ;;;
    ret "Item removed from cart successfully"
  end.

Definition delete_lines (cid : string) (s : state) : state :=
  with_cart_items (filter (fun i => negb (String.eqb (ci_cart_id i) cid))) s.

Definition clear_cart (current_user : user) : M string :=
  cart_response <- gets (carts_of_user (u_id current_user)) ;;
  match cart_response with
  | [] => raise 404 "Cart not found"
  | c :: _ =>
    let cart_id := c_id c in
    modify (delete_lines cart_id) ;;;
    modify (set_total cart_id num_zero) ;;;
    ret "Cart cleared successfully"
  end.

End Cart.

(** ** Orders *)

Record CheckoutData : Type := {
  cd_delivery_address : string;
  cd_delivery_notes : option string;
  cd_phone_number : string
}.

Section Orders.
Context {E : Env}.

(** An item dict: [{"product_id": .., "quantity": .., "price": ..}]. *)
Record order_line : Type := {
  ol_product_id : string;
  ol_quantity : Z;
  ol_price : number
}.

Record OrderCreate : Type := {
  oc_farmer_id : string;
  oc_total_amount : number;
  oc_shipping_address : option string;
  oc_delivery_address : option string;
  oc_delivery_notes : option string;
  oc_phone_number : option string;
  oc_payment_info : option string;
  oc_items : list order_line
}.

Record order_response : Type := {
  orr_message : string;
  orr_order : order
}.

Record checkout_response : Type := {
  cr_message : string;
  cr_orders : list order
}.

(** The value of one key of the [farmer_orders] dict. *)
Record farmer_group : Type := {
  fg_items : list order_line;
  fg_total_amount : number
}.

(** [farmer_orders]: a dict, iterated in insertion order. *)
Definition farmer_orders : Type := list (string * farmer_group).

Record order_item_view : Type := {
  oiv_item : order_item;
  oiv_products : option product
}.

(** A row of the orders query: the order, its order items, each with its
    product, and under [users] the whole row of the buyer
    ([orders_buyer_id_fkey], every column). *)
Record order_view : Type := {
  ov_order : order;
  ov_order_items : list order_item_view;
  ov_users : option user
}.

Record orders_response : Type := {
  or_orders : list order_view;
  or_page : Z;
  or_limit : Z;
  or_total : Z
}.

Definition set_quantity (pid : string) (q : Z) (ps : list product) : list product :=
  map (fun p => if String.eqb (p_id p) pid
                then {| p_id := p_id p; p_name := p_name p; p_category := p_category p;
                        p_price := p_price p; p_description := p_description p;
                        p_quantity := q; p_unit := p_unit p;
                        p_farmer_id := p_farmer_id p; p_images := p_images p;
                        p_status := p_status p |}
                else p) ps.

(** The inventory write of both order paths: the quantity is read, then
    [quantity - ordered] is written back; a missing row makes [data[0]]
    fail. *)
Definition decrement_stock (product_id : string) (quantity : Z) : M unit :=
  rows <- gets (products_by_id product_id) ;;
  match rows with
  | [] => raise 500 "list index out of range"
  | p :: _ => modify (with_products (set_quantity product_id (p_quantity p - quantity)%Z))
  end.

(** [for item in items:] of [create_order] and of [checkout_order]. *)
Fixpoint order_items_loop (order_id : string) (items : list order_line)
    (order_items : list order_item) : M (list order_item) :=
  match items with
  | [] => ret order_items
  | item :: rest =>
    item_id <- new_uuid ;;
    let item_obj := {| oi_id := item_id; oi_order_id := order_id;
                       oi_product_id := ol_product_id item;
                       oi_quantity := ol_quantity item;
                       oi_price := ol_price item |} in
    decrement_stock (ol_product_id item) (ol_quantity item) ;;;
    order_items_loop order_id rest (order_items ++ [item_obj])
  end.

(** [if order_items: supabase.table('order_items').insert(order_items)] *)
Definition insert_order_items (rows : list order_item) : M unit :=
  match rows with
  | [] => ret tt
  | _ :: _ => modify (with_order_items (fun t => t ++ rows))
  end.

(** [POST /api/orders].  An insert returns the row it stored, so
    [order_result.data] is never empty here. *)
Definition create_order (order_data : OrderCreate) (current_user : user)
  : M order_response :=
  order_id <- new_uuid ;;
  let order_obj := {| o_id := order_id;
                      o_buyer_id := u_id current_user;
                      o_farmer_id := oc_farmer_id order_data;
                      o_total_amount := oc_total_amount order_data;
                      o_status := "pending";
                      o_shipping_address := oc_shipping_address order_data;
                      o_delivery_address := oc_delivery_address order_data;
                      o_delivery_notes := oc_delivery_notes order_data;
                      o_phone_number := oc_phone_number order_data;
                      o_payment_info := oc_payment_info order_data |} in
  modify (with_orders (fun t => t ++ [order_obj])) ;;;
  order_items <- order_items_loop order_id (oc_items order_data) [] ;;
  insert_order_items order_items ;;;
  ret {| orr_message := "Order created successfully"; orr_order := order_obj |}.

(** A cart line embedded with the product it references (every column),
    [None] when no product has that id. *)
Definition with_product (s : state) (i : cart_item) : cart_item * option product :=
  (i, find (fun p => String.eqb (p_id p) (ci_product_id i)) (products s)).

Fixpoint has_farmer (farmer_id : string) (fo : farmer_orders) : bool :=
  match fo with
  | [] => false
  | (k, _) :: rest => orb (String.eqb k farmer_id) (has_farmer farmer_id rest)
  end.

(** [if farmer_id not in farmer_orders: farmer_orders[farmer_id] = {...}] *)
Definition ensure_farmer (farmer_id : string) (fo : farmer_orders) : farmer_orders :=
  if has_farmer farmer_id fo then fo
  else fo ++ [(farmer_id, {| fg_items := []; fg_total_amount := num_zero |})].

(** The [append] and the [+=] on [farmer_orders[farmer_id]]. *)
Fixpoint record_line (farmer_id : string) (line : order_line) (amount : number)
    (fo : farmer_orders) : farmer_orders :=
  match fo with
  | [] => []
  | (k, g) :: rest =>
      if String.eqb k farmer_id
      then (k, {| fg_items := fg_items g ++ [line];
                  fg_total_amount := num_add (fg_total_amount g) amount |}) :: rest
      else (k, g) :: record_line farmer_id line amount rest
  end.

(** The grouping loop; subscripting the [None] of a line without product
    raises. *)
Fixpoint group_by_farmer (items : list (cart_item * option product))
    (fo : farmer_orders) : outcome farmer_orders :=
  match items with
  | [] => Ok fo
  | (_, None) :: _ =>
      Raise {| status_code := 500; detail := "'NoneType' object is not subscriptable" |}
  | (item, Some product) :: rest =>
      let farmer_id := p_farmer_id product in
      group_by_farmer rest
        (record_line farmer_id
           {| ol_product_id := p_id product;
              ol_quantity := ci_quantity item;
              ol_price := p_price product |}
           (num_mul (p_price product) (ci_quantity item))
           (ensure_farmer farmer_id fo))
  end.

Definition checkout_order_obj (checkout_data : CheckoutData) (buyer_id order_id farmer_id : string)
    (order_data : farmer_group) : order :=
  {| o_id := order_id;
     o_buyer_id := buyer_id;
     o_farmer_id := farmer_id;
     o_total_amount := fg_total_amount order_data;
     o_status := "pending";
     o_shipping_address := None;
     o_delivery_address := Some (cd_delivery_address checkout_data);
     o_delivery_notes := cd_delivery_notes checkout_data;
     o_phone_number := Some (cd_phone_number checkout_data);
     o_payment_info := None |}.

(** [for farmer_id, order_data in farmer_orders.items():] *)
Fixpoint farmer_orders_loop (checkout_data : CheckoutData) (buyer_id : string)
    (fo : farmer_orders) (created_orders : list order) : M (list order) :=
  match fo with
  | [] => ret created_orders
  | (farmer_id, order_data) :: rest =>
    order_id <- new_uuid ;;
    let order_obj := checkout_order_obj checkout_data buyer_id order_id farmer_id order_data in
    modify (with_orders (fun t => t ++ [order_obj])) ;;;
    order_items <- order_items_loop order_id (fg_items order_data) [] ;;
    insert_order_items order_items ;;;
    farmer_orders_loop checkout_data buyer_id rest (created_orders ++ [order_obj])
  end.

(** [.eq('id', cart_id).eq('user_id', current_user['id'])] *)
Definition carts_by_id_and_user (cid uid : string) (s : state) : list cart :=
  filter (fun c => andb (String.eqb (c_id c) cid) (String.eqb (c_user_id c) uid))
         (carts s).

Definition checkout_order (checkout_data : CheckoutData) (cart_id : string)
    (current_user : user) : M checkout_response :=
  cart_response <- gets (carts_by_id_and_user cart_id (u_id current_user)) ;;
  match cart_response with
  | [] => raise 404 "Cart not found"
  | cart :: _ =>
    cart_items <- gets (fun s => map (with_product s) (lines_of_cart (c_id cart) s)) ;;
    match cart_items with
    | [] => raise 400 "Cart is empty"
    | _ :: _ =>
      match group_by_farmer cart_items [] with
      | Raise e => fun s => (s, Raise e)
      | Ok fo =>
        created_orders <- farmer_orders_loop checkout_data (u_id current_user) fo [] ;;
        modify (delete_lines cart_id) ;;;
        modify (set_total cart_id num_zero) ;;;
        ret {| cr_message := "Checkout successful"; cr_orders := created_orders |}
      end
    end
  end.

Definition orders_for (current_user : user) (o : order) : bool :=
  if String.eqb (u_user_type current_user) "farmer"
  then String.eqb (o_farmer_id o) (u_id current_user)
  else if String.eqb (u_user_type current_user) "buyer"
  then String.eqb (o_buyer_id o) (u_id current_user)
  else true.

Definition with_items_and_buyer (s : state) (o : order) : order_view :=
  {| ov_order := o;
     ov_order_items :=
       map (fun i => {| oiv_item := i;
                        oiv_products := find (fun p => String.eqb (p_id p) (oi_product_id i))
                                             (products s) |})
           (filter (fun i => String.eqb (oi_order_id i) (o_id o)) (order_items s));
     ov_users := find (fun u => String.eqb (u_id u) (o_buyer_id o)) (users s) |}.

(** [GET /api/orders].  Orders are kept in creation order, so
    [order('created_at', desc=True)] reverses the table. *)
Definition get_orders (status : option string) (page limit : option Z)
    (current_user : user) : M orders_response :=
  let page := page_or_default page in
  let limit := limit_or_default limit in
  check_query page limit ;;;
  let start := ((page - 1) * limit)%Z in
  data <- gets (fun s =>
            map (with_items_and_buyer s)
              (range start (start + limit - 1)%Z
                 (rev (filter (fun o => andb (eq_if_given o_status status o)
                                             (orders_for current_user o))
                              (orders s))))) ;;
  ret {| or_orders := data; or_page := page; or_limit := limit;
         or_total := Z.of_nat (List.length data) |}.

End Orders.

(** * The other endpoints *)

(** ** Profiles and the user list *)

Record UserUpdate : Type := {
  uu_username : option string;
  uu_first_name : option (option string);
  uu_last_name : option (option string);
  uu_farm_name : option (option string);
  uu_location : option (option string);
  uu_phone : option (option string);
  uu_address : option (option string);
  uu_profile_image_url : option (option string)
}.

Record profile_response : Type := {
  upr_message : string;
  upr_user : user
}.

Record users_response : Type := {
  usr_users : list user;
  usr_pagination : pagination
}.

(** [update_data.dict(exclude_unset=True)] applied to a row: a field that
    was not sent keeps its value. *)
Definition apply_user_update (d : UserUpdate) (u : user) : user :=
  {| u_id := u_id u;
     u_username := match uu_username d with Some v => v | None => u_username u end;
     u_email := u_email u;
     u_password_hash := u_password_hash u;
     u_first_name := match uu_first_name d with Some v => v | None => u_first_name u end;
     u_last_name := match uu_last_name d with Some v => v | None => u_last_name u end;
     u_farm_name := match uu_farm_name d with Some v => v | None => u_farm_name u end;
     u_location := match uu_location d with Some v => v | None => u_location u end;
     u_user_type := u_user_type u;
     u_phone := match uu_phone d with Some v => v | None => u_phone u end;
     u_address := match uu_address d with Some v => v | None => u_address u end;
     u_profile_image_url :=
       match uu_profile_image_url d with Some v => v | None => u_profile_image_url u end;
     u_full_name := u_full_name u |}.

Section Profiles.
Context {E : Env}.

(** [PUT /api/users/{user_id}] *)
Definition update_user_profile (user_id : string) (update_data : UserUpdate)
    (current_user : user) : M profile_response :=
  if andb (negb (String.eqb (u_id current_user) user_id))
          (negb (String.eqb (u_user_type current_user) "admin"))
  then raise 403 "Not authorized"
  else
    modify (with_users
              (map (fun u => if String.eqb (u_id u) user_id
                             then apply_user_update update_data u else u))) ;;;
    result <- gets (users_by_id user_id) ;;
    match result with
    | u :: _ =>
        ret {| upr_message := "Profile updated successfully";
               upr_user := add_full_name (del_password_hash u) |}
    | [] => raise 500 "Update failed"
    end.

(** [GET /api/admin/users] *)
Definition get_all_users (page limit : option Z) (current_user : user)
  : M users_response :=
  let page := page_or_default page in
  let limit := limit_or_default limit in
  check_query page limit ;;;
  if negb (String.eqb (u_user_type current_user) "admin")
  then raise 403 "Admin access required"
  else
    let start := ((page - 1) * limit)%Z in
    response <- gets (fun s => range start (start + limit - 1)%Z (users s)) ;;
    let users' := map del_password_hash response in
    total <- gets (fun s => Z.of_nat (List.length (users s))) ;;
    ret {| usr_users := users';
           usr_pagination := {| pg_page := page; pg_limit := limit; pg_total := total;
                                pg_pages := ((total + limit - 1) / limit)%Z |} |}.

End Profiles.

(** ** Products: one, new, and the categories *)

Section Products.
Context {E : Env}.

(** The parsed body of [POST /api/products], defaults filled in. *)
Record ProductCreate : Type := {
  pc_name : string;
  pc_category : string;
  pc_price : number;
  pc_description : option string;
  pc_quantity : Z;
  pc_unit : option string;
  pc_images : option (list string);
  pc_status : string
}.

(** [GET /api/products/{product_id}] *)
Definition get_product (product_id : string) : M product_view :=
  response <- gets (fun s => map (with_farmer s) (products_by_id product_id s)) ;;
  match response with
  | [] => raise 404 "Product not found"
  | p :: _ => ret p
  end.

(** [POST /api/products] *)
Definition create_product (product_data : ProductCreate) (current_user : user)
  : M product_response :=
  if negb (String.eqb (u_user_type current_user) "farmer")
  then raise 403 "Only farmers can create products"
  else
    product_id <- new_uuid ;;
    let product_obj :=
      {| p_id := product_id;
         p_name := pc_name product_data;
         p_category := pc_category product_data;
         p_price := pc_price product_data;
         p_description := pc_description product_data;
         p_quantity := pc_quantity product_data;
         p_unit := pc_unit product_data;
         p_farmer_id := u_id current_user;
         p_images := match pc_images product_data with
                     | Some (x :: r) => x :: r
                     | _ => []
                     end;
         p_status := pc_status product_data |} in
    modify (with_products (fun t => t ++ [product_obj])) ;;;
    ret {| prr_message := "Product created successfully"; prr_product := product_obj |}.

(** Insertion into a list kept strictly increasing; an element already
    there is not inserted again. *)
Fixpoint insert_distinct (x : string) (l : list string) : list string :=
  match l with
  | [] => [x]
  | y :: r =>
      match String.compare x y with
      | Lt => x :: y :: r
      | Eq => y :: r
      | Gt => y :: insert_distinct x r
      end
  end.

(** [sorted(list(set(xs)))]: the elements of [xs], each once, in
    increasing order. *)
Definition sorted_set (xs : list string) : list string :=
  fold_right insert_distinct [] xs.

(** [GET /api/products/categories] *)
Definition get_categories : M (list string) :=
  response <- gets products ;;
  ret (sorted_set (map p_category
                       (filter (fun item => truthy (Some (p_category item))) response))).

End Products.

(** ** The cart, fetched *)

Section CartView.
Context {E : Env}.

(** The columns [users(full_name, farm_name)]. *)
Record seller_card : Type := {
  sc_full_name : option string;
  sc_farm_name : option string
}.

Record cart_product_view : Type := {
  cpv_product : product;
  cpv_users : option seller_card
}.

Record cart_item_view : Type := {
  civ_item : cart_item;
  civ_products : option cart_product_view
}.

(** The cart of a response: a stored cart comes with its lines under
    ['cart_items'], the row just inserted comes without that key. *)
Record cart_view : Type := {
  cv_cart : cart;
  cv_cart_items : option (list cart_item_view)
}.

Definition view_product (s : state) (p : product) : cart_product_view :=
  {| cpv_product := p;
     cpv_users :=
       option_map (fun u => {| sc_full_name := u_full_name u; sc_farm_name := u_farm_name u |})
                  (find (fun u => String.eqb (u_id u) (p_farmer_id p)) (users s)) |}.

Definition view_item (s : state) (i : cart_item) : cart_item_view :=
  {| civ_item := i;
     civ_products :=
       option_map (view_product s)
                  (find (fun p => String.eqb (p_id p) (ci_product_id i)) (products s)) |}.

Definition view_cart (s : state) (c : cart) : cart_view :=
  {| cv_cart := c;
     cv_cart_items := Some (map (view_item s) (lines_of_cart (c_id c) s)) |}.

(** [GET /api/cart] *)
Definition get_cart (current_user : user) : M cart_view :=
  cart_response <- gets (fun s => map (view_cart s) (carts_of_user (u_id current_user) s)) ;;
  match cart_response with
  | c :: _ => ret c
  | [] =>
    cart_id <- new_uuid ;;
    let cart_obj := {| c_id := cart_id; c_user_id := u_id current_user;
                       c_total := num_zero |} in
    modify (with_carts (fun cs => cs ++ [cart_obj])) ;;;
    ret {| cv_cart := cart_obj; cv_cart_items := None |}
  end.

End CartView.

(** ** Orders, updated *)

Record OrderUpdate : Type := {
  ou_status : option string;
  ou_shipping_address : option (option string);
  ou_delivery_address : option (option string);
  ou_delivery_notes : option (option string);
  ou_phone_number : option (option string);
  ou_payment_info : option (option string)
}.

Section OrderUpdates.
Context {E : Env}.

(** [order_data.dict(exclude_unset=True)] applied to a row. *)
Definition apply_order_update (d : OrderUpdate) (o : order) : order :=
  {| o_id := o_id o;
     o_buyer_id := o_buyer_id o;
     o_farmer_id := o_farmer_id o;
     o_total_amount := o_total_amount o;
     o_status := or_keep (ou_status d) (o_status o);
     o_shipping_address := or_keep (ou_shipping_address d) (o_shipping_address o);
     o_delivery_address := or_keep (ou_delivery_address d) (o_delivery_address o);
     o_delivery_notes := or_keep (ou_delivery_notes d) (o_delivery_notes o);
     o_phone_number := or_keep (ou_phone_number d) (o_phone_number o);
     o_payment_info := or_keep (ou_payment_info d) (o_payment_info o) |}.

Definition orders_by_id (order_id : string) (s : state) : list order :=
  filter (fun o => String.eqb (o_id o) order_id) (orders s).

(** [current_user['id'] not in [order['buyer_id'], order['farmer_id']]
    and current_user.get('user_type') != 'admin'] *)
Definition not_party (current_user : user) (o : order) : bool :=
  andb (negb (orb (String.eqb (u_id current_user) (o_buyer_id o))
                  (String.eqb (u_id current_user) (o_farmer_id o))))
       (negb (String.eqb (u_user_type current_user) "admin")).

(** [PUT /api/orders/{order_id}] *)
Definition update_order (order_id : string) (order_data : OrderUpdate)
    (current_user : user) : M order_response :=
  response <- gets (orders_by_id order_id) ;;
  match response with
  | [] => raise 404 "Order not found"
  | o :: _ =>
    if not_party current_user o
    then raise 403 "Not authorized"
    else
      modify (with_orders
                (map (fun o' => if String.eqb (o_id o') order_id
                                then apply_order_update order_data o' else o'))) ;;;
      result <- gets (orders_by_id order_id) ;;
      match result with
      | r :: _ => ret {| orr_message := "Order updated successfully"; orr_order := r |}
      | [] => raise 500 "Order update failed"
      end
  end.

End OrderUpdates.

(** ** The admin dashboard *)

Section Admin.
Context {E : Env}.

Record admin_stats : Type := {
  as_total_users : Z;
  as_total_products : Z;
  as_total_orders : Z;
  as_total_revenue : number;
  as_active_farmers : Z;
  as_active_buyers : Z
}.

Definition count {A : Type} (rows : list A) : Z := Z.of_nat (List.length rows).

(** [sum(order['total_amount'] for order in data) if data else 0] *)
Definition revenue (data : list order) : number :=
  match data with
  | [] => num_zero
  | _ :: _ => fold_left (fun acc o => num_add acc (o_total_amount o)) data num_zero
  end.

(** [GET /api/admin/stats] *)
Definition get_admin_dashboard_stats (current_user : user) : M admin_stats :=
  if negb (String.eqb (u_user_type current_user) "admin")
  then raise 403 "Admin access required"
  else
    total_users <- gets (fun s => count (users s)) ;;
    total_products <- gets (fun s => count (products s)) ;;
    total_orders <- gets (fun s => count (orders s)) ;;
    total_revenue_result <-
      gets (fun s => filter (fun o => String.eqb (o_status o) "completed") (orders s)) ;;
    let total_revenue := revenue total_revenue_result in
    active_farmers <-
      gets (fun s => count (filter (fun u => String.eqb (u_user_type u) "farmer") (users s))) ;;
    active_buyers <-
      gets (fun s => count (filter (fun u => String.eqb (u_user_type u) "buyer") (users s))) ;;
    ret {| as_total_users := total_users;
           as_total_products := total_products;
           as_total_orders := total_orders;
           as_total_revenue := total_revenue;
           as_active_farmers := active_farmers;
           as_active_buyers := active_buyers |}.

End Admin.

(** * The vocabulary of the properties *)

Section Vocabulary.
Context {E : Env}.

(** ** The errors of the endpoints *)

Definition cart_not_found : HTTPException :=
  {| status_code := 404; detail := "Cart not found" |}.

Definition cart_is_empty : HTTPException :=
  {| status_code := 400; detail := "Cart is empty" |}.

Definition product_not_found : HTTPException :=
  {| status_code := 404; detail := "Product not found or unauthorized" |}.

Definition invalid_credentials : HTTPException :=
  {| status_code := 401; detail := "Invalid email or password" |}.

(** ** Carts *)

Definition line_is (cid pid : string) (i : cart_item) : bool :=
  andb (String.eqb (ci_cart_id i) cid) (String.eqb (ci_product_id i) pid).

(** ** Inventory *)

Definition rows_with_id (pid : string) (ps : list product) : list product :=
  filter (fun p => String.eqb (p_id p) pid) ps.

(** The quantity a [select('quantity').eq('id', pid)] reads: that of the
    first row returned. *)
Definition stock (pid : string) (ps : list product) : option Z :=
  option_map p_quantity (hd_error (rows_with_id pid ps)).

(** One inventory write, on the table. *)
Definition take_stock (ps : list product) (l : order_line) : list product :=
  match rows_with_id (ol_product_id l) ps with
  | p :: _ => set_quantity (ol_product_id l) (p_quantity p - ol_quantity l)%Z ps
  | [] => ps
  end.

Definition sumZ (l : list Z) : Z := fold_right Z.add 0%Z l.

(** The quantity of product [pid] that a list of order lines asks for. *)
Definition ordered (pid : string) (ls : list order_line) : Z :=
  sumZ (map (fun l => if String.eqb (ol_product_id l) pid then ol_quantity l else 0%Z) ls).

(** The quantity of product [pid] that a list of cart lines holds. *)
Definition in_cart (pid : string) (ls : list cart_item) : Z :=
  sumZ (map (fun i => if String.eqb (ci_product_id i) pid then ci_quantity i else 0%Z) ls).

(** ** Orders *)

(** The row a direct order inserts. *)
Definition create_order_obj (order_data : OrderCreate) (buyer_id order_id : string) : order :=
  {| o_id := order_id;
     o_buyer_id := buyer_id;
     o_farmer_id := oc_farmer_id order_data;
     o_total_amount := oc_total_amount order_data;
     o_status := "pending";
     o_shipping_address := oc_shipping_address order_data;
     o_delivery_address := oc_delivery_address order_data;
     o_delivery_notes := oc_delivery_notes order_data;
     o_phone_number := oc_phone_number order_data;
     o_payment_info := oc_payment_info order_data |}.

(** The order items built for the lines of one order, the first of them
    with the n-th uuid. *)
Fixpoint items_of (order_id : string) (lines : list order_line) (n : nat)
  : list order_item :=
  match lines with
  | [] => []
  | l :: rest =>
      {| oi_id := uuid4 n; oi_order_id := order_id;
         oi_product_id := ol_product_id l;
         oi_quantity := ol_quantity l;
         oi_price := ol_price l |} :: items_of order_id rest (S n)
  end.

(** The orders of a checkout with their items, the first order taking
    the n-th uuid. *)
Fixpoint place_orders (checkout_data : CheckoutData) (buyer_id : string)
    (fo : farmer_orders) (n : nat) : list (order * list order_item) :=
  match fo with
  | [] => []
  | (farmer_id, g) :: rest =>
      (checkout_order_obj checkout_data buyer_id (uuid4 n) farmer_id g,
       items_of (uuid4 n) (fg_items g) (S n))
      :: place_orders checkout_data buyer_id rest (S n + List.length (fg_items g))
  end.

Definition all_lines (fo : farmer_orders) : list order_line :=
  List.concat (map (fun kg => fg_items (snd kg)) fo).

Definition draws (fo : farmer_orders) : nat :=
  list_sum (map (fun kg => S (List.length (fg_items (snd kg)))) fo).

(** The store [s] after some orders were placed: new product rows, more
    orders and order items, more uuids drawn. *)
Definition after_orders (s : state) (ps : list product) (os : list order)
    (ois : list order_item) (k : nat) : state :=
  {| users := users s; products := ps; carts := carts s;
     cart_items := cart_items s; orders := orders s ++ os;
     order_items := order_items s ++ ois; uuid_draws := uuid_draws s + k |}.

(** The cart as the checkout loads it: each line with its product. *)
Definition loaded_lines (s : state) (cid : string) : list (cart_item * product) :=
  flat_map (fun i => match snd (with_product s i) with
                     | Some p => [(i, p)]
                     | None => []
                     end)
           (lines_of_cart cid s).

Definition of_farmer (f : string) (j : cart_item * product) : bool :=
  String.eqb (p_farmer_id (snd j)) f.

Definition line_of (j : cart_item * product) : order_line :=
  {| ol_product_id := p_id (snd j);
     ol_quantity := ci_quantity (fst j);
     ol_price := p_price (snd j) |}.

(** Sum of (current product price * line quantity), as the loop adds. *)
Definition amount_of (js : list (cart_item * product)) : number :=
  fold_left (fun acc j => num_add acc (num_mul (p_price (snd j)) (ci_quantity (fst j))))
            js num_zero.

(** The sum a checkout would charge if it read the price kept on the
    cart lines. *)
Definition snapshot_amount (js : list (cart_item * product)) : number :=
  fold_left (fun acc j => num_add acc (num_mul (ci_price (fst j)) (ci_quantity (fst j))))
            js num_zero.

Definition group_of (f : string) (js : list (cart_item * product)) : farmer_group :=
  {| fg_items := map line_of (filter (of_farmer f) js);
     fg_total_amount := amount_of (filter (of_farmer f) js) |}.

(** [fo] is the partition of the loaded lines by owning farmer. *)
Definition grouped (js : list (cart_item * product)) (fo : farmer_orders) : Prop :=
  NoDup (map fst fo) /\
  (forall f, In f (map fst fo) <-> In f (map (fun j => p_farmer_id (snd j)) js)) /\
  (forall f g, In (f, g) fo -> g = group_of f js).

(** The store a checkout that goes through leaves behind. *)
Definition after_checkout (checkout_data : CheckoutData) (cart_id buyer_id : string)
    (fo : farmer_orders) (s : state) : state :=
  set_total cart_id num_zero
    (delete_lines cart_id
       (after_orders s
          (fold_left take_stock (all_lines fo) (products s))
          (map fst (place_orders checkout_data buyer_id fo (uuid_draws s)))
          (List.concat (map snd (place_orders checkout_data buyer_id fo (uuid_draws s))))
          (draws fo))).

(** ** Accounts *)

Definition email_taken : HTTPException :=
  {| status_code := 400; detail := "User with this email already exists" |}.

Definition username_taken : HTTPException :=
  {| status_code := 400; detail := "Username already taken" |}.

Definition not_authorized : HTTPException :=
  {| status_code := 403; detail := "Not authorized" |}.

Definition update_failed : HTTPException :=
  {| status_code := 500; detail := "Update failed" |}.

Definition admin_required : HTTPException :=
  {| status_code := 403; detail := "Admin access required" |}.

(** The row a registration stores, under the uuid it drew. *)
Definition registered (d : UserCreate) (uid : string) : user :=
  {| u_id := uid;
     u_username := uc_username d;
     u_email := uc_email d;
     u_password_hash := Some (PyStr (get_password_hash (uc_password d)));
     u_first_name := uc_first_name d;
     u_last_name := uc_last_name d;
     u_farm_name := if String.eqb (uc_user_type d) "farmer" then uc_farm_name d else None;
     u_location := if String.eqb (uc_user_type d) "farmer" then uc_location d else None;
     u_user_type := uc_user_type d;
     u_phone := uc_phone d;
     u_address := uc_address d;
     u_profile_image_url := uc_profile_image_url d;
     u_full_name := None |}.

(** What a profile update cannot touch. *)
Definition identity_of (u : user) : string * string * option pyval * string :=
  (u_id u, u_email u, u_password_hash u, u_user_type u).

(** ** Catalog *)

Definition only_farmers : HTTPException :=
  {| status_code := 403; detail := "Only farmers can create products" |}.

Definition product_missing : HTTPException :=
  {| status_code := 404; detail := "Product not found" |}.

(** The row [create_product] stores, under the uuid it drew. *)
Definition created_product (d : ProductCreate) (farmer_id product_id : string) : product :=
  {| p_id := product_id;
     p_name := pc_name d;
     p_category := pc_category d;
     p_price := pc_price d;
     p_description := pc_description d;
     p_quantity := pc_quantity d;
     p_unit := pc_unit d;
     p_farmer_id := farmer_id;
     p_images := match pc_images d with
                 | Some (x :: r) => x :: r
                 | _ => []
                 end;
     p_status := pc_status d |}.

(** Python orders strings by code point, which on UTF-8 bytes is the
    order of [String.compare]. *)
Definition str_lt (a b : string) : Prop := String.compare a b = Lt.

(** The products a listing request shows, nothing when it is refused. *)
Definition listed (category farmer_id search : option string) (page limit : Z)
    (s : state) : list product_view :=
  match get_products category farmer_id search (Some page) (Some limit) s with
  | (_, Ok r) => pr_products r
  | (_, Raise _) => []
  end.

(** ** Cart lines *)

Definition line_key (i : cart_item) : string * string :=
  (ci_cart_id i, ci_product_id i).

(** No (cart, product) pair has two lines. *)
Definition lines_unique (s : state) : Prop :=
  NoDup (map line_key (cart_items s)).

(** ** Orders and the dashboard *)

Definition index_error : HTTPException :=
  {| status_code := 500; detail := "list index out of range" |}.

Definition none_subscript : HTTPException :=
  {| status_code := 500; detail := "'NoneType' object is not subscriptable" |}.

Definition order_missing : HTTPException :=
  {| status_code := 404; detail := "Order not found" |}.

(** What an inventory write cannot touch. *)
Definition listing_of (p : product)
  : string * string * string * number * string * string :=
  (p_id p, p_name p, p_category p, p_price p, p_farmer_id p, p_status p).

(** What an order update cannot touch. *)
Definition parties_of (o : order) : string * string * string * number :=
  (o_id o, o_buyer_id o, o_farmer_id o, o_total_amount o).

End Vocabulary.

(** ** A sample environment

    Integers stand for the JSON numbers; the digest, the token and the
    uuids are readable stand-ins. *)

Definition sample_env : Env :=
  {| number := Z;
     num_zero := 0%Z;
     num_add := Z.add;
     num_mul := Z.mul;
     uuid4 := fun n => ("uuid-" ++ NilEmpty.string_of_uint (Nat.to_uint n))%string;
     sha256_hexdigest := fun s => ("sha256:" ++ s)%string;
     jwt_encode := fun claims key alg =>
                     (alg ++ "." ++ String.concat "," (map snd claims) ++ "." ++ key)%string;
     token_expiry := "2024-01-08T00:00:00";
     SECRET_KEY := "your-secret-key-here-change-in-production";
     ALGORITHM := "HS256";
     PASSWORD_SALT := "agronexus-salt-2024-change-in-production";
     ilike := fun pattern text => String.eqb pattern ("%" ++ text ++ "%")%string |}.

(** ** A sample marketplace *)

(** An amount of the sample environment. *)
Definition shillings (z : Z) : @number sample_env := z.

Definition sample_user (uid name email kind : string) (digest : option pyval) : user :=
  {| u_id := uid; u_username := name; u_email := email;
     u_password_hash := digest;
     u_first_name := None; u_last_name := None;
     u_farm_name := None; u_location := None;
     u_user_type := kind; u_phone := None; u_address := None;
     u_profile_image_url := None; u_full_name := None |}.

Definition amina : user :=
  sample_user "farmer-1" "amina" "amina@farm.example" "farmer"
    (Some (PyStr (get_password_hash (E := sample_env) "maize"))).

Definition baraka : user :=
  sample_user "farmer-2" "baraka" "baraka@farm.example" "farmer"
    (Some (PyStr (get_password_hash (E := sample_env) "beans"))).

Definition chebet : user :=
  sample_user "buyer-1" "chebet" "chebet@mail.example" "buyer"
    (Some (PyStr (get_password_hash (E := sample_env) "sukuma"))).

(** A record that predates the digest column. *)
Definition daudi : user :=
  sample_user "buyer-2" "daudi" "daudi@mail.example" "buyer" None.

Definition sample_product (pid name : string) (price quantity : Z) (farmer : string)
  : product (E := sample_env) :=
  {| p_id := pid; p_name := name; p_category := "produce"; p_price := shillings price;
     p_description := None; p_quantity := quantity; p_unit := Some "kg";
     p_farmer_id := farmer; p_images := []; p_status := "active" |}.

Definition earlier_order : order (E := sample_env) :=
  {| o_id := "order-0"; o_buyer_id := "buyer-1"; o_farmer_id := "farmer-1";
     o_total_amount := shillings 20; o_status := "pending";
     o_shipping_address := None; o_delivery_address := Some "Eldoret";
     o_delivery_notes := None; o_phone_number := Some "0700";
     o_payment_info := None |}.

Definition market : state (E := sample_env) :=
  {| users := [amina; baraka; chebet; daudi];
     products := [sample_product "p-1" "maize" 10 3 "farmer-1";
                  sample_product "p-2" "beans" 5 10 "farmer-2";
                  sample_product "p-3" "kale" 7 4 "farmer-1"];
     carts := [];
     cart_items := [];
     orders := [earlier_order];
     order_items := [{| oi_id := "item-0"; oi_order_id := "order-0";
                        oi_product_id := "p-1"; oi_quantity := 2%Z;
                        oi_price := shillings 10 |}];
     uuid_draws := 0 |}.

(** Chebet fills her cart: maize, beans, and more kale than is in stock. *)
Definition market_with_cart : state (E := sample_env) :=
  Eval vm_compute in
  let s1 := fst (add_to_cart {| cia_product_id := "p-1"; cia_quantity := 1 |} chebet market) in
  let s2 := fst (add_to_cart {| cia_product_id := "p-2"; cia_quantity := 2 |} chebet s1) in
  fst (add_to_cart {| cia_product_id := "p-3"; cia_quantity := 5 |} chebet s2).

Definition price_change : ProductUpdate (E := sample_env) :=
  {| pu_name := None; pu_category := None; pu_price := Some (shillings 12);
     pu_description := None; pu_quantity := None; pu_unit := None;
     pu_images := None; pu_status := None |}.

(** Then Amina raises the price of maize from 10 to 12. *)
Definition market_repriced : state (E := sample_env) :=
  Eval vm_compute in fst (update_product "p-1" price_change amina market_with_cart).

Definition delivery : CheckoutData :=
  {| cd_delivery_address := "Eldoret"; cd_delivery_notes := None;
     cd_phone_number := "0700" |}.

(** Twenty-five products of one farmer, for the listing. *)
Definition stall : state (E := sample_env) :=
  {| users := [amina];
     products := map (fun n => sample_product (uuid4 (Env := sample_env) n) "maize" 10 1 "farmer-1")
                     (seq 0 25);
     carts := []; cart_items := []; orders := []; order_items := [];
     uuid_draws := 25 |}.

(** The market after Chebet emptied her cart again. *)
Definition market_cleared : state (E := sample_env) :=
  Eval vm_compute in fst (clear_cart chebet market_with_cart).

(** The market after Amina withdrew her maize. *)
Definition market_without_maize : state (E := sample_env) :=
  Eval vm_compute in fst (delete_product "p-1" amina market).

(** ** More of the sample marketplace *)

(** The admin. *)
Definition zawadi : user :=
  sample_user "admin-1" "zawadi" "zawadi@agronexus.example" "admin"
    (Some (PyStr (get_password_hash (E := sample_env) "ugali"))).

(** A buyer who is not registered yet. *)
Definition faraja : UserCreate :=
  {| uc_username := "faraja"; uc_email := "faraja@mail.example";
     uc_password := "chapati"; uc_user_type := "buyer";
     uc_first_name := Some "Faraja"; uc_last_name := None;
     uc_farm_name := Some "Shamba"; uc_location := None;
     uc_phone := None; uc_address := None; uc_profile_image_url := None |}.

Definition new_phone : UserUpdate :=
  {| uu_username := None; uu_first_name := None; uu_last_name := None;
     uu_farm_name := None; uu_location := None; uu_phone := Some (Some "0711");
     uu_address := None; uu_profile_image_url := None |}.

Definition millet : ProductCreate (E := sample_env) :=
  {| pc_name := "millet"; pc_category := "grain"; pc_price := shillings 9;
     pc_description := None; pc_quantity := 6; pc_unit := Some "kg";
     pc_images := None; pc_status := "active" |}.


(** The market after Amina withdrew the maize that sits in Chebet's cart. *)
Definition market_dangling : state (E := sample_env) :=
  Eval vm_compute in fst (delete_product "p-1" amina market_with_cart).

Definition kale_line (n : Z) : order_line (E := sample_env) :=
  {| ol_product_id := "p-3"; ol_quantity := n; ol_price := shillings 7 |}.

Definition ghost_line : order_line (E := sample_env) :=
  {| ol_product_id := "p-9"; ol_quantity := 1; ol_price := shillings 3 |}.

Definition direct_order (items : list (order_line (E := sample_env)))
  : OrderCreate (E := sample_env) :=
  {| oc_farmer_id := "farmer-1"; oc_total_amount := shillings 100;
     oc_shipping_address := None; oc_delivery_address := Some "Eldoret";
     oc_delivery_notes := None; oc_phone_number := None; oc_payment_info := None;
     oc_items := items |}.

Definition mark_completed : OrderUpdate :=
  {| ou_status := Some "completed"; ou_shipping_address := None;
     ou_delivery_address := None; ou_delivery_notes := None;
     ou_phone_number := None; ou_payment_info := None |}.

(** * Properties *)

Section Proofs.
Context {E : Env}.

(** ** Lists and the monad *)

Lemma filter_nil_iff {A : Type} (f : A -> bool) (l : list A) :
  filter f l = [] <-> (forall x, In x l -> f x = false).
Proof.
  induction l as [|a l IH]; simpl.
  - split; [intros _ x [] | reflexivity].
  - destruct (f a) eqn:Fa.
    + split; [discriminate|].
      intros H. rewrite (H a) in Fa by (left; reflexivity). discriminate.
    + rewrite IH. split.
      * intros H x [<-|Hx]; [assumption | apply H, Hx].
      * intros H x Hx. apply H. right. exact Hx.
Qed.

Lemma filter_cons_in {A : Type} (f : A -> bool) (l : list A) (x : A) (r : list A) :
  filter f l = x :: r -> In x l /\ f x = true.
Proof.
  intros H. apply filter_In. rewrite H. left. reflexivity.
Qed.

Lemma filter_in_cons {A : Type} (f : A -> bool) (l : list A) (x : A) :
  In x l -> f x = true -> exists y r, filter f l = y :: r.
Proof.
  intros Hin Hf.
  destruct (filter f l) as [|y r] eqn:Hfl.
  - rewrite filter_nil_iff in Hfl. rewrite (Hfl x Hin) in Hf. discriminate.
  - exists y, r. reflexivity.
Qed.

Lemma filter_map_same {A : Type} (p : A -> bool) (f : A -> A) (l : list A) :
  (forall x, p (f x) = p x) -> filter p (map f l) = map f (filter p l).
Proof.
  intros H. induction l as [|a l IH]; simpl; [reflexivity|].
  rewrite H. destruct (p a); simpl; rewrite IH; reflexivity.
Qed.

(** ** Checkout: the rejected requests *)

(** C7: a checkout on a cart id that does not exist or belongs to another
    user fails with 404 "Cart not found", a checkout on a cart of the user
    without line items fails with 400 "Cart is empty"; in both cases the
    store comes back as it was: no order, no stock write, the cart
    untouched. *)
Theorem checkout_rejected_without_effect
    (checkout_data : CheckoutData) (cart_id : string) (current_user : user) (s : state) :
  ((forall c, In c (carts s) -> c_id c = cart_id -> c_user_id c <> u_id current_user) ->
   checkout_order checkout_data cart_id current_user s = (s, Raise cart_not_found))
  /\
  ((exists c, In c (carts s) /\ c_id c = cart_id /\ c_user_id c = u_id current_user) ->
   (forall i, In i (cart_items s) -> ci_cart_id i <> cart_id) ->
   checkout_order checkout_data cart_id current_user s = (s, Raise cart_is_empty)).
Proof.
  split.
  - intros Hnone. unfold checkout_order, bind, gets.
    replace (carts_by_id_and_user cart_id (u_id current_user) s) with (@nil cart).
    + reflexivity.
    + symmetry. apply filter_nil_iff. intros c Hc.
      destruct (String.eqb (c_id c) cart_id) eqn:Hid; simpl; [|reflexivity].
      apply String.eqb_eq in Hid. apply String.eqb_neq. apply Hnone; assumption.
  - intros (c & Hc & Hid & Hu) Hempty. unfold checkout_order, bind, gets.
    destruct (filter_in_cons
                (fun c => andb (String.eqb (c_id c) cart_id)
                               (String.eqb (c_user_id c) (u_id current_user)))
                (carts s) c Hc) as (c0 & r & Hf).
    { rewrite Hid, Hu, !String.eqb_refl. reflexivity. }
    unfold carts_by_id_and_user. rewrite Hf.
    replace (lines_of_cart (c_id c0) s) with (@nil cart_item).
    + reflexivity.
    + symmetry. apply filter_nil_iff. intros i Hi.
      apply filter_cons_in in Hf. destruct Hf as [_ Hc0].
      apply andb_prop in Hc0. destruct Hc0 as [Hc0 _].
      apply String.eqb_eq in Hc0. rewrite Hc0.
      apply String.eqb_neq. apply Hempty, Hi.
Qed.

(** ** Catalog: ownership scoping *)

Lemma owned_products_nil (pid uid : string) (s : state) :
  (forall p, In p (products s) -> p_id p = pid -> p_farmer_id p <> uid) ->
  owned_products pid uid s = [].
Proof.
  intros H. apply filter_nil_iff. intros p Hp.
  destruct (String.eqb (p_id p) pid) eqn:Hid; simpl; [|reflexivity].
  apply String.eqb_eq in Hid. apply String.eqb_neq. apply H; assumption.
Qed.

(** C8: a farmer who updates or deletes a product that exists but belongs
    to someone else gets the very response that a request on an id that no
    product has gets: 404 "Product not found or unauthorized", never a
    403, with the store untouched in both cases. *)
Theorem foreign_product_looks_absent
    (product_id : string) (product_data : ProductUpdate) (current_user : user)
    (s_foreign s_absent : state) :
  (exists p, In p (products s_foreign) /\ p_id p = product_id) ->
  (forall p, In p (products s_foreign) -> p_id p = product_id ->
             p_farmer_id p <> u_id current_user) ->
  (forall p, In p (products s_absent) -> p_id p <> product_id) ->
  exists e : HTTPException,
    e = product_not_found /\ status_code e <> 403%Z /\
    update_product product_id product_data current_user s_foreign = (s_foreign, Raise e) /\
    update_product product_id product_data current_user s_absent = (s_absent, Raise e) /\
    delete_product product_id current_user s_foreign = (s_foreign, Raise e) /\
    delete_product product_id current_user s_absent = (s_absent, Raise e).
Proof.
  intros _ Hforeign Habsent.
  assert (H1 : owned_products product_id (u_id current_user) s_foreign = [])
    by (apply owned_products_nil; assumption).
  assert (H2 : owned_products product_id (u_id current_user) s_absent = []).
  { apply owned_products_nil. intros p Hp Hid. exfalso. exact (Habsent p Hp Hid). }
  exists product_not_found.
  unfold update_product, delete_product, bind, gets. rewrite H1, H2.
  repeat split; discriminate.
Qed.

(** ** Login *)

Lemma users_by_email_nil (email : string) (s : state) :
  (forall u, In u (users s) -> u_email u <> email) -> users_by_email email s = [].
Proof.
  intros H. apply filter_nil_iff. intros u Hu. apply String.eqb_neq. apply H, Hu.
Qed.

Lemma users_by_email_backfilled (email uid h : string) (s : state) :
  users_by_email email (with_users (store_password_hash uid h) s)
  = store_password_hash uid h (users_by_email email s).
Proof.
  unfold users_by_email, store_password_hash. simpl.
  apply filter_map_same. intros u. destruct (String.eqb (u_id u) uid); reflexivity.
Qed.

Lemma verify_own_hash (password : string) :
  verify_password password (PyStr (get_password_hash password)) = true.
Proof. unfold verify_password. apply String.eqb_refl. Qed.

(** What [login_user] does on a record without digest key: the digest of
    the supplied password is stored first, and the check then passes. *)
Lemma login_backfills_missing_digest (login_data : UserLogin) (s : state)
    (u : user) (rest : list user) :
  users_by_email (ul_email login_data) s = u :: rest ->
  u_password_hash u = None ->
  exists r,
    login_user login_data s
    = (with_users (store_password_hash (u_id u) (get_password_hash (ul_password login_data))) s,
       Ok r).
Proof.
  intros Hu Hnone. unfold login_user, bind, gets. rewrite Hu, Hnone.
  unfold modify, ret, get_password_hash_or_empty. simpl.
  rewrite String.eqb_refl. simpl. eexists. reflexivity.
Qed.

(** C5: login fails with 401 "Invalid email or password" when no record
    has the email, and when the record found for the email holds a digest
    that the supplied password does not verify against; a user and a token
    come back only when the password verifies against the digest stored
    for that user. *)
Theorem login_checks_credentials (login_data : UserLogin) (s : state) :
  ((forall u, In u (users s) -> u_email u <> ul_email login_data) ->
   login_user login_data s = (s, Raise invalid_credentials))
  /\
  (forall u rest h,
     users_by_email (ul_email login_data) s = u :: rest ->
     u_password_hash u = Some h ->
     verify_password (ul_password login_data) h = false ->
     login_user login_data s = (s, Raise invalid_credentials))
  /\
  (forall s' r,
     login_user login_data s = (s', Ok r) ->
     exists u h,
       hd_error (users_by_email (ul_email login_data) s') = Some u /\
       u_password_hash u = Some h /\
       verify_password (ul_password login_data) h = true /\
       ar_user r = add_full_name (del_password_hash u) /\
       ar_token r = create_access_token (token_claims u)).
Proof.
  split; [|split].
  - intros Hnone. unfold login_user, bind, gets.
    rewrite users_by_email_nil by assumption. reflexivity.
  - intros u rest h Hu Hh Hv. unfold login_user, bind, gets.
    rewrite Hu, Hh. unfold ret, get_password_hash_or_empty. rewrite Hh, Hv. reflexivity.
  - intros s' r. unfold login_user, bind, gets.
    destruct (users_by_email (ul_email login_data) s) as [|u0 rest] eqn:Hu;
      [discriminate|].
    destruct (u_password_hash u0) as [v|] eqn:Hh.
    + unfold ret, get_password_hash_or_empty. rewrite Hh.
      destruct (verify_password (ul_password login_data) v) eqn:Hv; simpl;
        [|discriminate].
      intros H. inversion H; subst. exists u0, v. rewrite Hu. simpl.
      repeat split; assumption.
    + unfold modify, ret, get_password_hash_or_empty. simpl.
      rewrite String.eqb_refl. simpl. intros H. inversion H; subst. clear H.
      exists (set_password_hash (Some (PyStr (get_password_hash (ul_password login_data)))) u0),
             (PyStr (get_password_hash (ul_password login_data))).
      rewrite users_by_email_backfilled, Hu. simpl. rewrite String.eqb_refl.
      repeat split. apply verify_own_hash.
Qed.

(** ** Product listing: pagination *)

Lemma nth_error_range {A : Type} (start stop : Z) (rows : list A) (i : nat) :
  nth_error (range start stop rows) i
  = if (i <? Z.to_nat (stop - start + 1))%nat
    then nth_error rows (Z.to_nat start + i) else None.
Proof.
  unfold range. rewrite nth_error_firstn, nth_error_skipn. reflexivity.
Qed.

Lemma length_range {A : Type} (start stop : Z) (rows : list A) :
  List.length (range start stop rows)
  = Nat.min (Z.to_nat (stop - start + 1)) (List.length rows - Z.to_nat start).
Proof.
  unfold range. rewrite length_firstn, length_skipn. reflexivity.
Qed.

Lemma pages_is_ceiling (total limit : Z) :
  (0 < limit)%Z ->
  let pages := ((total + limit - 1) / limit)%Z in
  (total <= pages * limit < total + limit)%Z.
Proof.
  intros Hl pages.
  pose proof (Z.div_mod (total + limit - 1) limit ltac:(lia)) as Hdm.
  pose proof (Z.mod_pos_bound (total + limit - 1) limit Hl) as Hm.
  subst pages. nia.
Qed.

Lemma query_in_bounds_iff (page limit : Z) :
  query_in_bounds page limit = true <-> (1 <= page /\ 1 <= limit <= 100)%Z.
Proof.
  unfold query_in_bounds. rewrite !andb_true_iff, !Z.leb_le. tauto.
Qed.

(** C9: pages count from 1 and the page size lies in [1,100]: a
    request for page [page] with [limit] rows to a page outside these
    bounds is refused before the store is asked; within them the page
    holds the rows at offsets (page-1)*limit to page*limit-1 of the
    filtered result, the response reports the page and the limit that
    were asked for, and the page count is ceil(total/limit), the least
    number of pages of that size that hold all the rows; page 2 of size
    20 over 25 rows has 5 rows and the page count is 2.  A request that
    leaves the page out asks for page 1, one that leaves the limit out
    asks for 20 rows. *)
Theorem get_products_pagination
    (category farmer_id search : option string) (page limit : Z) (s : state) :
  let rows := matching_products category farmer_id search s in
  let total := Z.of_nat (List.length rows) in
  ((1 <= page)%Z -> (1 <= limit <= 100)%Z ->
   exists r,
     get_products category farmer_id search (Some page) (Some limit) s = (s, Ok r) /\
     (forall i : nat,
        nth_error (pr_products r) i
        = if (Z.of_nat i <? limit)%Z
          then nth_error rows (Z.to_nat ((page - 1) * limit) + i) else None) /\
     pg_page (pr_pagination r) = page /\
     pg_limit (pr_pagination r) = limit /\
     pg_total (pr_pagination r) = total /\
     (total <= pg_pages (pr_pagination r) * limit < total + limit)%Z /\
     (page = 2%Z -> limit = 20%Z -> total = 25%Z ->
      List.length (pr_products r) = 5%nat /\ pg_pages (pr_pagination r) = 2%Z))
  /\
  (~ ((1 <= page)%Z /\ (1 <= limit <= 100)%Z) ->
   exists e,
     get_products category farmer_id search (Some page) (Some limit) s = (s, Raise e) /\
     status_code e = 422%Z)
  /\
  get_products category farmer_id search None (Some limit) s
  = get_products category farmer_id search (Some 1%Z) (Some limit) s
  /\
  get_products category farmer_id search (Some page) None s
  = get_products category farmer_id search (Some page) (Some 20%Z) s
  /\
  get_products category farmer_id search None None s
  = get_products category farmer_id search (Some 1%Z) (Some 20%Z) s.
Proof.
  intros rows total. split; [|split; [|split; [|split]; reflexivity]].
  - intros Hp Hl.
    assert (Hq : query_in_bounds page limit = true)
      by (apply query_in_bounds_iff; lia).
    unfold get_products, check_query, bind, gets, ret.
    cbn [page_or_default limit_or_default]. rewrite Hq.
    eexists. split; [reflexivity|]. cbn [pr_products pr_pagination pg_page pg_limit
                                         pg_total pg_pages].
    fold rows. fold total.
    split; [|split; [reflexivity|split; [reflexivity|split; [reflexivity|split]]]].
    + intros i. rewrite nth_error_range.
      replace ((page - 1) * limit + limit - 1 - (page - 1) * limit + 1)%Z
        with limit by lia.
      destruct (Z.of_nat i <? limit)%Z eqn:Hi.
      * apply Z.ltb_lt in Hi.
        replace (i <? Z.to_nat limit)%nat with true; [reflexivity|].
        symmetry. apply Nat.ltb_lt. lia.
      * apply Z.ltb_ge in Hi.
        replace (i <? Z.to_nat limit)%nat with false; [reflexivity|].
        symmetry. apply Nat.ltb_ge. lia.
    + apply (pages_is_ceiling total limit). lia.
    + intros Hp2 Hl20 Ht. rewrite Hp2, Hl20 in *. split.
      * rewrite length_range. subst total. lia.
      * rewrite Ht. reflexivity.
  - intros Hbad.
    assert (Hq : query_in_bounds page limit = false).
    { destruct (query_in_bounds page limit) eqn:Hq; [|reflexivity].
      apply query_in_bounds_iff in Hq. contradiction. }
    unfold get_products, check_query, bind, raise.
    cbn [page_or_default limit_or_default]. rewrite Hq.
    eexists. split; reflexivity.
Qed.

(** ** Cart: the stored total *)





(** ** Cart: adding a product twice *)

Lemma upsert_keeps_other_lines (item : cart_item) (rows : list cart_item) :
  filter (fun r => negb (same_line r item)) (upsert item rows)
  = filter (fun r => negb (same_line r item)) rows.
Proof.
  assert (Hself : same_line item item = true)
    by (unfold same_line; rewrite !String.eqb_refl; reflexivity).
  induction rows as [|r rows IH]; simpl.
  - rewrite Hself. reflexivity.
  - destruct (same_line r item) eqn:Hr; simpl.
    + rewrite Hself. reflexivity.
    + rewrite Hr. simpl. rewrite IH. reflexivity.
Qed.

Lemma upsert_overwrites_line (item old : cart_item) (rows : list cart_item) :
  filter (fun r => same_line r item) rows = [old] ->
  filter (fun r => same_line r item) (upsert item rows) = [item] /\
  List.length (upsert item rows) = List.length rows.
Proof.
  assert (Hself : same_line item item = true)
    by (unfold same_line; rewrite !String.eqb_refl; reflexivity).
  induction rows as [|r rows IH]; simpl; [discriminate|].
  destruct (same_line r item) eqn:Hr; simpl.
  - intros H. inversion H as [[Hold Hrest]]. rewrite Hself, Hrest. split; reflexivity.
  - intros H. rewrite Hr. destruct (IH H) as [IH1 IH2]. rewrite IH1, IH2.
    split; reflexivity.
Qed.

(** C10: adding a product whose line the user's cart already holds
    replaces that line: afterwards the cart has one line for the product,
    its quantity is the quantity just supplied (not a sum with the old
    one) and its price is the product's current price; the other lines
    are as they were and no line is added. *)
Theorem add_again_replaces_line
    (item : CartItemAdd) (current_user : user) (s : state)
    (c : cart) (rest : list cart) (p : product) (prest : list product)
    (old : cart_item) :
  carts_of_user (u_id current_user) s = c :: rest ->
  products_by_id (cia_product_id item) s = p :: prest ->
  filter (line_is (c_id c) (cia_product_id item)) (cart_items s) = [old] ->
  exists s' new,
    add_to_cart item current_user s = (s', Ok "Item added to cart successfully") /\
    filter (line_is (c_id c) (cia_product_id item)) (cart_items s') = [new] /\
    ci_quantity new = cia_quantity item /\
    ci_price new = p_price p /\
    filter (fun i => negb (line_is (c_id c) (cia_product_id item) i)) (cart_items s')
    = filter (fun i => negb (line_is (c_id c) (cia_product_id item) i)) (cart_items s) /\
    List.length (cart_items s') = List.length (cart_items s).
Proof.
  intros Hc Hp Hold. unfold add_to_cart, bind, gets. rewrite Hc.
  unfold new_uuid, modify, ret. unfold products_by_id in *. simpl. rewrite Hp.
  eexists. eexists. split; [reflexivity|]. simpl.
  set (new := {| ci_id := uuid4 (uuid_draws s); ci_cart_id := c_id c;
                 ci_product_id := cia_product_id item;
                 ci_quantity := cia_quantity item; ci_price := p_price p |}).
  assert (Hsame : forall r, same_line r new = line_is (c_id c) (cia_product_id item) r)
    by reflexivity.
  destruct (upsert_overwrites_line new old (cart_items s)) as [H1 H2].
  { rewrite <- Hold. apply filter_ext. exact Hsame. }
  pose proof (upsert_keeps_other_lines new (cart_items s)) as H3.
  split; [|split; [|split; [|split]]].
  - rewrite <- H1. apply filter_ext. intros r. symmetry. apply Hsame.
  - reflexivity.
  - reflexivity.
  - exact H3.
  - exact H2.
Qed.

(** ** Orders: what the loops do to the store *)

Lemma after_orders_none (s : state) : after_orders s (products s) [] [] 0 = s.
Proof.
  destruct s. unfold after_orders. simpl. rewrite !app_nil_r, Nat.add_0_r. reflexivity.
Qed.

Lemma new_uuid_run (s : state) ps os ois k :
  new_uuid (after_orders s ps os ois k)
  = (after_orders s ps os ois (S k), Ok (uuid4 (uuid_draws s + k))).
Proof.
  unfold new_uuid, after_orders. simpl. rewrite Nat.add_succ_r. reflexivity.
Qed.

Lemma insert_order_run (s : state) ps os ois k (o : order) :
  modify (with_orders (fun t => t ++ [o])) (after_orders s ps os ois k)
  = (after_orders s ps (os ++ [o]) ois k, Ok tt).
Proof.
  unfold modify, with_orders, after_orders. simpl. rewrite app_assoc. reflexivity.
Qed.

Lemma insert_order_items_run (s : state) ps os ois k (rows : list order_item) :
  insert_order_items rows (after_orders s ps os ois k)
  = (after_orders s ps os (ois ++ rows) k, Ok tt).
Proof.
  destruct rows as [|r rows].
  - simpl. unfold ret. rewrite app_nil_r. reflexivity.
  - unfold insert_order_items, modify, with_order_items, after_orders. simpl.
    rewrite app_assoc. reflexivity.
Qed.

Lemma decrement_stock_run (s : state) ps os ois k (l : order_line) :
  rows_with_id (ol_product_id l) ps <> [] ->
  decrement_stock (ol_product_id l) (ol_quantity l) (after_orders s ps os ois k)
  = (after_orders s (take_stock ps l) os ois k, Ok tt).
Proof.
  intros Hk. unfold decrement_stock, bind, gets, products_by_id, take_stock.
  simpl. fold (rows_with_id (ol_product_id l) ps).
  destruct (rows_with_id (ol_product_id l) ps) as [|p r]; [contradiction|].
  reflexivity.
Qed.

Lemma rows_with_id_set_quantity (pid pid' : string) (q : Z) (ps : list product) :
  rows_with_id pid (set_quantity pid' q ps) = set_quantity pid' q (rows_with_id pid ps).
Proof.
  unfold rows_with_id, set_quantity. apply filter_map_same.
  intros p. destruct (String.eqb (p_id p) pid'); reflexivity.
Qed.

Lemma take_stock_keeps_rows (pid : string) (ps : list product) (l : order_line) :
  rows_with_id pid ps <> [] -> rows_with_id pid (take_stock ps l) <> [].
Proof.
  intros H. unfold take_stock.
  destruct (rows_with_id (ol_product_id l) ps) as [|p r]; [assumption|].
  rewrite rows_with_id_set_quantity.
  destruct (rows_with_id pid ps); [contradiction | discriminate].
Qed.

Lemma fold_take_stock_keeps_rows (pid : string) (ls : list order_line) (ps : list product) :
  rows_with_id pid ps <> [] -> rows_with_id pid (fold_left take_stock ls ps) <> [].
Proof.
  revert ps. induction ls as [|l ls IH]; intros ps H; simpl; [assumption|].
  apply IH, take_stock_keeps_rows, H.
Qed.

Lemma order_items_loop_run (s : state) (order_id : string) (items : list order_line) :
  forall (acc : list order_item) ps os ois k,
    (forall l, In l items -> rows_with_id (ol_product_id l) ps <> []) ->
    order_items_loop order_id items acc (after_orders s ps os ois k)
    = (after_orders s (fold_left take_stock items ps) os ois (k + List.length items),
       Ok (acc ++ items_of order_id items (uuid_draws s + k))).
Proof.
  induction items as [|l items IH]; intros acc ps os ois k Hk.
  - simpl. unfold ret. rewrite app_nil_r, Nat.add_0_r. reflexivity.
  - simpl. unfold bind at 1. rewrite new_uuid_run.
    unfold bind at 1. rewrite decrement_stock_run by (apply Hk; left; reflexivity).
    rewrite IH.
    + rewrite <- app_assoc. simpl.
      rewrite !Nat.add_succ_r. reflexivity.
    + intros l' Hl'. apply take_stock_keeps_rows. apply Hk. right. exact Hl'.
Qed.

Lemma farmer_orders_loop_run (s : state) (checkout_data : CheckoutData)
    (buyer_id : string) (fo : farmer_orders) :
  forall (created : list order) ps os ois k,
    (forall l, In l (all_lines fo) -> rows_with_id (ol_product_id l) ps <> []) ->
    farmer_orders_loop checkout_data buyer_id fo created (after_orders s ps os ois k)
    = (after_orders s (fold_left take_stock (all_lines fo) ps)
         (os ++ map fst (place_orders checkout_data buyer_id fo (uuid_draws s + k)))
         (ois ++ List.concat (map snd (place_orders checkout_data buyer_id fo (uuid_draws s + k))))
         (k + draws fo),
       Ok (created ++ map fst (place_orders checkout_data buyer_id fo (uuid_draws s + k)))).
Proof.
  induction fo as [|[farmer_id g] fo IH]; intros created ps os ois k Hk.
  - simpl. unfold ret, draws. simpl. rewrite !app_nil_r, Nat.add_0_r. reflexivity.
  - simpl. unfold bind at 1. rewrite new_uuid_run.
    unfold bind at 1. rewrite insert_order_run.
    unfold bind at 1. rewrite order_items_loop_run.
    2:{ intros l Hl. apply Hk. unfold all_lines. simpl. apply in_or_app. left. exact Hl. }
    unfold bind at 1. rewrite insert_order_items_run.
    rewrite IH.
    2:{ intros l Hl. apply fold_take_stock_keeps_rows. apply Hk.
        unfold all_lines. simpl. apply in_or_app. right. exact Hl. }
    unfold all_lines, draws. simpl. rewrite fold_left_app.
    rewrite <- !app_assoc. simpl.
    replace (uuid_draws s + S (k + List.length (fg_items g)))
      with (S (uuid_draws s + k + List.length (fg_items g))) by lia.
    replace (S (k + List.length (fg_items g)
                + list_sum (map (fun kg => S (List.length (fg_items (snd kg)))) fo)))
      with (k + S (List.length (fg_items g)
                   + list_sum (map (fun kg => S (List.length (fg_items (snd kg)))) fo)))
      by lia.
    replace (uuid_draws s + S k) with (S (uuid_draws s + k)) by lia.
    reflexivity.
Qed.

(** ** Checkout: the grouping by farmer *)

Lemma has_farmer_iff (f : string) (fo : farmer_orders) :
  has_farmer f fo = true <-> In f (map fst fo).
Proof.
  induction fo as [|[k g] fo IH]; simpl.
  - split; [discriminate | intros []].
  - rewrite orb_true_iff, IH, String.eqb_eq. tauto.
Qed.

Lemma record_line_keys (f : string) (l : order_line) (a : number) (fo : farmer_orders) :
  map fst (record_line f l a fo) = map fst fo.
Proof.
  induction fo as [|[k g] fo IH]; simpl; [reflexivity|].
  destruct (String.eqb k f); simpl; [reflexivity|]. rewrite IH. reflexivity.
Qed.

Lemma record_line_in (f : string) (l : order_line) (a : number) (fo : farmer_orders)
    (k : string) (g : farmer_group) :
  NoDup (map fst fo) ->
  In (k, g) (record_line f l a fo) ->
  (k <> f /\ In (k, g) fo) \/
  (k = f /\ exists g0, In (f, g0) fo /\
                       g = {| fg_items := fg_items g0 ++ [l];
                              fg_total_amount := num_add (fg_total_amount g0) a |}).
Proof.
  induction fo as [|[k0 g0] fo IH]; simpl; [intros _ []|].
  intros Hnd Hin. inversion Hnd as [|? ? Hnotin Hnd']; subst.
  destruct (String.eqb k0 f) eqn:Hk.
  - apply String.eqb_eq in Hk. subst k0. destruct Hin as [Heq|Hin].
    + inversion Heq; subst. right. split; [reflexivity|].
      exists g0. split; [left; reflexivity | reflexivity].
    + left. split.
      * intros ->. apply Hnotin. apply (in_map fst) in Hin. exact Hin.
      * right. exact Hin.
  - apply String.eqb_neq in Hk. destruct Hin as [Heq|Hin].
    + inversion Heq; subst. left. split; [exact Hk | left; reflexivity].
    + destruct (IH Hnd' Hin) as [[Hne Hin']|[-> (g1 & Hin' & ->)]].
      * left. split; [exact Hne | right; exact Hin'].
      * right. split; [reflexivity|]. exists g1. split; [right; exact Hin' | reflexivity].
Qed.

Lemma group_of_snoc (k : string) (js : list (cart_item * product)) (j : cart_item * product) :
  group_of k (js ++ [j])
  = if of_farmer k j
    then {| fg_items := fg_items (group_of k js) ++ [line_of j];
            fg_total_amount :=
              num_add (fg_total_amount (group_of k js))
                      (num_mul (p_price (snd j)) (ci_quantity (fst j))) |}
    else group_of k js.
Proof.
  unfold group_of, amount_of. rewrite filter_app. simpl.
  destruct (of_farmer k j); simpl.
  - rewrite map_app, fold_left_app. reflexivity.
  - rewrite app_nil_r. reflexivity.
Qed.

Lemma grouped_snoc (js : list (cart_item * product)) (fo : farmer_orders)
    (i : cart_item) (p : product) :
  grouped js fo ->
  grouped (js ++ [(i, p)])
    (record_line (p_farmer_id p) (line_of (i, p))
       (num_mul (p_price p) (ci_quantity i))
       (ensure_farmer (p_farmer_id p) fo)).
Proof.
  intros (Hnd & Hkeys & Hgroups).
  set (f := p_farmer_id p).
  assert (H1 : NoDup (map fst (ensure_farmer f fo)) /\
               (forall k, In k (map fst (ensure_farmer f fo))
                          <-> In k (map (fun j => p_farmer_id (snd j)) js) \/ k = f) /\
               (forall k g, In (k, g) (ensure_farmer f fo) -> g = group_of k js)).
  { unfold ensure_farmer. destruct (has_farmer f fo) eqn:Hhas.
    - apply has_farmer_iff in Hhas. split; [exact Hnd|]. split; [|exact Hgroups].
      intros k. rewrite Hkeys. split; [tauto|].
      intros [Hk| ->]; [exact Hk | apply Hkeys, Hhas].
    - assert (Hnot : ~ In f (map fst fo)).
      { intros Hin. apply has_farmer_iff in Hin. congruence. }
      split; [|split].
      + rewrite map_app. simpl. apply NoDup_app; [exact Hnd | repeat constructor; intros [] |].
        intros k Hk [<-|[]]. exact (Hnot Hk).
      + intros k. rewrite map_app, in_app_iff, Hkeys. simpl. intuition congruence.
      + intros k g Hin. apply in_app_or in Hin. destruct Hin as [Hin|[Heq|[]]].
        * apply Hgroups, Hin.
        * inversion Heq; subst. unfold group_of, amount_of.
          replace (filter (of_farmer f) js) with (@nil (cart_item * product)); [reflexivity|].
          symmetry. apply filter_nil_iff. intros j Hj.
          apply String.eqb_neq. intros Heq'. apply Hnot, Hkeys.
          apply in_map_iff. exists j. split; [exact Heq' | exact Hj]. }
  destruct H1 as (Hnd1 & Hkeys1 & Hgroups1).
  split; [|split].
  - rewrite record_line_keys. exact Hnd1.
  - intros k. rewrite record_line_keys, Hkeys1, map_app, in_app_iff. simpl.
    fold f. intuition congruence.
  - intros k g Hin. rewrite group_of_snoc. unfold of_farmer. simpl. fold f.
    destruct (record_line_in _ _ _ _ _ _ Hnd1 Hin) as [[Hne Hin']|[-> (g0 & Hin' & ->)]].
    + replace (String.eqb f k) with false
        by (symmetry; apply String.eqb_neq; congruence).
      apply Hgroups1, Hin'.
    + rewrite String.eqb_refl. rewrite (Hgroups1 _ _ Hin'). reflexivity.
Qed.

Lemma group_by_farmer_grouped (items : list (cart_item * product)) :
  forall (js : list (cart_item * product)) (fo0 : farmer_orders),
    grouped js fo0 ->
    exists fo,
      group_by_farmer (map (fun j => (fst j, Some (snd j))) items) fo0 = Ok fo /\
      grouped (js ++ items) fo.
Proof.
  induction items as [|[i p] items IH]; intros js fo0 Hg; simpl.
  - exists fo0. rewrite app_nil_r. split; [reflexivity | exact Hg].
  - destruct (IH (js ++ [(i, p)]) _ (grouped_snoc js fo0 i p Hg)) as (fo & Hrun & Hfo).
    exists fo. split; [exact Hrun|]. rewrite <- app_assoc in Hfo. exact Hfo.
Qed.

Lemma with_product_loaded (s : state) (cid : string) :
  (forall i, In i (lines_of_cart cid s) -> snd (with_product s i) <> None) ->
  map (with_product s) (lines_of_cart cid s)
  = map (fun j => (fst j, Some (snd j))) (loaded_lines s cid).
Proof.
  unfold loaded_lines. induction (lines_of_cart cid s) as [|i ls IH]; intros H.
  - reflexivity.
  - cbn [map flat_map]. rewrite map_app.
    rewrite <- IH by (intros i' Hi'; apply H; right; exact Hi').
    specialize (H i (or_introl eq_refl)). unfold with_product in *. cbn [snd] in *.
    destruct (find (fun p => String.eqb (p_id p) (ci_product_id i)) (products s));
      [reflexivity | contradiction].
Qed.

Lemma loaded_line_product (s : state) (cid : string) (j : cart_item * product) :
  In j (loaded_lines s cid) ->
  In (fst j) (lines_of_cart cid s) /\ In (snd j) (products s) /\
  p_id (snd j) = ci_product_id (fst j).
Proof.
  unfold loaded_lines. rewrite in_flat_map. intros (i & Hi & Hj).
  unfold with_product in Hj. simpl in Hj.
  destruct (find (fun p => String.eqb (p_id p) (ci_product_id i)) (products s))
    as [p|] eqn:Hf; [|destruct Hj].
  destruct Hj as [<-|[]]. simpl. apply find_some in Hf. destruct Hf as [Hin Heq].
  apply String.eqb_eq in Heq. auto.
Qed.

(** ** Checkout: the whole run *)

Lemma grouped_lines_known (s : state) (cid : string) (fo : farmer_orders) :
  grouped (loaded_lines s cid) fo ->
  forall l, In l (all_lines fo) -> rows_with_id (ol_product_id l) (products s) <> [].
Proof.
  intros (_ & _ & Hgroups) l Hl. unfold all_lines in Hl.
  apply in_concat in Hl. destruct Hl as (ls & Hls & Hl).
  apply in_map_iff in Hls. destruct Hls as ([k g] & <- & Hkg). simpl in Hl.
  rewrite (Hgroups k g Hkg) in Hl. simpl in Hl.
  apply in_map_iff in Hl. destruct Hl as (j & <- & Hj).
  apply filter_In in Hj. destruct Hj as [Hj _].
  apply loaded_line_product in Hj. destruct Hj as (_ & Hin & _).
  intros Hnil. unfold rows_with_id in Hnil. rewrite filter_nil_iff in Hnil.
  specialize (Hnil _ Hin). simpl in Hnil. rewrite String.eqb_refl in Hnil. discriminate.
Qed.

Lemma checkout_order_run (checkout_data : CheckoutData) (cart_id : string)
    (current_user : user) (s : state) (c : cart) (rest : list cart) :
  carts_by_id_and_user cart_id (u_id current_user) s = c :: rest ->
  lines_of_cart cart_id s <> [] ->
  (forall i, In i (lines_of_cart cart_id s) -> snd (with_product s i) <> None) ->
  exists fo,
    grouped (loaded_lines s cart_id) fo /\
    checkout_order checkout_data cart_id current_user s
    = (after_checkout checkout_data cart_id (u_id current_user) fo s,
       Ok {| cr_message := "Checkout successful";
             cr_orders := map fst (place_orders checkout_data (u_id current_user) fo
                                     (uuid_draws s)) |}).
Proof.
  intros Hc Hlines Hprod.
  assert (Hid : c_id c = cart_id).
  { apply filter_cons_in in Hc. destruct Hc as [_ Hc].
    apply andb_prop in Hc. destruct Hc as [Hc _]. apply String.eqb_eq, Hc. }
  destruct (group_by_farmer_grouped (loaded_lines s cart_id) [] [])
    as (fo & Hgroup & Hfo).
  { split; [constructor|]. split; [reflexivity | intros f g []]. }
  simpl in Hfo. exists fo. split; [exact Hfo|].
  rewrite <- with_product_loaded in Hgroup by exact Hprod.
  pose proof (farmer_orders_loop_run s checkout_data (u_id current_user) fo
                [] (products s) [] [] 0 (grouped_lines_known s cart_id fo Hfo)) as Hrun.
  rewrite after_orders_none, Nat.add_0_r in Hrun. simpl in Hrun.
  unfold checkout_order. unfold bind at 1. unfold gets at 1. rewrite Hc.
  unfold bind at 1. unfold gets at 1. rewrite Hid.
  destruct (map (with_product s) (lines_of_cart cart_id s)) as [|x xs] eqn:HJ.
  - apply map_eq_nil in HJ. contradiction.
  - rewrite Hgroup. unfold bind at 1. rewrite Hrun.
    unfold bind, modify, ret. reflexivity.
Qed.

Lemma items_of_order_id (order_id : string) (lines : list order_line) (n : nat) :
  Forall (fun it => oi_order_id it = order_id) (items_of order_id lines n).
Proof.
  revert n. induction lines as [|l lines IH]; intros n; simpl; constructor.
  - reflexivity.
  - apply IH.
Qed.

Lemma items_of_lines (order_id : string) (lines : list order_line) (n : nat) :
  map (fun it => (oi_product_id it, oi_quantity it, oi_price it)) (items_of order_id lines n)
  = map (fun l => (ol_product_id l, ol_quantity l, ol_price l)) lines.
Proof.
  revert n. induction lines as [|l lines IH]; intros n; simpl; [reflexivity|].
  rewrite IH. reflexivity.
Qed.

Lemma place_orders_farmers (checkout_data : CheckoutData) (buyer_id : string)
    (fo : farmer_orders) (n : nat) :
  map (fun x => o_farmer_id (fst x)) (place_orders checkout_data buyer_id fo n)
  = map fst fo.
Proof.
  revert n. induction fo as [|[f g] fo IH]; intros n; simpl; [reflexivity|].
  rewrite IH. reflexivity.
Qed.

Lemma place_orders_in (checkout_data : CheckoutData) (buyer_id : string)
    (fo : farmer_orders) (n : nat) (o : order) (its : list order_item) :
  In (o, its) (place_orders checkout_data buyer_id fo n) ->
  exists g m,
    (n <= m)%nat /\
    In (o_farmer_id o, g) fo /\
    o = checkout_order_obj checkout_data buyer_id (uuid4 m) (o_farmer_id o) g /\
    its = items_of (o_id o) (fg_items g) (S m).
Proof.
  revert n. induction fo as [|[f g] fo IH]; intros n; simpl; [intros []|].
  intros [Heq|Hin].
  - inversion Heq; subst. simpl. exists g, n. repeat split. lia. left. reflexivity.
  - destruct (IH _ Hin) as (g' & m & Hm & Hg & Ho & Hits).
    exists g', m. split; [lia|]. split; [right; exact Hg|]. split; assumption.
Qed.

(** What every order of a checkout and its items look like, given the
    partition they were built from. *)
Lemma placed_order_shape (checkout_data : CheckoutData) (buyer_id : string)
    (js : list (cart_item * product)) (fo : farmer_orders) (n : nat)
    (o : order) (its : list order_item) :
  grouped js fo ->
  In (o, its) (place_orders checkout_data buyer_id fo n) ->
  o_status o = "pending" /\ o_buyer_id o = buyer_id /\
  o_total_amount o = amount_of (filter (of_farmer (o_farmer_id o)) js) /\
  Forall (fun it => oi_order_id it = o_id o) its /\
  map (fun it => (oi_product_id it, oi_quantity it, oi_price it)) its
  = map (fun j => (p_id (snd j), ci_quantity (fst j), p_price (snd j)))
        (filter (of_farmer (o_farmer_id o)) js).
Proof.
  intros (_ & _ & Hgroups) Hin.
  destruct (place_orders_in _ _ _ _ _ _ Hin) as (g & m & _ & Hg & Ho & ->).
  rewrite (Hgroups _ _ Hg) in *. clear Hg.
  split; [rewrite Ho; reflexivity|]. split; [rewrite Ho; reflexivity|].
  split; [rewrite Ho at 1; reflexivity|].
  split; [apply items_of_order_id|].
  rewrite items_of_lines. simpl. rewrite map_map. reflexivity.
Qed.

Lemma after_checkout_cart (checkout_data : CheckoutData) (cart_id buyer_id : string)
    (fo : farmer_orders) (s : state) :
  lines_of_cart cart_id (after_checkout checkout_data cart_id buyer_id fo s) = [] /\
  (forall c', In c' (carts (after_checkout checkout_data cart_id buyer_id fo s)) ->
              c_id c' = cart_id -> c_total c' = num_zero) /\
  map (fun c' => (c_id c', c_user_id c'))
      (carts (after_checkout checkout_data cart_id buyer_id fo s))
  = map (fun c' => (c_id c', c_user_id c')) (carts s).
Proof.
  split; [|split].
  - unfold after_checkout, set_total, lines_of_cart. simpl.
    apply filter_nil_iff. intros i Hi. apply filter_In in Hi. destruct Hi as [_ Hi].
    destruct (String.eqb (ci_cart_id i) cart_id); [discriminate | reflexivity].
  - unfold after_checkout, set_total. simpl. intros c' Hc' Hid.
    apply in_map_iff in Hc'. destruct Hc' as (c0 & Heq & _).
    destruct (String.eqb (c_id c0) cart_id) eqn:H0.
    + subst c'. reflexivity.
    + subst c'. apply String.eqb_neq in H0. contradiction.
  - unfold after_checkout, set_total. simpl. rewrite map_map. apply map_ext.
    intros c0. destruct (String.eqb (c_id c0) cart_id); reflexivity.
Qed.

Lemma items_of_this_order (order_id : string) (lines : list order_line) (n : nat) :
  filter (fun it => String.eqb (oi_order_id it) order_id) (items_of order_id lines n)
  = items_of order_id lines n.
Proof.
  revert n. induction lines as [|l lines IH]; intros n; simpl; [reflexivity|].
  rewrite String.eqb_refl, IH. reflexivity.
Qed.

Lemma items_of_other_order (order_id x : string) (lines : list order_line) (n : nat) :
  order_id <> x ->
  filter (fun it => String.eqb (oi_order_id it) x) (items_of order_id lines n) = [].
Proof.
  intros Hne. revert n. induction lines as [|l lines IH]; intros n; simpl; [reflexivity|].
  replace (String.eqb order_id x) with false by (symmetry; apply String.eqb_neq, Hne).
  apply IH.
Qed.

Lemma placed_items_from (checkout_data : CheckoutData) (buyer_id : string)
    (fo : farmer_orders) (n : nat) (it : order_item) :
  In it (List.concat (map snd (place_orders checkout_data buyer_id fo n))) ->
  exists m, (n <= m)%nat /\ oi_order_id it = uuid4 m.
Proof.
  revert n. induction fo as [|[f g] fo IH]; intros n; simpl; [intros []|].
  intros Hin. apply in_app_or in Hin. destruct Hin as [Hin|Hin].
  - exists n. split; [lia|].
    pose proof (items_of_order_id (uuid4 n) (fg_items g) (S n)) as Hall.
    rewrite Forall_forall in Hall. apply Hall, Hin.
  - destruct (IH _ Hin) as (m & Hm & Hid). exists m. split; [lia | exact Hid].
Qed.

(** With uuids that do not repeat, the items stored under the id of an
    order of the checkout are the items built for it. *)
Lemma placed_items_of_order (checkout_data : CheckoutData) (buyer_id : string) :
  (forall a b, uuid4 a = uuid4 b -> a = b) ->
  forall (fo : farmer_orders) (n : nat) (o : order) (its : list order_item),
    In (o, its) (place_orders checkout_data buyer_id fo n) ->
    filter (fun it => String.eqb (oi_order_id it) (o_id o))
           (List.concat (map snd (place_orders checkout_data buyer_id fo n)))
    = its.
Proof.
  intros Hinj. induction fo as [|[f g] fo IH]; intros n o its; simpl; [intros []|].
  intros [Heq|Hin]; rewrite filter_app.
  - inversion Heq; subst. simpl. rewrite items_of_this_order.
    replace (filter _ (List.concat _)) with (@nil order_item);
      [apply app_nil_r|].
    symmetry. apply filter_nil_iff. intros it Hit.
    apply placed_items_from in Hit. destruct Hit as (m & Hm & Hid).
    rewrite Hid. apply String.eqb_neq. intros Heq'. apply Hinj in Heq'. lia.
  - destruct (place_orders_in _ _ _ _ _ _ Hin) as (g' & m & Hm & _ & Ho & _).
    apply (f_equal o_id) in Ho. simpl in Ho.
    assert (Hne : uuid4 n <> o_id o).
    { rewrite Ho. intros Heq'. apply Hinj in Heq'. lia. }
    rewrite (items_of_other_order _ _ _ _ Hne). simpl. apply IH, Hin.
Qed.

(** C1: a checkout of a cart of the acting user that has lines, each
    referencing a product of the store, goes through and places one order
    for each farmer owning a product of the cart and no other: every
    order is "pending", belongs to the buyer, and comes with the order
    items of that farmer's lines, in order, with the line's product id and
    quantity; the orders and items are appended to the store, the lines of
    the cart are deleted, the total of the cart is 0, and the orders
    placed are the ones returned.  With uuids that do not repeat, the
    items the store holds under the id of each order are exactly these. *)
Theorem checkout_places_one_order_per_farmer
    (checkout_data : CheckoutData) (cart_id : string) (current_user : user)
    (s : state) (c : cart) (rest : list cart) :
  carts_by_id_and_user cart_id (u_id current_user) s = c :: rest ->
  lines_of_cart cart_id s <> [] ->
  (forall i, In i (lines_of_cart cart_id s) -> snd (with_product s i) <> None) ->
  exists (s' : state) (placed : list (order * list order_item)),
    checkout_order checkout_data cart_id current_user s
    = (s', Ok {| cr_message := "Checkout successful"; cr_orders := map fst placed |}) /\
    orders s' = orders s ++ map fst placed /\
    order_items s' = order_items s ++ List.concat (map snd placed) /\
    NoDup (map (fun x => o_farmer_id (fst x)) placed) /\
    (forall f, In f (map (fun x => o_farmer_id (fst x)) placed)
               <-> In f (map (fun j => p_farmer_id (snd j)) (loaded_lines s cart_id))) /\
    (forall o its, In (o, its) placed ->
       o_status o = "pending" /\
       o_buyer_id o = u_id current_user /\
       Forall (fun it => oi_order_id it = o_id o) its /\
       map (fun it => (oi_product_id it, oi_quantity it)) its
       = map (fun j => (ci_product_id (fst j), ci_quantity (fst j)))
             (filter (of_farmer (o_farmer_id o)) (loaded_lines s cart_id))) /\
    lines_of_cart cart_id s' = [] /\
    (forall c', In c' (carts s') -> c_id c' = cart_id -> c_total c' = num_zero) /\
    map (fun c' => (c_id c', c_user_id c')) (carts s')
    = map (fun c' => (c_id c', c_user_id c')) (carts s) /\
    ((forall a b, uuid4 a = uuid4 b -> a = b) ->
     (forall it m, In it (order_items s) -> (uuid_draws s <= m)%nat ->
                   oi_order_id it <> uuid4 m) ->
     forall o its, In (o, its) placed ->
       filter (fun it => String.eqb (oi_order_id it) (o_id o)) (order_items s') = its).
Proof.
  intros Hc Hlines Hprod.
  destruct (checkout_order_run checkout_data cart_id current_user s c rest Hc Hlines Hprod)
    as (fo & Hfo & Hrun).
  exists (after_checkout checkout_data cart_id (u_id current_user) fo s),
         (place_orders checkout_data (u_id current_user) fo (uuid_draws s)).
  destruct (after_checkout_cart checkout_data cart_id (u_id current_user) fo s)
    as (Hempty & Hzero & Hsame).
  split; [exact Hrun|]. split; [reflexivity|]. split; [reflexivity|].
  pose proof Hfo as (Hnd & Hkeys & _).
  split; [rewrite place_orders_farmers; exact Hnd|].
  split; [intros f; rewrite place_orders_farmers; apply Hkeys|].
  split; [|split; [exact Hempty|split; [exact Hzero|split; [exact Hsame|]]]].
  2:{ intros Hinj Hfresh o its Hin.
      change (order_items (after_checkout checkout_data cart_id (u_id current_user) fo s))
        with (order_items s
              ++ List.concat (map snd (place_orders checkout_data (u_id current_user) fo
                                         (uuid_draws s)))).
      rewrite filter_app, (placed_items_of_order _ _ Hinj _ _ _ _ Hin).
      replace (filter _ (order_items s)) with (@nil order_item); [reflexivity|].
      symmetry. apply filter_nil_iff. intros it Hit.
      destruct (place_orders_in _ _ _ _ _ _ Hin) as (g' & m & Hm & _ & Ho & _).
      apply (f_equal o_id) in Ho. simpl in Ho. rewrite Ho.
      apply String.eqb_neq. apply Hfresh; assumption. }
  intros o its Hin.
  destruct (placed_order_shape _ _ _ _ _ _ _ Hfo Hin) as (Hst & Hb & _ & Hoid & Hmap).
  split; [exact Hst|]. split; [exact Hb|]. split; [exact Hoid|].
  apply (f_equal (map (fun t : string * Z * number => (fst (fst t), snd (fst t))))) in Hmap.
  rewrite !map_map in Hmap. simpl in Hmap. rewrite Hmap.
  apply map_ext_in. intros j Hj. apply filter_In in Hj. destruct Hj as [Hj _].
  apply loaded_line_product in Hj. destruct Hj as (_ & _ & Hpid). rewrite Hpid. reflexivity.
Qed.

(** C2 (amended): the total of each order of a checkout is the sum, over
    that farmer's lines of the cart, of the price the product has in the
    store when the checkout runs times the quantity of the line, and each
    order item carries that current product price; the price kept on the
    cart line is not read. *)
Theorem checkout_totals_use_current_prices
    (checkout_data : CheckoutData) (cart_id : string) (current_user : user)
    (s : state) (c : cart) (rest : list cart) :
  carts_by_id_and_user cart_id (u_id current_user) s = c :: rest ->
  lines_of_cart cart_id s <> [] ->
  (forall i, In i (lines_of_cart cart_id s) -> snd (with_product s i) <> None) ->
  exists (s' : state) (placed : list (order * list order_item)),
    checkout_order checkout_data cart_id current_user s
    = (s', Ok {| cr_message := "Checkout successful"; cr_orders := map fst placed |}) /\
    orders s' = orders s ++ map fst placed /\
    order_items s' = order_items s ++ List.concat (map snd placed) /\
    (forall o its, In (o, its) placed ->
       o_total_amount o
       = fold_left (fun acc j => num_add acc (num_mul (p_price (snd j)) (ci_quantity (fst j))))
                   (filter (of_farmer (o_farmer_id o)) (loaded_lines s cart_id)) num_zero /\
       Forall (fun it => oi_order_id it = o_id o) its /\
       map oi_price its
       = map (fun j => p_price (snd j))
             (filter (of_farmer (o_farmer_id o)) (loaded_lines s cart_id))).
Proof.
  intros Hc Hlines Hprod.
  destruct (checkout_order_run checkout_data cart_id current_user s c rest Hc Hlines Hprod)
    as (fo & Hfo & Hrun).
  exists (after_checkout checkout_data cart_id (u_id current_user) fo s),
         (place_orders checkout_data (u_id current_user) fo (uuid_draws s)).
  split; [exact Hrun|]. split; [reflexivity|]. split; [reflexivity|].
  intros o its Hin.
  destruct (placed_order_shape _ _ _ _ _ _ _ Hfo Hin) as (_ & _ & Htot & Hoid & Hmap).
  split; [exact Htot|]. split; [exact Hoid|].
  apply (f_equal (map (fun t : string * Z * number => snd t))) in Hmap.
  rewrite !map_map in Hmap. exact Hmap.
Qed.

(** ** Inventory *)

Lemma sumZ_app (a b : list Z) : sumZ (a ++ b) = (sumZ a + sumZ b)%Z.
Proof.
  unfold sumZ. induction a as [|x a IH]; simpl; [reflexivity|]. rewrite IH. lia.
Qed.

Lemma sumZ_concat (L : list (list Z)) : sumZ (List.concat L) = sumZ (map sumZ L).
Proof.
  induction L as [|l L IH]; simpl; [reflexivity|].
  rewrite sumZ_app, IH. reflexivity.
Qed.

Lemma sumZ_map_add {A : Type} (f g : A -> Z) (l : list A) :
  sumZ (map (fun x => (f x + g x)%Z) l) = (sumZ (map f l) + sumZ (map g l))%Z.
Proof.
  induction l as [|x l IH]; simpl; [reflexivity|]. rewrite IH. lia.
Qed.

Lemma sumZ_indicator (keys : list string) (k : string) (v : Z) :
  NoDup keys -> In k keys ->
  sumZ (map (fun k' => if String.eqb k k' then v else 0%Z) keys) = v.
Proof.
  induction keys as [|k0 keys IH]; simpl; [intros _ []|].
  intros Hnd Hin. inversion Hnd as [|? ? Hnot Hnd']; subst.
  destruct (String.eqb k k0) eqn:Hk.
  - apply String.eqb_eq in Hk. subst k0.
    replace (sumZ (map (fun k' => if String.eqb k k' then v else 0%Z) keys)) with 0%Z; [lia|].
    clear IH Hnd Hnd' Hin. induction keys as [|k1 keys IH]; simpl; [reflexivity|].
    destruct (String.eqb k k1) eqn:Hk1.
    + apply String.eqb_eq in Hk1. subst k1. exfalso. apply Hnot. left. reflexivity.
    + rewrite <- IH; [reflexivity|]. intros H. apply Hnot. right. exact H.
  - apply String.eqb_neq in Hk. destruct Hin as [->|Hin]; [congruence|].
    rewrite IH by assumption. lia.
Qed.

(** Summing group by group is summing over the whole cart. *)
Lemma sumZ_by_farmer (keys : list string) (w : cart_item * product -> Z)
    (js : list (cart_item * product)) :
  NoDup keys ->
  (forall j, In j js -> In (p_farmer_id (snd j)) keys) ->
  sumZ (map (fun k => sumZ (map w (filter (of_farmer k) js))) keys) = sumZ (map w js).
Proof.
  intros Hnd. induction js as [|j js IH]; intros Hin.
  - simpl. clear Hnd Hin. induction keys as [|k keys IHk]; simpl; [reflexivity|].
    rewrite IHk. reflexivity.
  - change (sumZ (map w (j :: js))) with (w j + sumZ (map w js))%Z.
    rewrite <- IH by (intros j' Hj'; apply Hin; right; exact Hj').
    rewrite <- (sumZ_indicator keys (p_farmer_id (snd j)) (w j) Hnd)
      by (apply Hin; left; reflexivity).
    rewrite <- sumZ_map_add. f_equal. apply map_ext. intros k.
    cbn [filter]. unfold of_farmer at 1.
    destruct (String.eqb (p_farmer_id (snd j)) k); reflexivity.
Qed.

Lemma stock_known (pid : string) (ps : list product) :
  stock pid ps <> None <-> rows_with_id pid ps <> [].
Proof.
  unfold stock. destruct (rows_with_id pid ps); simpl; split; congruence.
Qed.

Lemma rows_with_id_id (pid : string) (ps : list product) (p : product) (r : list product) :
  rows_with_id pid ps = p :: r -> p_id p = pid.
Proof.
  intros H. apply filter_cons_in in H. destruct H as [_ H]. apply String.eqb_eq, H.
Qed.

Lemma stock_take_stock (pid : string) (ps : list product) (l : order_line) (n : Z) :
  stock pid ps = Some n ->
  rows_with_id (ol_product_id l) ps <> [] ->
  stock pid (take_stock ps l)
  = Some (n - (if String.eqb (ol_product_id l) pid then ol_quantity l else 0))%Z.
Proof.
  unfold stock, take_stock. intros Hn Hk.
  destruct (rows_with_id (ol_product_id l) ps) as [|p' r'] eqn:Hrows'; [contradiction|].
  rewrite rows_with_id_set_quantity.
  destruct (rows_with_id pid ps) as [|p r] eqn:Hrows; [discriminate|].
  simpl in Hn. inversion Hn; subst n. clear Hn.
  pose proof (rows_with_id_id _ _ _ _ Hrows) as Hid. simpl. rewrite Hid.
  rewrite (String.eqb_sym pid). 
  destruct (String.eqb (ol_product_id l) pid) eqn:Heq; simpl.
  - apply String.eqb_eq in Heq. rewrite Heq in Hrows'. rewrite Hrows in Hrows'.
    inversion Hrows'; subst. reflexivity.
  - f_equal. lia.
Qed.

Lemma stock_fold_take_stock (pid : string) (ls : list order_line) :
  forall (ps : list product) (n : Z),
    (forall l, In l ls -> rows_with_id (ol_product_id l) ps <> []) ->
    stock pid ps = Some n ->
    stock pid (fold_left take_stock ls ps) = Some (n - ordered pid ls)%Z.
Proof.
  induction ls as [|l ls IH]; intros ps n Hk Hn; simpl.
  - unfold ordered. simpl. rewrite Z.sub_0_r. exact Hn.
  - rewrite (IH (take_stock ps l)
                (n - (if String.eqb (ol_product_id l) pid then ol_quantity l else 0))%Z).
    + f_equal. unfold ordered. simpl. lia.
    + intros l' Hl'. apply take_stock_keeps_rows. apply Hk. right. exact Hl'.
    + apply stock_take_stock; [exact Hn|]. apply Hk. left. reflexivity.
Qed.

Lemma create_order_run (order_data : OrderCreate) (current_user : user) (s : state) :
  (forall l, In l (oc_items order_data) ->
             rows_with_id (ol_product_id l) (products s) <> []) ->
  create_order order_data current_user s
  = (after_orders s
       (fold_left take_stock (oc_items order_data) (products s))
       [create_order_obj order_data (u_id current_user) (uuid4 (uuid_draws s))]
       (items_of (uuid4 (uuid_draws s)) (oc_items order_data) (S (uuid_draws s)))
       (S (List.length (oc_items order_data))),
     Ok {| orr_message := "Order created successfully";
           orr_order := create_order_obj order_data (u_id current_user)
                          (uuid4 (uuid_draws s)) |}).
Proof.
  intros Hk.
  transitivity (create_order order_data current_user (after_orders s (products s) [] [] 0));
    [rewrite after_orders_none; reflexivity|].
  unfold create_order. unfold bind at 1. rewrite new_uuid_run.
  unfold bind at 1. rewrite insert_order_run.
  unfold bind at 1. rewrite order_items_loop_run by exact Hk.
  unfold bind at 1. rewrite insert_order_items_run.
  unfold ret. simpl. rewrite Nat.add_0_r.
  replace (uuid_draws s + 1) with (S (uuid_draws s)) by lia. reflexivity.
Qed.

Lemma ordered_all_lines (pid : string) (js : list (cart_item * product)) (fo : farmer_orders) :
  grouped js fo -> ordered pid (all_lines fo) = ordered pid (map line_of js).
Proof.
  intros (Hnd & Hkeys & Hgroups). unfold ordered, all_lines.
  rewrite concat_map, sumZ_concat, !map_map.
  rewrite <- (sumZ_by_farmer (map fst fo) _ js Hnd).
  - rewrite map_map. f_equal. apply map_ext_in. intros [k g] Hkg. simpl.
    rewrite (Hgroups k g Hkg). simpl. rewrite map_map. reflexivity.
  - intros j Hj. apply Hkeys. apply in_map_iff. exists j. split; [reflexivity | exact Hj].
Qed.

Lemma ordered_loaded_lines (pid : string) (s : state) (cid : string) :
  (forall i, In i (lines_of_cart cid s) -> snd (with_product s i) <> None) ->
  ordered pid (map line_of (loaded_lines s cid)) = in_cart pid (lines_of_cart cid s).
Proof.
  unfold ordered, in_cart, loaded_lines.
  induction (lines_of_cart cid s) as [|i ls IH]; intros H; [reflexivity|].
  cbn [flat_map map]. rewrite !map_app, sumZ_app.
  rewrite IH by (intros i' Hi'; apply H; right; exact Hi').
  specialize (H i (or_introl eq_refl)). unfold with_product in *. cbn [snd] in *.
  destruct (find (fun p => String.eqb (p_id p) (ci_product_id i)) (products s))
    as [p|] eqn:Hf; [|contradiction].
  apply find_some in Hf. destruct Hf as [_ Hf]. apply String.eqb_eq in Hf.
  simpl. rewrite Hf. unfold sumZ. simpl. lia.
Qed.

(** C3: the inventory write of an ordered item stores the quantity just
    read minus the ordered quantity, whatever the two are, so that
    ordering more than the stock leaves a negative quantity; a direct
    order does this write for each of its items in turn and a checkout
    for each line of the cart, so that a product ends with its quantity
    lowered by all that was ordered of it. *)
Theorem orders_take_stock_unchecked :
  (forall (s : state) (pid : string) (q n : Z),
     stock pid (products s) = Some n ->
     exists s',
       decrement_stock pid q s = (s', Ok tt) /\
       stock pid (products s') = Some (n - q)%Z /\
       ((n < q)%Z -> exists m, stock pid (products s') = Some m /\ (m < 0)%Z) /\
       (forall other, other <> pid ->
                      stock other (products s') = stock other (products s)))
  /\
  (forall (order_data : OrderCreate) (current_user : user) (s : state),
     (forall l, In l (oc_items order_data) ->
                stock (ol_product_id l) (products s) <> None) ->
     exists s' r,
       create_order order_data current_user s = (s', Ok r) /\
       products s' = fold_left take_stock (oc_items order_data) (products s) /\
       (forall pid n,
          stock pid (products s) = Some n ->
          stock pid (products s') = Some (n - ordered pid (oc_items order_data))%Z))
  /\
  (forall (checkout_data : CheckoutData) (cart_id : string) (current_user : user)
          (s : state) (c : cart) (rest : list cart),
     carts_by_id_and_user cart_id (u_id current_user) s = c :: rest ->
     lines_of_cart cart_id s <> [] ->
     (forall i, In i (lines_of_cart cart_id s) -> snd (with_product s i) <> None) ->
     exists s' r,
       checkout_order checkout_data cart_id current_user s = (s', Ok r) /\
       (forall pid n,
          stock pid (products s) = Some n ->
          stock pid (products s')
          = Some (n - in_cart pid (lines_of_cart cart_id s))%Z)).
Proof.
  split; [|split].
  - intros s pid q n Hn.
    unfold decrement_stock, bind, gets, products_by_id.
    fold (rows_with_id pid (products s)).
    unfold stock in Hn.
    destruct (rows_with_id pid (products s)) as [|p r] eqn:Hrows; [discriminate|].
    simpl in Hn. inversion Hn; subst n. clear Hn.
    pose proof (rows_with_id_id _ _ _ _ Hrows) as Hid.
    unfold modify. eexists. split; [reflexivity|].
    assert (Hnew : stock pid (set_quantity pid (p_quantity p - q)%Z (products s))
                   = Some (p_quantity p - q)%Z).
    { unfold stock. rewrite rows_with_id_set_quantity, Hrows. simpl.
      rewrite Hid, String.eqb_refl. reflexivity. }
    split; [exact Hnew|]. split.
    + intros Hlt. exists (p_quantity p - q)%Z. split; [exact Hnew | lia].
    + intros other Hother. simpl. unfold stock.
      rewrite rows_with_id_set_quantity.
      destruct (rows_with_id other (products s)) as [|p0 r0] eqn:Hrows0; [reflexivity|].
      simpl. rewrite (rows_with_id_id _ _ _ _ Hrows0).
      replace (String.eqb other pid) with false
        by (symmetry; apply String.eqb_neq; exact Hother).
      reflexivity.
  - intros order_data current_user s Hk.
    assert (Hk' : forall l, In l (oc_items order_data) ->
                            rows_with_id (ol_product_id l) (products s) <> []).
    { intros l Hl. apply stock_known, Hk, Hl. }
    eexists. eexists. split; [apply create_order_run; exact Hk'|].
    split; [reflexivity|].
    intros pid n Hn. simpl. apply stock_fold_take_stock; assumption.
  - intros checkout_data cart_id current_user s c rest Hc Hlines Hprod.
    destruct (checkout_order_run checkout_data cart_id current_user s c rest
                Hc Hlines Hprod) as (fo & Hfo & Hrun).
    eexists. eexists. split; [exact Hrun|].
    intros pid n Hn.
    change (products (after_checkout checkout_data cart_id (u_id current_user) fo s))
      with (fold_left take_stock (all_lines fo) (products s)).
    rewrite (stock_fold_take_stock pid (all_lines fo) (products s) n
               (grouped_lines_known s cart_id fo Hfo) Hn).
    rewrite (ordered_all_lines pid _ fo Hfo), ordered_loaded_lines by exact Hprod.
    reflexivity.
Qed.

(** ** User rows in responses *)

Lemma add_full_name_keeps_digest (u : user) :
  u_password_hash (add_full_name u) = u_password_hash u.
Proof.
  unfold add_full_name.
  destruct (orb (truthy (u_first_name u)) (truthy (u_last_name u))); reflexivity.
Qed.

(** The account endpoints delete the digest from the row they return. *)
Lemma account_endpoints_hide_digest :
  (forall d s s' r, register_user d s = (s', Ok r) -> u_password_hash (ar_user r) = None) /\
  (forall d s s' r, login_user d s = (s', Ok r) -> u_password_hash (ar_user r) = None) /\
  (forall uid s s' u, get_user_profile uid s = (s', Ok u) -> u_password_hash u = None) /\
  (forall cu s s' u, get_current_user_profile cu s = (s', Ok u) -> u_password_hash u = None).
Proof.
  split; [|split; [|split]].
  - intros d s s' r. unfold register_user, bind, gets.
    destruct (users_by_email (uc_email d) s); [|discriminate].
    destruct (users_by_username (uc_username d) s); [|discriminate].
    unfold new_uuid, modify, ret. intros H. inversion H; subst. simpl.
    apply add_full_name_keeps_digest.
  - intros d s s' r. unfold login_user, bind, gets.
    destruct (users_by_email (ul_email d) s) as [|u0 rest]; [discriminate|].
    destruct (u_password_hash u0); unfold modify, ret;
      match goal with
      | |- context [if ?b then _ else _] => destruct b
      end; try discriminate;
      intros H; inversion H; subst; simpl; apply add_full_name_keeps_digest.
  - intros uid s s' u. unfold get_user_profile, bind, gets.
    destruct (users_by_id uid s); [discriminate|].
    unfold ret. intros H. inversion H; subst. apply add_full_name_keeps_digest.
  - intros cu s s' u. unfold get_current_user_profile, ret.
    intros H. inversion H; subst. apply add_full_name_keeps_digest.
Qed.

(** The order listing returns the buyer's row as the store holds it. *)
Lemma get_orders_embeds_stored_buyer (status : option string) (page limit : option Z)
    (current_user : user) (s s' : state) (r : orders_response) :
  get_orders status page limit current_user s = (s', Ok r) ->
  forall v, In v (or_orders r) ->
    ov_users v = find (fun u => String.eqb (u_id u) (o_buyer_id (ov_order v))) (users s).
Proof.
  unfold get_orders, check_query, bind, gets, ret, raise.
  destruct (query_in_bounds (page_or_default page) (limit_or_default limit));
    [|discriminate].
  intros H. inversion H; subst. simpl. intros v Hv.
  apply in_map_iff in Hv. destruct Hv as (o & <- & _). reflexivity.
Qed.

(** * More on the accounts *)

Lemma users_by_username_nil (name : string) (s : state) :
  (forall u, In u (users s) -> u_username u <> name) -> users_by_username name s = [].
Proof.
  intros H. apply filter_nil_iff. intros u Hu. apply String.eqb_neq. apply H, Hu.
Qed.

Lemma filter_nil_neq {A : Type} (col : A -> string) (v : string) (l : list A) :
  filter (fun x => String.eqb (col x) v) l = [] ->
  forall x, In x l -> col x <> v.
Proof.
  intros H x Hx. rewrite filter_nil_iff in H. apply String.eqb_neq. apply H, Hx.
Qed.

(** X1: a registration with an email some record already has is refused
    with 400 "User with this email already exists"; with a fresh email but
    a username some record has, with 400 "Username already taken"; the
    store is untouched in both cases, and the email is looked at first. *)
Theorem register_refuses_taken_names (user_data : UserCreate) (s : state) :
  ((exists u, In u (users s) /\ u_email u = uc_email user_data) ->
   register_user user_data s = (s, Raise email_taken))
  /\
  ((forall u, In u (users s) -> u_email u <> uc_email user_data) ->
   (exists u, In u (users s) /\ u_username u = uc_username user_data) ->
   register_user user_data s = (s, Raise username_taken)).
Proof.
  split.
  - intros (u & Hu & He). unfold register_user, bind, gets.
    destruct (filter_in_cons (fun u => String.eqb (u_email u) (uc_email user_data))
                (users s) u Hu) as (y & r & Hf).
    { apply String.eqb_eq, He. }
    unfold users_by_email. rewrite Hf. reflexivity.
  - intros Hfree (u & Hu & Hn). unfold register_user, bind, gets.
    rewrite users_by_email_nil by exact Hfree.
    destruct (filter_in_cons (fun u => String.eqb (u_username u) (uc_username user_data))
                (users s) u Hu) as (y & r & Hf).
    { apply String.eqb_eq, Hn. }
    unfold users_by_username. rewrite Hf. reflexivity.
Qed.

Lemma register_user_run (user_data : UserCreate) (s : state) :
  (forall u, In u (users s) -> u_email u <> uc_email user_data) ->
  (forall u, In u (users s) -> u_username u <> uc_username user_data) ->
  register_user user_data s
  = ({| users := users s ++ [registered user_data (uuid4 (uuid_draws s))];
        products := products s; carts := carts s; cart_items := cart_items s;
        orders := orders s; order_items := order_items s;
        uuid_draws := S (uuid_draws s) |},
     Ok {| ar_message := "Registration successful";
           ar_user := add_full_name
                        (del_password_hash (registered user_data (uuid4 (uuid_draws s))));
           ar_token := create_access_token
                         (token_claims (registered user_data (uuid4 (uuid_draws s)))) |}).
Proof.
  intros He Hn. unfold register_user, bind, gets.
  rewrite users_by_email_nil by exact He.
  rewrite users_by_username_nil by exact Hn.
  reflexivity.
Qed.

(** X2: a registration with a fresh email and username goes through and
    appends one record holding the digest of the password; on the store it
    leaves, a login with that email and password succeeds, returns the
    registered user and changes nothing, and a login with a password of
    another digest is turned away with 401. *)
Theorem register_then_login (user_data : UserCreate) (s : state) :
  (forall u, In u (users s) -> u_email u <> uc_email user_data) ->
  (forall u, In u (users s) -> u_username u <> uc_username user_data) ->
  exists s1 r1,
    register_user user_data s = (s1, Ok r1) /\
    users s1 = users s ++ [registered user_data (uuid4 (uuid_draws s))] /\
    (exists r2,
       login_user {| ul_email := uc_email user_data;
                     ul_password := uc_password user_data |} s1 = (s1, Ok r2) /\
       ar_user r2 = ar_user r1) /\
    (forall wrong,
       get_password_hash wrong <> get_password_hash (uc_password user_data) ->
       login_user {| ul_email := uc_email user_data; ul_password := wrong |} s1
       = (s1, Raise invalid_credentials)).
Proof.
  intros He Hn. eexists. eexists.
  split; [apply register_user_run; assumption|].
  split; [reflexivity|].
  assert (Hfound : forall s1,
             users s1 = users s ++ [registered user_data (uuid4 (uuid_draws s))] ->
             users_by_email (uc_email user_data) s1
             = [registered user_data (uuid4 (uuid_draws s))]).
  { intros s1 Hs1. unfold users_by_email. rewrite Hs1, filter_app.
    fold (users_by_email (uc_email user_data) s).
    rewrite users_by_email_nil by exact He. simpl.
    rewrite String.eqb_refl. reflexivity. }
  split.
  - eexists. unfold login_user, bind, gets. cbn [ul_email ul_password].
    rewrite Hfound by reflexivity. cbn [u_password_hash registered].
    unfold ret, get_password_hash_or_empty. cbn [u_password_hash registered].
    rewrite verify_own_hash. cbn [negb]. split; reflexivity.
  - intros wrong Hwrong. unfold login_user, bind, gets. cbn [ul_email ul_password].
    rewrite Hfound by reflexivity. cbn [u_password_hash registered].
    unfold ret, get_password_hash_or_empty. cbn [u_password_hash registered].
    unfold verify_password.
    replace (String.eqb (get_password_hash wrong) (get_password_hash (uc_password user_data)))
      with false by (symmetry; apply String.eqb_neq; exact Hwrong).
    reflexivity.
Qed.

Lemma NoDup_snoc {A : Type} (l : list A) (x : A) :
  NoDup l -> ~ In x l -> NoDup (l ++ [x]).
Proof.
  intros Hnd Hx. apply NoDup_app; [exact Hnd | repeat constructor; intros [] |].
  intros y Hy [<-|[]]. exact (Hx Hy).
Qed.

(** X3: registrations keep emails and usernames unique: when no two
    records share an email (a username) before a call of [register_user],
    none do after it, whatever the outcome. *)
Theorem register_keeps_names_unique (user_data : UserCreate) (s s' : state)
    (out : outcome auth_response) :
  register_user user_data s = (s', out) ->
  (NoDup (map u_email (users s)) -> NoDup (map u_email (users s'))) /\
  (NoDup (map u_username (users s)) -> NoDup (map u_username (users s'))).
Proof.
  unfold register_user, bind, gets.
  destruct (users_by_email (uc_email user_data) s) as [|e es] eqn:He.
  2:{ intros H. inversion H; subst. tauto. }
  destruct (users_by_username (uc_username user_data) s) as [|n ns] eqn:Hn.
  2:{ intros H. inversion H; subst. tauto. }
  unfold new_uuid, modify, ret. intros H. inversion H; subst. clear H. simpl.
  rewrite !map_app. simpl. split; intros Hnd; apply NoDup_snoc; try exact Hnd.
  - intros Hin. apply in_map_iff in Hin. destruct Hin as (u & Hu & Hin).
    exact (filter_nil_neq u_email _ _ He u Hin Hu).
  - intros Hin. apply in_map_iff in Hin. destruct Hin as (u & Hu & Hin).
    exact (filter_nil_neq u_username _ _ Hn u Hin Hu).
Qed.

(** X4: a login that fails fails with 401 "Invalid email or password" and
    leaves the store as it was; a login changes the store only when the
    record found has no digest key, and then only by storing the digest of
    the supplied password on the records with that id. *)
Theorem login_changes_only_missing_digest (login_data : UserLogin) (s s' : state)
    (out : outcome auth_response) :
  login_user login_data s = (s', out) ->
  (forall e, out = Raise e -> e = invalid_credentials /\ s' = s) /\
  (s' = s \/
   exists u rest,
     users_by_email (ul_email login_data) s = u :: rest /\
     u_password_hash u = None /\
     s' = with_users (store_password_hash (u_id u)
                        (get_password_hash (ul_password login_data))) s).
Proof.
  unfold login_user, bind, gets.
  destruct (users_by_email (ul_email login_data) s) as [|u0 rest] eqn:Hu.
  - intros H. inversion H; subst. split; [|left; reflexivity].
    intros e He. inversion He. split; reflexivity.
  - destruct (u_password_hash u0) as [v|] eqn:Hh.
    + unfold ret, get_password_hash_or_empty. rewrite Hh.
      destruct (verify_password (ul_password login_data) v); simpl;
        intros H; inversion H; subst; (split; [|left; reflexivity]);
        intros e He; inversion He; split; reflexivity.
    + unfold modify, ret, get_password_hash_or_empty. simpl.
      rewrite String.eqb_refl. simpl. intros H. inversion H; subst. split.
      * intros e He. discriminate He.
      * right. exists u0, rest. repeat split. exact Hh.
Qed.

Lemma map_unchanged {A : Type} (f : A -> A) (l : list A) :
  (forall x, In x l -> f x = x) -> map f l = l.
Proof.
  intros H. induction l as [|a l IH]; simpl; [reflexivity|].
  rewrite H by (left; reflexivity). rewrite IH; [reflexivity|].
  intros x Hx. apply H. right. exact Hx.
Qed.

Lemma with_users_unchanged (f : list user -> list user) (s : state) :
  f (users s) = users s -> with_users f s = s.
Proof. intros H. destruct s. unfold with_users. simpl in *. rewrite H. reflexivity. Qed.

(** X5: a profile update by someone who is neither the user nor an admin
    is refused with 403 and writes nothing.  One that is allowed rewrites
    the records with that id and no others, and leaves every record its
    id, email, digest and role; the user comes back without the digest.
    When no record has the id (an admin may ask for any) it fails with 500
    "Update failed", the store unchanged. *)
Theorem update_user_profile_scope (user_id : string) (update_data : UserUpdate)
    (current_user : user) (s : state) :
  (u_id current_user <> user_id -> u_user_type current_user <> "admin" ->
   update_user_profile user_id update_data current_user s = (s, Raise not_authorized))
  /\
  (u_id current_user = user_id \/ u_user_type current_user = "admin" ->
   (forall u rest, users_by_id user_id s = u :: rest ->
      exists s' r,
        update_user_profile user_id update_data current_user s = (s', Ok r) /\
        upr_user r = add_full_name (del_password_hash (apply_user_update update_data u)) /\
        u_password_hash (upr_user r) = None /\
        map identity_of (users s') = map identity_of (users s) /\
        filter (fun u => negb (String.eqb (u_id u) user_id)) (users s')
        = filter (fun u => negb (String.eqb (u_id u) user_id)) (users s)) /\
   (users_by_id user_id s = [] ->
    update_user_profile user_id update_data current_user s = (s, Raise update_failed))).
Proof.
  split.
  - intros Hid Hadm. unfold update_user_profile.
    replace (String.eqb (u_id current_user) user_id) with false
      by (symmetry; apply String.eqb_neq; exact Hid).
    replace (String.eqb (u_user_type current_user) "admin") with false
      by (symmetry; apply String.eqb_neq; exact Hadm).
    reflexivity.
  - intros Hallowed.
    assert (Hgate : andb (negb (String.eqb (u_id current_user) user_id))
                         (negb (String.eqb (u_user_type current_user) "admin")) = false).
    { destruct Hallowed as [H|H]; rewrite H, String.eqb_refl; simpl;
        [reflexivity | apply andb_false_r]. }
    set (f := fun u => if String.eqb (u_id u) user_id
                       then apply_user_update update_data u else u).
    assert (Hby : users_by_id user_id (with_users (map f) s)
                  = map f (users_by_id user_id s)).
    { unfold users_by_id. simpl. apply filter_map_same.
      intros u. unfold f. destruct (String.eqb (u_id u) user_id) eqn:Hx; exact Hx. }
    split.
    + intros u rest Hu. unfold update_user_profile. rewrite Hgate.
      unfold bind, modify, gets. fold f. rewrite Hby, Hu. simpl.
      assert (Hfu : f u = apply_user_update update_data u).
      { unfold f. apply filter_cons_in in Hu. destruct Hu as [_ Hu]. rewrite Hu.
        reflexivity. }
      rewrite Hfu. unfold ret. eexists. eexists. split; [reflexivity|].
      split; [reflexivity|]. split; [apply add_full_name_keeps_digest|]. simpl. split.
      * rewrite map_map. apply map_ext. intros x. unfold f.
        destruct (String.eqb (u_id x) user_id); reflexivity.
      * rewrite filter_map_same
          by (intros x; unfold f; destruct (String.eqb (u_id x) user_id) eqn:Hx;
            simpl; rewrite Hx; reflexivity).
        apply map_unchanged. intros x Hx. apply filter_In in Hx. destruct Hx as [_ Hx].
        unfold f. destruct (String.eqb (u_id x) user_id); [discriminate | reflexivity].
    + intros Hnone. unfold update_user_profile. rewrite Hgate.
      unfold bind, modify, gets. fold f. rewrite Hby, Hnone. simpl.
      unfold raise. rewrite with_users_unchanged; [reflexivity|].
      apply map_unchanged. intros x Hx. unfold f.
      destruct (String.eqb (u_id x) user_id) eqn:Hx'; [|reflexivity].
      exfalso. unfold users_by_id in Hnone. rewrite filter_nil_iff in Hnone.
      rewrite (Hnone x Hx) in Hx'. discriminate.
Qed.

(** X6: no account endpoint returns the digest: the user in the answer of
    a registration, a login, [/api/auth/me], a profile read or a profile
    update has no ['password_hash'] key, and neither has any user of the
    admin's user list. *)
Theorem account_endpoints_strip_digest :
  (forall d s s' r, register_user d s = (s', Ok r) -> u_password_hash (ar_user r) = None) /\
  (forall d s s' r, login_user d s = (s', Ok r) -> u_password_hash (ar_user r) = None) /\
  (forall cu s s' u, get_current_user_profile cu s = (s', Ok u) -> u_password_hash u = None) /\
  (forall uid s s' u, get_user_profile uid s = (s', Ok u) -> u_password_hash u = None) /\
  (forall uid d cu s s' r,
     update_user_profile uid d cu s = (s', Ok r) -> u_password_hash (upr_user r) = None) /\
  (forall page limit cu s s' r,
     get_all_users page limit cu s = (s', Ok r) ->
     forall u, In u (usr_users r) -> u_password_hash u = None).
Proof.
  destruct account_endpoints_hide_digest as (H1 & H2 & H3 & H4).
  split; [exact H1|]. split; [exact H2|]. split; [exact H4|]. split; [exact H3|].
  split.
  - intros uid d cu s s' r. unfold update_user_profile.
    destruct (andb _ _); [discriminate|].
    unfold bind, modify, gets.
    destruct (users_by_id uid _) as [|u rest]; [discriminate|].
    unfold ret. intros H. inversion H; subst. apply add_full_name_keeps_digest.
  - intros page limit cu s s' r. unfold get_all_users, check_query, bind.
    destruct (query_in_bounds _ _); [|discriminate]. unfold ret at 1.
    destruct (negb _); [discriminate|].
    unfold gets, ret. intros H. inversion H; subst. simpl.
    intros u Hu. apply in_map_iff in Hu. destruct Hu as (u0 & <- & _). reflexivity.
Qed.

(** * More on the catalog *)

Lemma products_by_id_nil (pid : string) (s : state) :
  (forall q, In q (products s) -> p_id q <> pid) -> products_by_id pid s = [].
Proof.
  intros H. apply filter_nil_iff. intros q Hq. apply String.eqb_neq. apply H, Hq.
Qed.

(** X7: only a farmer can create a product (403 otherwise, nothing
    written); the product is appended under a new uuid with the creator
    as its farmer, and when that uuid is new to the table the creator is
    its one owner and [get_product] finds it. *)
Theorem create_product_owned_by_creator (product_data : ProductCreate)
    (current_user : user) (s : state) :
  (u_user_type current_user <> "farmer" ->
   create_product product_data current_user s = (s, Raise only_farmers))
  /\
  (u_user_type current_user = "farmer" ->
   let p := created_product product_data (u_id current_user) (uuid4 (uuid_draws s)) in
   exists s',
     create_product product_data current_user s
     = (s', Ok {| prr_message := "Product created successfully"; prr_product := p |}) /\
     products s' = products s ++ [p] /\
     p_farmer_id p = u_id current_user /\
     ((forall q, In q (products s) -> p_id q <> p_id p) ->
      owned_products (p_id p) (u_id current_user) s' = [p] /\
      exists v, get_product (p_id p) s' = (s', Ok v) /\ pv_product v = p)).
Proof.
  split.
  - intros Hne. unfold create_product.
    replace (String.eqb (u_user_type current_user) "farmer") with false
      by (symmetry; apply String.eqb_neq; exact Hne).
    reflexivity.
  - intros Hf p. unfold create_product. rewrite Hf. simpl.
    unfold bind, new_uuid, modify, ret. eexists. split; [reflexivity|].
    split; [reflexivity|]. split; [reflexivity|].
    intros Hfresh. split.
    + unfold owned_products. cbn [products with_products]. rewrite filter_app.
      replace (filter _ (products s)) with (@nil product).
      * simpl. rewrite !String.eqb_refl. reflexivity.
      * symmetry. apply filter_nil_iff. intros q Hq.
        replace (String.eqb (p_id q) (uuid4 (uuid_draws s))) with false; [reflexivity|].
        symmetry. apply String.eqb_neq. apply Hfresh, Hq.
    + unfold get_product, bind, gets, products_by_id. cbn [products with_products].
      rewrite filter_app.
      replace (filter _ (products s)) with (@nil product).
      * simpl. rewrite String.eqb_refl. simpl. eexists. split; reflexivity.
      * symmetry. apply filter_nil_iff. intros q Hq.
        apply String.eqb_neq. apply Hfresh, Hq.
Qed.

Lemma owned_products_by_id (pid uid : string) (s : state) :
  owned_products pid uid s <> [] -> products_by_id pid s <> [].
Proof.
  intros H Hnil. apply H. apply filter_nil_iff. intros q Hq.
  unfold products_by_id in Hnil. rewrite filter_nil_iff in Hnil.
  rewrite (Hnil q Hq). reflexivity.
Qed.


(** X9: a delete by the owner removes every record of that id and nothing
    else, cart lines included; afterwards [get_product] answers 404, and
    so do a second delete and an update. *)
Theorem delete_product_by_owner (product_id : string) (product_data : ProductUpdate)
    (current_user : user) (s : state) :
  owned_products product_id (u_id current_user) s <> [] ->
  exists s',
    delete_product product_id current_user s = (s', Ok "Product deleted successfully") /\
    products s' = filter (fun p => negb (String.eqb (p_id p) product_id)) (products s) /\
    cart_items s' = cart_items s /\
    get_product product_id s' = (s', Raise product_missing) /\
    delete_product product_id current_user s' = (s', Raise product_not_found) /\
    update_product product_id product_data current_user s' = (s', Raise product_not_found).
Proof.
  intros Hown. unfold delete_product at 1. unfold bind, gets.
  destruct (owned_products product_id (u_id current_user) s) as [|o os] eqn:Ho;
    [contradiction|].
  unfold modify, ret. eexists. split; [reflexivity|].
  split; [reflexivity|]. split; [reflexivity|].
  set (s' := with_products
               (filter (fun p => negb (String.eqb (p_id p) product_id))) s).
  assert (Hgone : forall q, In q (products s') -> p_id q <> product_id).
  { intros q Hq. unfold s' in Hq. cbn [products with_products] in Hq.
    apply filter_In in Hq. destruct Hq as [_ Hq]. apply String.eqb_neq.
    destruct (String.eqb (p_id q) product_id); [discriminate | reflexivity]. }
  assert (Hnone : owned_products product_id (u_id current_user) s' = []).
  { apply owned_products_nil. intros q Hq Hid. exfalso. exact (Hgone q Hq Hid). }
  split; [|split].
  - unfold get_product, bind, gets. rewrite products_by_id_nil by exact Hgone.
    reflexivity.
  - unfold delete_product, bind, gets. rewrite Hnone. reflexivity.
  - unfold update_product, bind, gets. rewrite Hnone. reflexivity.
Qed.

(** ** The categories *)

Lemma ascii_compare_lt_trans (a b c : ascii) :
  Ascii.compare a b = Lt -> Ascii.compare b c = Lt -> Ascii.compare a c = Lt.
Proof.
  unfold Ascii.compare. rewrite !N.compare_lt_iff. lia.
Qed.

Lemma str_lt_trans (a b c : string) : str_lt a b -> str_lt b c -> str_lt a c.
Proof.
  unfold str_lt. revert b c.
  induction a as [|x a IH]; intros [|y b] [|z c]; simpl; try discriminate; try reflexivity.
  destruct (Ascii.compare x y) eqn:Hxy; try discriminate;
    destruct (Ascii.compare y z) eqn:Hyz; try discriminate; intros H1 H2.
  - apply Ascii.compare_eq_iff in Hxy, Hyz. subst.
    replace (Ascii.compare z z) with Eq
      by (symmetry; unfold Ascii.compare; apply N.compare_refl).
    exact (IH _ _ H1 H2).
  - apply Ascii.compare_eq_iff in Hxy. subst. rewrite Hyz. reflexivity.
  - apply Ascii.compare_eq_iff in Hyz. subst. rewrite Hxy. reflexivity.
  - rewrite (ascii_compare_lt_trans _ _ _ Hxy Hyz). reflexivity.
Qed.

Lemma str_compare_gt (a b : string) : String.compare a b = Gt -> str_lt b a.
Proof.
  unfold str_lt. intros H. rewrite String.compare_antisym, H. reflexivity.
Qed.

Lemma insert_distinct_in (x : string) (l : list string) (z : string) :
  In z (insert_distinct x l) <-> z = x \/ In z l.
Proof.
  induction l as [|y r IH]; simpl; [intuition congruence|].
  destruct (String.compare x y) eqn:Hc; simpl.
  - apply String.compare_eq_iff in Hc. subst. intuition congruence.
  - intuition congruence.
  - rewrite IH. intuition congruence.
Qed.

Lemma insert_distinct_sorted (x : string) (l : list string) :
  StronglySorted str_lt l -> StronglySorted str_lt (insert_distinct x l).
Proof.
  induction l as [|y r IH]; simpl; intros Hs.
  - repeat constructor.
  - apply StronglySorted_inv in Hs. destruct Hs as [Hr Hy].
    destruct (String.compare x y) eqn:Hc.
    + constructor; assumption.
    + constructor; [constructor; assumption|].
      constructor; [exact Hc|].
      rewrite Forall_forall in *. intros z Hz.
      exact (str_lt_trans _ _ _ Hc (Hy z Hz)).
    + constructor; [apply IH, Hr|].
      rewrite Forall_forall in *. intros z Hz.
      apply insert_distinct_in in Hz. destruct Hz as [->|Hz].
      * apply str_compare_gt, Hc.
      * apply Hy, Hz.
Qed.

Lemma sorted_set_spec (xs : list string) :
  StronglySorted str_lt (sorted_set xs) /\
  (forall z, In z (sorted_set xs) <-> In z xs).
Proof.
  induction xs as [|x xs [IH1 IH2]]; simpl.
  - split; [constructor | tauto].
  - split; [apply insert_distinct_sorted, IH1|].
    intros z. rewrite insert_distinct_in, IH2. intuition congruence.
Qed.

(** X10: the category list is strictly increasing, hence without
    repetition, and holds exactly the non-empty categories some product
    has; the store is only read. *)
Theorem get_categories_sorted_distinct (s : state) :
  exists cs,
    get_categories s = (s, Ok cs) /\
    StronglySorted str_lt cs /\
    (forall c, In c cs <-> c <> "" /\ exists p, In p (products s) /\ p_category p = c).
Proof.
  unfold get_categories, bind, gets, ret. eexists. split; [reflexivity|].
  destruct (sorted_set_spec
              (map p_category
                 (filter (fun item => truthy (Some (p_category item))) (products s))))
    as [Hs Hin].
  split; [exact Hs|].
  intros c. rewrite Hin, in_map_iff. split.
  - intros (p & <- & Hp). apply filter_In in Hp. destruct Hp as [Hp Ht].
    simpl in Ht. split; [|exists p; split; [exact Hp | reflexivity]].
    intros Hempty. rewrite Hempty in Ht. discriminate.
  - intros (Hne & p & Hp & <-). exists p. split; [reflexivity|].
    apply filter_In. split; [exact Hp|]. simpl.
    apply negb_true_iff. apply String.eqb_neq. exact Hne.
Qed.

(** ** The pages of a listing *)

Lemma firstn_plus {A : Type} (n m : nat) (l : list A) :
  firstn (n + m) l = firstn n l ++ firstn m (skipn n l).
Proof.
  revert l. induction n as [|n IH]; intros l; [reflexivity|].
  destruct l as [|a l]; simpl.
  - rewrite firstn_nil. reflexivity.
  - rewrite IH. reflexivity.
Qed.

Lemma in_firstn {A : Type} (n : nat) (l : list A) (x : A) :
  In x (firstn n l) -> In x l.
Proof.
  revert l. induction n as [|n IH]; intros [|a l]; simpl; try tauto.
  intros [->|H]; [left; reflexivity | right; apply IH, H].
Qed.

Lemma in_skipn {A : Type} (n : nat) (l : list A) (x : A) :
  In x (skipn n l) -> In x l.
Proof.
  revert l. induction n as [|n IH]; intros [|a l]; simpl; try tauto.
  intros H. right. apply IH, H.
Qed.

Lemma listed_is_range (category farmer_id search : option string) (page limit : Z)
    (s : state) :
  (1 <= page)%Z -> (1 <= limit <= 100)%Z ->
  listed category farmer_id search page limit s
  = firstn (Z.to_nat limit)
      (skipn ((Z.to_nat page - 1) * Z.to_nat limit)
             (matching_products category farmer_id search s)).
Proof.
  intros Hp Hl. unfold listed, get_products, check_query, bind, gets, ret.
  cbn [page_or_default limit_or_default].
  replace (query_in_bounds page limit) with true
    by (symmetry; apply query_in_bounds_iff; lia).
  cbn [pr_products]. unfold range. f_equal; [lia|]. f_equal. nia.
Qed.

(** X11: the pages of a listing tile the filtered result: pages 1 to k of
    size limit, one after the other, are its first k*limit rows, and
    pages 1 to the reported page count are all of it, each row once and
    in order. *)
Theorem get_products_pages_tile (category farmer_id search : option string)
    (limit : Z) (s : state) :
  (1 <= limit <= 100)%Z ->
  let rows := matching_products category farmer_id search s in
  (forall k : nat,
     List.concat (map (fun p => listed category farmer_id search (Z.of_nat p) limit s)
                      (seq 1 k))
     = firstn (k * Z.to_nat limit) rows) /\
  (forall r,
     get_products category farmer_id search (Some 1%Z) (Some limit) s = (s, Ok r) ->
     List.concat (map (fun p => listed category farmer_id search (Z.of_nat p) limit s)
                      (seq 1 (Z.to_nat (pg_pages (pr_pagination r)))))
     = rows).
Proof.
  intros Hl rows.
  assert (Htile : forall k : nat,
             List.concat (map (fun p => listed category farmer_id search (Z.of_nat p) limit s)
                              (seq 1 k))
             = firstn (k * Z.to_nat limit) rows).
  { induction k as [|k IH]; [reflexivity|].
    rewrite seq_S, map_app, concat_app, IH. cbn [map List.concat].
    rewrite app_nil_r, listed_is_range by lia.
    replace (Z.to_nat (Z.of_nat (1 + k)) - 1) with k by lia.
    replace (S k * Z.to_nat limit) with (k * Z.to_nat limit + Z.to_nat limit) by lia.
    rewrite firstn_plus. reflexivity. }
  split; [exact Htile|].
  intros r Hr. rewrite Htile.
  unfold get_products, check_query, bind, gets, ret in Hr.
  cbn [page_or_default limit_or_default] in Hr.
  replace (query_in_bounds 1 limit) with true in Hr
    by (symmetry; apply query_in_bounds_iff; lia).
  inversion Hr; subst r. cbn [pr_pagination pg_pages]. fold rows.
  pose proof (pages_is_ceiling (Z.of_nat (List.length rows)) limit ltac:(lia)) as Hceil.
  cbv zeta in Hceil.
  apply firstn_all2. nia.
Qed.


(** * More on the cart *)

Lemma bind_inv {A B : Type} (c : M A) (k : A -> M B) (s s' : state) (out : outcome B) :
  bind c k s = (s', out) ->
  (exists s1 a, c s = (s1, Ok a) /\ k a s1 = (s', out)) \/
  (exists e, c s = (s', Raise e) /\ out = Raise e).
Proof.
  unfold bind. destruct (c s) as [s1 [a|e]]; intros H.
  - left. exists s1, a. split; [reflexivity | exact H].
  - right. inversion H; subst. exists e. split; reflexivity.
Qed.

Lemma same_line_key (r item : cart_item) :
  same_line r item = true <-> line_key r = line_key item.
Proof.
  unfold same_line, line_key. rewrite andb_true_iff, !String.eqb_eq.
  split; [intros [-> ->]; reflexivity | intros H; inversion H; split; reflexivity].
Qed.

Lemma upsert_keys (item : cart_item) (rows : list cart_item) (k : string * string) :
  In k (map line_key (upsert item rows)) -> k = line_key item \/ In k (map line_key rows).
Proof.
  induction rows as [|r rows IH]; simpl.
  - intros [<-|[]]. left. reflexivity.
  - destruct (same_line r item) eqn:Hr; simpl.
    + intros [<-|H]; [left; reflexivity | right; right; exact H].
    + intros [<-|H]; [right; left; reflexivity|].
      destruct (IH H) as [->|H']; [left; reflexivity | right; right; exact H'].
Qed.

Lemma upsert_keeps_unique (item : cart_item) (rows : list cart_item) :
  NoDup (map line_key rows) -> NoDup (map line_key (upsert item rows)).
Proof.
  induction rows as [|r rows IH]; simpl; intros Hnd.
  - repeat constructor. intros [].
  - inversion Hnd as [|? ? Hnot Hnd']; subst.
    destruct (same_line r item) eqn:Hr; simpl.
    + apply same_line_key in Hr. rewrite <- Hr. exact Hnd.
    + constructor; [|apply IH, Hnd'].
      intros Hin. apply upsert_keys in Hin. destruct Hin as [Hk|Hin].
      * apply same_line_key in Hk. congruence.
      * exact (Hnot Hin).
Qed.

Lemma kept_lines_stay_unique (keep : cart_item -> bool) (rows : list cart_item) :
  NoDup (map line_key rows) -> NoDup (map line_key (filter keep rows)).
Proof.
  induction rows as [|r rows IH]; intros Hnd; [constructor|].
  cbn [map] in Hnd. apply NoDup_cons_iff in Hnd. destruct Hnd as [Hnew Hnd].
  cbn [filter]. destruct (keep r); [|exact (IH Hnd)].
  cbn [map]. apply NoDup_cons; [|exact (IH Hnd)].
  intros Hin. apply Hnew. apply in_map_iff in Hin. destruct Hin as (x & Hx & Hin).
  apply filter_In in Hin. apply in_map_iff. exists x. tauto.
Qed.

Lemma decrement_stock_cart_items (pid : string) (q : Z) (s s' : state) (out : outcome unit) :
  decrement_stock pid q s = (s', out) -> cart_items s' = cart_items s.
Proof.
  unfold decrement_stock, bind, gets.
  destruct (products_by_id pid s); unfold raise, modify; intros H; inversion H; reflexivity.
Qed.

Lemma order_items_loop_cart_items (order_id : string) (items : list order_line) :
  forall acc s s' out,
    order_items_loop order_id items acc s = (s', out) -> cart_items s' = cart_items s.
Proof.
  induction items as [|l items IH]; intros acc s s' out; simpl.
  - unfold ret. intros H. inversion H. reflexivity.
  - intros H. apply bind_inv in H. destruct H as [(s1 & a & H1 & H)|(e & H1 & _)].
    2:{ unfold new_uuid in H1. discriminate H1. }
    unfold new_uuid in H1. inversion H1; subst. clear H1.
    apply bind_inv in H. destruct H as [(s2 & a & H2 & H)|(e & H2 & _)].
    + apply IH in H. apply decrement_stock_cart_items in H2.
      rewrite H, H2. reflexivity.
    + apply decrement_stock_cart_items in H2. rewrite H2. reflexivity.
Qed.

Lemma farmer_orders_loop_cart_items (checkout_data : CheckoutData) (buyer_id : string)
    (fo : farmer_orders) :
  forall created s s' out,
    farmer_orders_loop checkout_data buyer_id fo created s = (s', out) ->
    cart_items s' = cart_items s.
Proof.
  induction fo as [|[f g] fo IH]; intros created s s' out; simpl.
  - unfold ret. intros H. inversion H. reflexivity.
  - intros H. apply bind_inv in H. destruct H as [(s1 & a & H1 & H)|(e & H1 & _)].
    2:{ unfold new_uuid in H1. discriminate H1. }
    unfold new_uuid in H1. inversion H1; subst. clear H1.
    apply bind_inv in H. destruct H as [(s2 & a & H2 & H)|(e & H2 & _)].
    2:{ unfold modify in H2. discriminate H2. }
    unfold modify in H2. inversion H2; subst. clear H2.
    apply bind_inv in H. destruct H as [(s3 & its & H3 & H)|(e & H3 & _)].
    2:{ apply order_items_loop_cart_items in H3. rewrite H3. reflexivity. }
    apply order_items_loop_cart_items in H3.
    apply bind_inv in H. destruct H as [(s4 & a & H4 & H)|(e & H4 & _)].
    + assert (H4' : cart_items s4 = cart_items s3).
      { unfold insert_order_items in H4. destruct its; unfold ret, modify in H4;
          inversion H4; reflexivity. }
      apply IH in H. rewrite H, H4', H3. reflexivity.
    + unfold insert_order_items in H4. destruct its; unfold ret, modify in H4;
        discriminate H4.
Qed.

(** X13: the cart endpoints keep the (cart, product) pair unique: when no
    pair has two lines before a call of [add_to_cart], [remove_from_cart],
    [clear_cart], [get_cart] or [checkout_order], none has after it,
    whatever the outcome. *)
Theorem cart_lines_stay_unique (current_user : user) (s s' : state) :
  lines_unique s ->
  (forall item out, add_to_cart item current_user s = (s', out) -> lines_unique s') /\
  (forall pid out, remove_from_cart pid current_user s = (s', out) -> lines_unique s') /\
  (forall out, clear_cart current_user s = (s', out) -> lines_unique s') /\
  (forall out, get_cart current_user s = (s', out) -> lines_unique s') /\
  (forall d cid out, checkout_order d cid current_user s = (s', out) -> lines_unique s').
Proof.
  unfold lines_unique. intros Hu. split; [|split; [|split; [|split]]].
  - intros item out. unfold add_to_cart, bind, gets.
    destruct (carts_of_user (u_id current_user) s) as [|c cs];
      unfold new_uuid, modify, ret; unfold products_by_id; simpl;
      destruct (filter _ (products s)); unfold raise;
      intros H; inversion H; subst; simpl;
      try exact Hu; apply upsert_keeps_unique, Hu.
  - intros pid out. unfold remove_from_cart, bind, gets.
    destruct (carts_of_user (u_id current_user) s) as [|c cs];
      unfold raise, modify, ret; intros H; inversion H; subst; simpl;
      [exact Hu | apply kept_lines_stay_unique, Hu].
  - intros out. unfold clear_cart, bind, gets.
    destruct (carts_of_user (u_id current_user) s) as [|c cs];
      unfold raise, modify, ret; intros H; inversion H; subst; simpl;
      [exact Hu | apply kept_lines_stay_unique, Hu].
  - intros out. unfold get_cart, bind, gets.
    destruct (map _ (carts_of_user (u_id current_user) s)) as [|c cs];
      unfold new_uuid, modify, ret; intros H; inversion H; subst; simpl; exact Hu.
  - intros d cid out. unfold checkout_order. unfold bind at 1. unfold gets at 1.
    destruct (carts_by_id_and_user cid (u_id current_user) s) as [|c cs];
      [unfold raise; intros H; inversion H; subst; exact Hu|].
    unfold bind at 1. unfold gets at 1.
    destruct (map (with_product s) (lines_of_cart (c_id c) s)) as [|j js];
      [unfold raise; intros H; inversion H; subst; exact Hu|].
    destruct (group_by_farmer (j :: js) []) as [fo|e];
      [|intros H; inversion H; subst; exact Hu].
    intros H. apply bind_inv in H. destruct H as [(s1 & a & H1 & H)|(e & H1 & _)].
    + apply farmer_orders_loop_cart_items in H1.
      unfold bind, modify, ret in H. inversion H; subst. simpl.
      rewrite H1. apply kept_lines_stay_unique, Hu.
    + apply farmer_orders_loop_cart_items in H1. rewrite H1. exact Hu.
Qed.

(** X14: [add_to_cart] looks for the cart before it looks for the
    product: for a product that does not exist it answers 404 "Product
    not found" and, when the user had no cart, leaves a new cart with
    total 0 and no line behind; a user with a cart finds the store as it
    was. *)
Theorem add_to_cart_missing_product (item : CartItemAdd) (current_user : user) (s : state) :
  products_by_id (cia_product_id item) s = [] ->
  (carts_of_user (u_id current_user) s <> [] ->
   add_to_cart item current_user s = (s, Raise product_missing))
  /\
  (carts_of_user (u_id current_user) s = [] ->
   exists s',
     add_to_cart item current_user s = (s', Raise product_missing) /\
     carts s' = carts s ++ [{| c_id := uuid4 (uuid_draws s);
                               c_user_id := u_id current_user;
                               c_total := num_zero |}] /\
     cart_items s' = cart_items s /\
     products s' = products s /\
     orders s' = orders s).
Proof.
  intros Hp. split.
  - intros Hc. unfold add_to_cart, bind, gets.
    destruct (carts_of_user (u_id current_user) s) as [|c cs]; [contradiction|].
    unfold ret. rewrite Hp. reflexivity.
  - intros Hc. unfold add_to_cart, bind, gets. rewrite Hc.
    unfold new_uuid, modify, ret. unfold products_by_id in *. simpl. rewrite Hp.
    eexists. split; [reflexivity|]. repeat split.
Qed.


Lemma filter_all {A : Type} (p : A -> bool) (l : list A) :
  (forall x, In x l -> p x = true) -> filter p l = l.
Proof.
  induction l as [|a l IH]; simpl; intros H; [reflexivity|].
  rewrite (H a) by (left; reflexivity). rewrite IH; [reflexivity|].
  intros x Hx. apply H. right. exact Hx.
Qed.




(** X17: [remove_from_cart] deletes the line of the product from the
    user's cart and no other line, and succeeds all the same when the cart
    has no such line, the lines then unchanged; without a cart it answers
    404 "Cart not found", as [clear_cart] does, and writes nothing. *)
Theorem remove_from_cart_scope (product_id : string) (current_user : user) (s : state) :
  (forall c rest,
     carts_of_user (u_id current_user) s = c :: rest ->
     exists s',
       remove_from_cart product_id current_user s
       = (s', Ok "Item removed from cart successfully") /\
       filter (line_is (c_id c) product_id) (cart_items s') = [] /\
       filter (fun i => negb (line_is (c_id c) product_id i)) (cart_items s')
       = filter (fun i => negb (line_is (c_id c) product_id i)) (cart_items s) /\
       (filter (line_is (c_id c) product_id) (cart_items s) = [] ->
        cart_items s' = cart_items s))
  /\
  (carts_of_user (u_id current_user) s = [] ->
   remove_from_cart product_id current_user s = (s, Raise cart_not_found) /\
   clear_cart current_user s = (s, Raise cart_not_found)).
Proof.
  split.
  - intros c rest Hc. unfold remove_from_cart, bind, gets. rewrite Hc.
    unfold modify, ret. eexists. split; [reflexivity|].
    cbn [cart_items set_total with_carts with_cart_items].
    fold (line_is (c_id c) product_id).
    change (fun i => negb (andb (String.eqb (ci_cart_id i) (c_id c))
                                (String.eqb (ci_product_id i) product_id)))
      with (fun i => negb (line_is (c_id c) product_id i)).
    split; [|split].
    + apply filter_nil_iff. intros i Hi. apply filter_In in Hi. destruct Hi as [_ Hi].
      destruct (line_is (c_id c) product_id i); [discriminate | reflexivity].
    + apply filter_all. intros i Hi. apply filter_In in Hi. apply Hi.
    + intros Hnone. apply filter_all. intros i Hi. rewrite filter_nil_iff in Hnone.
      rewrite (Hnone i Hi). reflexivity.
  - intros Hc. unfold remove_from_cart, clear_cart, bind, gets. rewrite Hc.
    split; reflexivity.
Qed.


(** * More on the orders *)

Lemma take_stock_keeps_absent (pid : string) (ps : list product) (l : order_line) :
  rows_with_id pid ps = [] -> rows_with_id pid (take_stock ps l) = [].
Proof.
  intros H. unfold take_stock.
  destruct (rows_with_id (ol_product_id l) ps); [exact H|].
  rewrite rows_with_id_set_quantity, H. reflexivity.
Qed.

Lemma decrement_stock_fails (s : state) ps os ois k (pid : string) (q : Z) :
  rows_with_id pid ps = [] ->
  decrement_stock pid q (after_orders s ps os ois k)
  = (after_orders s ps os ois k, Raise index_error).
Proof.
  intros Hnone. unfold decrement_stock, bind, gets, products_by_id.
  simpl. fold (rows_with_id pid ps). rewrite Hnone. reflexivity.
Qed.

Lemma order_items_loop_fails (s : state) (order_id : string) (bad : order_line)
    (after : list order_line) (before : list order_line) :
  forall (acc : list order_item) ps os ois k,
    (forall l, In l before -> rows_with_id (ol_product_id l) ps <> []) ->
    rows_with_id (ol_product_id bad) ps = [] ->
    order_items_loop order_id (before ++ bad :: after) acc (after_orders s ps os ois k)
    = (after_orders s (fold_left take_stock before ps) os ois (S (k + List.length before)),
       Raise index_error).
Proof.
  induction before as [|l before IH]; intros acc ps os ois k Hk Hbad.
  - cbn [app order_items_loop]. unfold bind at 1. rewrite new_uuid_run.
    unfold bind at 1. rewrite decrement_stock_fails by exact Hbad.
    cbn [fold_left List.length]. rewrite Nat.add_0_r. reflexivity.
  - cbn [app order_items_loop]. unfold bind at 1. rewrite new_uuid_run.
    unfold bind at 1. rewrite decrement_stock_run by (apply Hk; left; reflexivity).
    rewrite IH.
    + cbn [fold_left List.length]. rewrite Nat.add_succ_r. reflexivity.
    + intros l' Hl'. apply take_stock_keeps_rows. apply Hk. right. exact Hl'.
    + apply take_stock_keeps_absent, Hbad.
Qed.

(** X19: a direct order is not atomic.  When an item names a product that
    does not exist, the request fails with 500 "list index out of range"
    after the order row was stored and the stock of the items before it
    was taken; no order item is stored. *)
Theorem create_order_fails_halfway (order_data : OrderCreate) (current_user : user)
    (s : state) (before after : list order_line) (bad : order_line) :
  oc_items order_data = before ++ bad :: after ->
  (forall l, In l before -> stock (ol_product_id l) (products s) <> None) ->
  stock (ol_product_id bad) (products s) = None ->
  exists s',
    create_order order_data current_user s = (s', Raise index_error) /\
    orders s' = orders s
                ++ [create_order_obj order_data (u_id current_user) (uuid4 (uuid_draws s))] /\
    order_items s' = order_items s /\
    products s' = fold_left take_stock before (products s) /\
    (forall pid n, stock pid (products s) = Some n ->
                   stock pid (products s') = Some (n - ordered pid before)%Z).
Proof.
  intros Hitems Hk Hbad.
  assert (Hk' : forall l, In l before -> rows_with_id (ol_product_id l) (products s) <> []).
  { intros l Hl. apply stock_known, Hk, Hl. }
  assert (Hbad' : rows_with_id (ol_product_id bad) (products s) = []).
  { unfold stock in Hbad. destruct (rows_with_id (ol_product_id bad) (products s));
      [reflexivity | discriminate]. }
  eexists. split.
  - transitivity (create_order order_data current_user (after_orders s (products s) [] [] 0));
      [rewrite after_orders_none; reflexivity|].
    unfold create_order. unfold bind at 1. rewrite new_uuid_run.
    unfold bind at 1. rewrite insert_order_run.
    unfold bind at 1. rewrite Hitems.
    rewrite order_items_loop_fails by assumption. reflexivity.
  - cbn [orders order_items products after_orders]. rewrite Nat.add_0_r, app_nil_r.
    split; [reflexivity|]. split; [reflexivity|]. split; [reflexivity|].
    intros pid n Hn. apply stock_fold_take_stock; assumption.
Qed.

(** X20: what a direct order that goes through stores: the order, pending
    and in the buyer's name, with the total the client sent, whatever the
    items add up to, and one order item per item sent, with the client's
    product id, quantity and price; the order returned is the one stored.
    Without items only the order is stored and no stock is touched. *)
Theorem create_order_stores_what_was_sent (order_data : OrderCreate)
    (current_user : user) (s : state) :
  (forall l, In l (oc_items order_data) -> stock (ol_product_id l) (products s) <> None) ->
  exists s' o its,
    create_order order_data current_user s
    = (s', Ok {| orr_message := "Order created successfully"; orr_order := o |}) /\
    orders s' = orders s ++ [o] /\
    order_items s' = order_items s ++ its /\
    o_buyer_id o = u_id current_user /\
    o_farmer_id o = oc_farmer_id order_data /\
    o_total_amount o = oc_total_amount order_data /\
    o_status o = "pending" /\
    Forall (fun it => oi_order_id it = o_id o) its /\
    map (fun it => (oi_product_id it, oi_quantity it, oi_price it)) its
    = map (fun l => (ol_product_id l, ol_quantity l, ol_price l)) (oc_items order_data) /\
    (oc_items order_data = [] ->
     order_items s' = order_items s /\ products s' = products s).
Proof.
  intros Hk.
  assert (Hk' : forall l, In l (oc_items order_data) ->
                          rows_with_id (ol_product_id l) (products s) <> []).
  { intros l Hl. apply stock_known, Hk, Hl. }
  eexists. eexists. eexists. split; [apply create_order_run; exact Hk'|].
  cbn [orders order_items products after_orders].
  repeat (split; [reflexivity|]).
  split; [apply items_of_order_id|]. split; [apply items_of_lines|].
  intros Hnil. rewrite Hnil. cbn [items_of fold_left]. rewrite app_nil_r.
  split; reflexivity.
Qed.

Lemma group_by_farmer_raises (items : list (cart_item * option product)) :
  forall fo,
    (exists j, In j items /\ snd j = None) ->
    group_by_farmer items fo = Raise none_subscript.
Proof.
  induction items as [|[i [p|]] items IH]; intros fo (j & Hin & Hj).
  - destruct Hin.
  - cbn [group_by_farmer]. apply IH. destruct Hin as [<-|Hin]; [discriminate Hj|].
    exists j. split; assumption.
  - reflexivity.
Qed.

(** X21: a checkout of a cart with a line whose product is gone fails
    with 500 before anything is written: no order, no stock taken, the
    cart as it was. *)
Theorem checkout_with_dangling_line (checkout_data : CheckoutData) (cart_id : string)
    (current_user : user) (s : state) (c : cart) (rest : list cart) :
  carts_by_id_and_user cart_id (u_id current_user) s = c :: rest ->
  (exists i, In i (lines_of_cart cart_id s) /\ snd (with_product s i) = None) ->
  checkout_order checkout_data cart_id current_user s = (s, Raise none_subscript).
Proof.
  intros Hc (i & Hi & Hnone).
  assert (Hid : c_id c = cart_id).
  { apply filter_cons_in in Hc. destruct Hc as [_ Hc].
    apply andb_prop in Hc. destruct Hc as [Hc _]. apply String.eqb_eq, Hc. }
  unfold checkout_order. unfold bind at 1. unfold gets at 1. rewrite Hc.
  unfold bind at 1. unfold gets at 1. rewrite Hid.
  destruct (map (with_product s) (lines_of_cart cart_id s)) as [|x xs] eqn:HJ.
  - apply map_eq_nil in HJ. rewrite HJ in Hi. destruct Hi.
  - rewrite group_by_farmer_raises; [reflexivity|].
    exists (with_product s i). split; [|exact Hnone].
    rewrite <- HJ. apply in_map, Hi.
Qed.

Lemma checkout_of_empty_cart (checkout_data : CheckoutData) (cart_id : string)
    (current_user : user) (s : state) (c : cart) (rest : list cart) :
  carts_by_id_and_user cart_id (u_id current_user) s = c :: rest ->
  lines_of_cart cart_id s = [] ->
  checkout_order checkout_data cart_id current_user s = (s, Raise cart_is_empty).
Proof.
  intros Hc Hempty.
  assert (Hid : c_id c = cart_id).
  { apply filter_cons_in in Hc. destruct Hc as [_ Hc].
    apply andb_prop in Hc. destruct Hc as [Hc _]. apply String.eqb_eq, Hc. }
  unfold checkout_order, bind, gets. rewrite Hc, Hid, Hempty. reflexivity.
Qed.

Lemma take_stock_keeps_listing (ps : list product) (l : order_line) :
  map listing_of (take_stock ps l) = map listing_of ps.
Proof.
  unfold take_stock. destruct (rows_with_id (ol_product_id l) ps); [reflexivity|].
  unfold set_quantity. rewrite map_map. apply map_ext. intros q.
  destruct (String.eqb (p_id q) (ol_product_id l)); reflexivity.
Qed.

Lemma fold_take_stock_keeps_listing (ls : list order_line) (ps : list product) :
  map listing_of (fold_left take_stock ls ps) = map listing_of ps.
Proof.
  revert ps. induction ls as [|l ls IH]; intros ps; simpl; [reflexivity|].
  rewrite IH. apply take_stock_keeps_listing.
Qed.

(** X22: a checkout that went through cannot be repeated: the cart is
    still the user's, but it is empty, and a second checkout of it is
    refused with 400 "Cart is empty" and writes nothing. *)
Theorem checkout_twice_is_refused (checkout_data : CheckoutData) (cart_id : string)
    (current_user : user) (s : state) (c : cart) (rest : list cart) :
  carts_by_id_and_user cart_id (u_id current_user) s = c :: rest ->
  lines_of_cart cart_id s <> [] ->
  (forall i, In i (lines_of_cart cart_id s) -> snd (with_product s i) <> None) ->
  exists s1 r,
    checkout_order checkout_data cart_id current_user s = (s1, Ok r) /\
    checkout_order checkout_data cart_id current_user s1 = (s1, Raise cart_is_empty).
Proof.
  intros Hc Hlines Hprod.
  destruct (checkout_order_run checkout_data cart_id current_user s c rest Hc Hlines Hprod)
    as (fo & Hfo & Hrun).
  eexists. eexists. split; [exact Hrun|].
  destruct (after_checkout_cart checkout_data cart_id (u_id current_user) fo s)
    as (Hempty & _ & _).
  assert (Hc1 : exists c1 rest1,
             carts_by_id_and_user cart_id (u_id current_user)
               (after_checkout checkout_data cart_id (u_id current_user) fo s)
             = c1 :: rest1).
  { unfold carts_by_id_and_user, after_checkout, set_total.
    cbn [carts with_carts delete_lines with_cart_items after_orders].
    rewrite filter_map_same
      by (intros x; destruct (String.eqb (c_id x) cart_id) eqn:Hx; cbn [c_id c_user_id];
          rewrite ?Hx; reflexivity).
    fold (carts_by_id_and_user cart_id (u_id current_user) s). rewrite Hc.
    cbn [map]. eexists. eexists. reflexivity. }
  destruct Hc1 as (c1 & rest1 & Hc1).
  exact (checkout_of_empty_cart _ _ _ _ c1 rest1 Hc1 Hempty).
Qed.

(** X23: a checkout that goes through leaves the rest of the store alone:
    the users, the lines and rows of every other cart, and of each
    product everything but its quantity (id, name, category, price,
    farmer, status); the orders the store had are still there, before the
    new ones. *)
Theorem checkout_leaves_the_rest (checkout_data : CheckoutData) (cart_id : string)
    (current_user : user) (s : state) (c : cart) (rest : list cart) :
  carts_by_id_and_user cart_id (u_id current_user) s = c :: rest ->
  lines_of_cart cart_id s <> [] ->
  (forall i, In i (lines_of_cart cart_id s) -> snd (with_product s i) <> None) ->
  exists s' r,
    checkout_order checkout_data cart_id current_user s = (s', Ok r) /\
    users s' = users s /\
    cart_items s' = filter (fun i => negb (String.eqb (ci_cart_id i) cart_id)) (cart_items s) /\
    (forall other, other <> cart_id -> lines_of_cart other s' = lines_of_cart other s) /\
    filter (fun c' => negb (String.eqb (c_id c') cart_id)) (carts s')
    = filter (fun c' => negb (String.eqb (c_id c') cart_id)) (carts s) /\
    map listing_of (products s') = map listing_of (products s) /\
    firstn (List.length (orders s)) (orders s') = orders s /\
    firstn (List.length (order_items s)) (order_items s') = order_items s.
Proof.
  intros Hc Hlines Hprod.
  destruct (checkout_order_run checkout_data cart_id current_user s c rest Hc Hlines Hprod)
    as (fo & Hfo & Hrun).
  eexists. eexists. split; [exact Hrun|].
  unfold after_checkout, set_total, delete_lines.
  cbn [users carts cart_items products orders order_items
       with_carts with_cart_items after_orders].
  split; [reflexivity|]. split; [reflexivity|]. split; [|split; [|split; [|split]]].
  - intros other Hother. unfold lines_of_cart.
    cbn [cart_items with_carts with_cart_items after_orders].
    induction (cart_items s) as [|i more IH]; [reflexivity|]. cbn [filter].
    destruct (String.eqb (ci_cart_id i) cart_id) eqn:Hi; cbn [negb filter].
    + apply String.eqb_eq in Hi.
      replace (String.eqb (ci_cart_id i) other) with false
        by (symmetry; apply String.eqb_neq; congruence).
      exact IH.
    + rewrite IH. reflexivity.
  - rewrite filter_map_same
      by (intros x; destruct (String.eqb (c_id x) cart_id) eqn:Hx; cbn [c_id];
          rewrite ?Hx; reflexivity).
    apply map_unchanged. intros x Hx. apply filter_In in Hx. destruct Hx as [_ Hx].
    destruct (String.eqb (c_id x) cart_id); [discriminate | reflexivity].
  - apply fold_take_stock_keeps_listing.
  - rewrite firstn_app, Nat.sub_diag, firstn_all. cbn [firstn]. apply app_nil_r.
  - rewrite firstn_app, Nat.sub_diag, firstn_all. cbn [firstn]. apply app_nil_r.
Qed.

(** X24: the order list shows a farmer only orders placed with that
    farmer and a buyer only that buyer's orders; with a status asked for,
    only orders of that status; each order comes with the order items the
    store holds under its id.  The store is only read, and the "total" of
    the answer is the number of orders on the page, at most the limit. *)
Theorem get_orders_scope (status : option string) (page limit : option Z)
    (current_user : user) (s s' : state) (r : orders_response) :
  get_orders status page limit current_user s = (s', Ok r) ->
  s' = s /\
  or_total r = Z.of_nat (List.length (or_orders r)) /\
  (or_total r <= limit_or_default limit)%Z /\
  (forall v, In v (or_orders r) ->
     In (ov_order v) (orders s) /\
     (u_user_type current_user = "farmer" -> o_farmer_id (ov_order v) = u_id current_user) /\
     (u_user_type current_user = "buyer" -> o_buyer_id (ov_order v) = u_id current_user) /\
     (forall st, given status = Some st -> o_status (ov_order v) = st) /\
     map oiv_item (ov_order_items v)
     = filter (fun i => String.eqb (oi_order_id i) (o_id (ov_order v))) (order_items s)).
Proof.
  unfold get_orders, check_query, bind, gets, ret.
  destruct (query_in_bounds (page_or_default page) (limit_or_default limit)) eqn:Hq;
    [|discriminate].
  apply query_in_bounds_iff in Hq.
  intros H. inversion H; subst. clear H. cbn [or_orders or_total].
  split; [reflexivity|]. split; [reflexivity|]. split.
  - rewrite length_map, length_range. lia.
  - intros v Hv. apply in_map_iff in Hv. destruct Hv as (o & <- & Ho).
    unfold range in Ho. apply in_firstn, in_skipn in Ho. apply in_rev in Ho.
    apply filter_In in Ho. destruct Ho as [Hin Ho].
    apply andb_prop in Ho. destruct Ho as [Hst Hfor].
    cbn [ov_order ov_order_items with_items_and_buyer]. split; [exact Hin|].
    unfold orders_for in Hfor. split; [|split; [|split]].
    + intros Hf. rewrite Hf in Hfor. cbn in Hfor. apply String.eqb_eq, Hfor.
    + intros Hb. rewrite Hb in Hfor. cbn in Hfor. apply String.eqb_eq, Hfor.
    + intros st Hgiven. unfold eq_if_given in Hst. rewrite Hgiven in Hst.
      apply String.eqb_eq, Hst.
    + rewrite map_map. cbn [oiv_item]. apply map_id.
Qed.

(** X25: the order a buyer has just placed heads that buyer's order list:
    after a direct order that went through, the first order of the first
    page is the order returned. *)
Theorem new_order_heads_the_list (order_data : OrderCreate) (current_user : user)
    (s : state) :
  u_user_type current_user = "buyer" ->
  (forall l, In l (oc_items order_data) -> stock (ol_product_id l) (products s) <> None) ->
  exists s1 r1 r2 v others,
    create_order order_data current_user s = (s1, Ok r1) /\
    get_orders None None None current_user s1 = (s1, Ok r2) /\
    or_orders r2 = v :: others /\
    ov_order v = orr_order r1.
Proof.
  intros Hb Hk.
  assert (Hk' : forall l, In l (oc_items order_data) ->
                          rows_with_id (ol_product_id l) (products s) <> []).
  { intros l Hl. apply stock_known, Hk, Hl. }
  eexists. eexists. eexists. eexists. eexists.
  split; [apply create_order_run; exact Hk'|].
  unfold get_orders, check_query, bind, gets, ret.
  cbn [page_or_default limit_or_default query_in_bounds Z.leb Z.compare Pos.compare
       Pos.compare_cont andb orders after_orders].
  rewrite filter_app. cbn [filter].
  unfold orders_for at 2. rewrite Hb. cbn [String.eqb Ascii.eqb Bool.eqb].
  cbn [o_buyer_id create_order_obj]. rewrite String.eqb_refl.
  unfold eq_if_given at 2. cbn [given truthy andb].
  rewrite rev_app_distr. cbn [rev app range Z.sub Z.mul Z.add Z.to_nat skipn].
  split; [|split]; reflexivity.
Qed.

(** X26: an order can be updated by its buyer, its farmer or an admin and
    by nobody else (403, nothing written); an id no order has gives 404.
    An update that goes through sets the fields sent, the status to any
    string sent, and leaves every order its id, buyer, farmer and total,
    and the other orders as they are. *)
Theorem update_order_scope (order_id : string) (order_data : OrderUpdate)
    (current_user : user) (s : state) :
  (orders_by_id order_id s = [] ->
   update_order order_id order_data current_user s = (s, Raise order_missing))
  /\
  (forall o rest,
     orders_by_id order_id s = o :: rest ->
     (u_id current_user <> o_buyer_id o -> u_id current_user <> o_farmer_id o ->
      u_user_type current_user <> "admin" ->
      update_order order_id order_data current_user s = (s, Raise not_authorized))
     /\
     (u_id current_user = o_buyer_id o \/ u_id current_user = o_farmer_id o \/
      u_user_type current_user = "admin" ->
      exists s',
        update_order order_id order_data current_user s
        = (s', Ok {| orr_message := "Order updated successfully";
                     orr_order := apply_order_update order_data o |}) /\
        (forall st, ou_status order_data = Some st ->
                    o_status (apply_order_update order_data o) = st) /\
        map parties_of (orders s') = map parties_of (orders s) /\
        filter (fun o' => negb (String.eqb (o_id o') order_id)) (orders s')
        = filter (fun o' => negb (String.eqb (o_id o') order_id)) (orders s))).
Proof.
  split.
  - intros Hnone. unfold update_order, bind, gets. rewrite Hnone. reflexivity.
  - intros o rest Ho. split.
    + intros Hb Hf Ha. unfold update_order, bind, gets. rewrite Ho.
      unfold not_party.
      replace (String.eqb (u_id current_user) (o_buyer_id o)) with false
        by (symmetry; apply String.eqb_neq; exact Hb).
      replace (String.eqb (u_id current_user) (o_farmer_id o)) with false
        by (symmetry; apply String.eqb_neq; exact Hf).
      replace (String.eqb (u_user_type current_user) "admin") with false
        by (symmetry; apply String.eqb_neq; exact Ha).
      reflexivity.
    + intros Hparty.
      assert (Hgate : not_party current_user o = false).
      { unfold not_party. destruct Hparty as [H|[H|H]]; rewrite H, String.eqb_refl;
          cbn [orb negb andb]; try reflexivity;
          [rewrite orb_true_r; reflexivity | apply andb_false_r]. }
      set (f := fun o' => if String.eqb (o_id o') order_id
                          then apply_order_update order_data o' else o').
      assert (Hid : forall x, o_id (f x) = o_id x)
        by (intros x; unfold f; destruct (String.eqb (o_id x) order_id); reflexivity).
      assert (Hby : orders_by_id order_id (with_orders (map f) s)
                    = map f (orders_by_id order_id s)).
      { unfold orders_by_id. cbn [orders with_orders]. apply filter_map_same.
        intros x. rewrite Hid. reflexivity. }
      unfold update_order, bind, gets. rewrite Ho, Hgate.
      unfold modify. fold f. rewrite Hby, Ho. cbn [map].
      assert (Hfo : f o = apply_order_update order_data o).
      { unfold f. apply filter_cons_in in Ho. destruct Ho as [_ Ho]. rewrite Ho.
        reflexivity. }
      rewrite Hfo. unfold ret. eexists. split; [reflexivity|].
      split; [intros st Hst; cbn [o_status apply_order_update]; rewrite Hst; reflexivity|].
      cbn [orders with_orders]. split.
      * rewrite map_map. apply map_ext. intros x. unfold f.
        destruct (String.eqb (o_id x) order_id); reflexivity.
      * rewrite filter_map_same by (intros x; rewrite Hid; reflexivity).
        apply map_unchanged. intros x Hx. apply filter_In in Hx. destruct Hx as [_ Hx].
        unfold f. destruct (String.eqb (o_id x) order_id); [discriminate | reflexivity].
Qed.

Lemma farmers_and_buyers_bounded (us : list user) :
  (List.length (filter (fun u => String.eqb (u_user_type u) "farmer") us)
   + List.length (filter (fun u => String.eqb (u_user_type u) "buyer") us)
   <= List.length us)%nat.
Proof.
  induction us as [|u us IH]; simpl; [lia|].
  destruct (String.eqb (u_user_type u) "farmer") eqn:Hf.
  - apply String.eqb_eq in Hf. rewrite Hf. simpl. lia.
  - destruct (String.eqb (u_user_type u) "buyer"); simpl; lia.
Qed.

(** X27: the admin figures are for admins only (403 otherwise); they are
    read off the store without writing, the farmers and buyers counted
    are distinct users, so together no more than all users, and without a
    completed order the revenue is 0. *)
Theorem admin_stats_scope (current_user : user) (s : state) :
  (u_user_type current_user <> "admin" ->
   get_admin_dashboard_stats current_user s = (s, Raise admin_required))
  /\
  (u_user_type current_user = "admin" ->
   exists r,
     get_admin_dashboard_stats current_user s = (s, Ok r) /\
     as_total_users r = Z.of_nat (List.length (users s)) /\
     (0 <= as_active_farmers r)%Z /\ (0 <= as_active_buyers r)%Z /\
     (as_active_farmers r + as_active_buyers r <= as_total_users r)%Z /\
     ((forall o, In o (orders s) -> o_status o <> "completed") ->
      as_total_revenue r = num_zero)).
Proof.
  split.
  - intros Hne. unfold get_admin_dashboard_stats.
    replace (String.eqb (u_user_type current_user) "admin") with false
      by (symmetry; apply String.eqb_neq; exact Hne).
    reflexivity.
  - intros Ha. unfold get_admin_dashboard_stats. rewrite Ha. cbn [String.eqb Ascii.eqb
      Bool.eqb negb].
    unfold bind, gets, ret. eexists. split; [reflexivity|].
    cbn [as_total_users as_active_farmers as_active_buyers as_total_revenue]. unfold count.
    split; [reflexivity|]. split; [lia|]. split; [lia|]. split.
    + pose proof (farmers_and_buyers_bounded (users s)). lia.
    + intros Hnone.
      replace (filter (fun o => String.eqb (o_status o) "completed") (orders s))
        with (@nil order); [reflexivity|].
      symmetry. apply filter_nil_iff. intros o Ho. apply String.eqb_neq. apply Hnone, Ho.
Qed.

End Proofs.

(** * The properties on the sample marketplace *)

(** Chebet's cart, with products of two farmers, checks out. *)
Lemma checkout_places_one_order_per_farmer_witness :
  lines_of_cart (E := sample_env) "uuid-0" market_repriced <> [] /\
  exists s' (placed : list (@order sample_env * list (@order_item sample_env))),
    checkout_order (E := sample_env) delivery "uuid-0" chebet market_repriced
    = (s', Ok {| cr_message := "Checkout successful"; cr_orders := map fst placed |}) /\
    NoDup (map (fun x => o_farmer_id (fst x)) placed) /\
    lines_of_cart "uuid-0" s' = [].
Proof.
  assert (H2 : lines_of_cart (E := sample_env) "uuid-0" market_repriced <> [])
    by (vm_compute; discriminate).
  split; [exact H2|].
  destruct (checkout_places_one_order_per_farmer (E := sample_env)
              delivery "uuid-0" chebet market_repriced
              {| c_id := "uuid-0"; c_user_id := "buyer-1"; c_total := shillings 55 |} []
              eq_refl H2)
    as (s' & placed & Hrun & _ & _ & Hnd & _ & _ & Hempty & _).
  - intros i Hi. vm_compute in Hi.
    destruct Hi as [<-|[<-|[<-|[]]]]; vm_compute; discriminate.
  - exists s', placed. repeat split; assumption.
Defined.

(** The items of Chebet's orders carry the prices of the day. *)
Lemma checkout_totals_use_current_prices_witness :
  lines_of_cart (E := sample_env) "uuid-0" market_repriced <> [] /\
  exists s' (placed : list (@order sample_env * list (@order_item sample_env))),
    checkout_order (E := sample_env) delivery "uuid-0" chebet market_repriced
    = (s', Ok {| cr_message := "Checkout successful"; cr_orders := map fst placed |}) /\
    forall o its, In (o, its) placed ->
      map oi_price its
      = map (fun j => p_price (snd j))
            (filter (of_farmer (o_farmer_id o)) (loaded_lines market_repriced "uuid-0")).
Proof.
  assert (H2 : lines_of_cart (E := sample_env) "uuid-0" market_repriced <> [])
    by (vm_compute; discriminate).
  split; [exact H2|].
  destruct (checkout_totals_use_current_prices (E := sample_env)
              delivery "uuid-0" chebet market_repriced
              {| c_id := "uuid-0"; c_user_id := "buyer-1"; c_total := shillings 55 |} []
              eq_refl H2)
    as (s' & placed & Hrun & _ & _ & Hshape).
  - intros i Hi. vm_compute in Hi.
    destruct Hi as [<-|[<-|[<-|[]]]]; vm_compute; discriminate.
  - exists s', placed. split; [exact Hrun|].
    intros o its Hin. apply (Hshape o its Hin).
Defined.

(** C2, as stated, fails: the maize was put in the cart at 10 and costs
    12 at checkout; the order of its farmer totals 12*1 + 7*5 = 47 where
    the prices kept on the cart lines give 10*1 + 7*5 = 45, and the order
    item of the maize carries 12, not the 10 of its cart line. *)
Lemma checkout_total_is_not_snapshot_sum :
  exists s' o others,
    checkout_order (E := sample_env) delivery "uuid-0" chebet market_repriced
    = (s', Ok {| cr_message := "Checkout successful"; cr_orders := o :: others |}) /\
    o_total_amount o = shillings 47 /\
    snapshot_amount (filter (of_farmer (o_farmer_id o))
                            (loaded_lines market_repriced "uuid-0")) = shillings 45 /\
    o_total_amount o
    <> snapshot_amount (filter (of_farmer (o_farmer_id o))
                               (loaded_lines market_repriced "uuid-0")) /\
    exists it line,
      In it (order_items s') /\ oi_order_id it = o_id o /\
      In line (lines_of_cart "uuid-0" market_repriced) /\
      oi_product_id it = ci_product_id line /\
      oi_price it = shillings 12 /\ ci_price line = shillings 10.
Proof.
  eexists. eexists. eexists. split; [vm_compute; reflexivity|].
  split; [reflexivity|]. split; [reflexivity|]. split; [vm_compute; discriminate|].
  eexists. eexists. split.
  - vm_compute. right. left. reflexivity.
  - split; [reflexivity|]. split.
    + vm_compute. left. reflexivity.
    + repeat split.
Qed.

(** Five of the four bunches of kale: the write leaves -1. *)
Lemma orders_take_stock_unchecked_witness :
  stock (E := sample_env) "p-3" (products market) = Some 4%Z /\
  exists s',
    decrement_stock (E := sample_env) "p-3" 5 market = (s', Ok tt) /\
    stock "p-3" (products s') = Some (-1)%Z.
Proof.
  split; [reflexivity|].
  destruct (proj1 (orders_take_stock_unchecked (E := sample_env))
              market "p-3" 5%Z 4%Z eq_refl) as (s' & Hrun & Hstock & _).
  exists s'. split; [exact Hrun | exact Hstock].
Defined.

(** A direct order for more kale than the stall has goes through and
    leaves the stock at -1. *)
Lemma create_order_oversells :
  exists s' r,
    create_order (E := sample_env)
      {| oc_farmer_id := "farmer-1"; oc_total_amount := shillings 35;
         oc_shipping_address := None; oc_delivery_address := Some "Eldoret";
         oc_delivery_notes := None; oc_phone_number := None; oc_payment_info := None;
         oc_items := [{| ol_product_id := "p-3"; ol_quantity := 5;
                         ol_price := shillings 7 |}] |}
      chebet market = (s', Ok r) /\
    stock "p-3" (products market) = Some 4%Z /\
    stock "p-3" (products s') = Some (-1)%Z.
Proof.
  eexists. eexists. split; [vm_compute; reflexivity|]. split; reflexivity.
Qed.

(** An unknown email and a wrong password are both turned away. *)
Lemma login_checks_credentials_witness :
  login_user (E := sample_env)
    {| ul_email := "nobody@mail.example"; ul_password := "sukuma" |} market
  = (market, Raise invalid_credentials) /\
  login_user (E := sample_env)
    {| ul_email := "chebet@mail.example"; ul_password := "guess" |} market
  = (market, Raise invalid_credentials).
Proof.
  split.
  - apply (proj1 (login_checks_credentials (E := sample_env) _ market)).
    intros u Hu. vm_compute in Hu.
    destruct Hu as [<-|[<-|[<-|[<-|[]]]]]; vm_compute; discriminate.
  - apply (proj1 (proj2 (login_checks_credentials (E := sample_env) _ market))
             chebet [] (PyStr (get_password_hash (E := sample_env) "sukuma")));
      reflexivity.
Defined.


(** Daudi cannot check out Chebet's cart, and Chebet cannot check out
    the cart she emptied; the market is as it was. *)
Lemma checkout_rejected_without_effect_witness :
  checkout_order (E := sample_env) delivery "uuid-0" daudi market_repriced
  = (market_repriced, Raise cart_not_found) /\
  checkout_order (E := sample_env) delivery "uuid-0" chebet market_cleared
  = (market_cleared, Raise cart_is_empty).
Proof.
  split.
  - apply (proj1 (checkout_rejected_without_effect (E := sample_env)
                    delivery "uuid-0" daudi market_repriced)).
    intros c Hc _. vm_compute in Hc. destruct Hc as [<-|[]]. vm_compute. discriminate.
  - apply (proj2 (checkout_rejected_without_effect (E := sample_env)
                    delivery "uuid-0" chebet market_cleared)).
    + eexists. split; [vm_compute; left; reflexivity|]. split; reflexivity.
    + intros i Hi. vm_compute in Hi. destruct Hi.
Defined.

(** Baraka tries to reprice Amina's maize, before and after she
    withdrew it. *)
Lemma foreign_product_looks_absent_witness :
  exists e,
    status_code e = 404%Z /\
    update_product (E := sample_env) "p-1" price_change baraka market = (market, Raise e) /\
    update_product (E := sample_env) "p-1" price_change baraka market_without_maize
    = (market_without_maize, Raise e).
Proof.
  destruct (foreign_product_looks_absent (E := sample_env)
              "p-1" price_change baraka market market_without_maize)
    as (e & -> & _ & Hu1 & Hu2 & _).
  - eexists. split; [vm_compute; left; reflexivity | reflexivity].
  - intros p Hp Hid. vm_compute in Hp.
    destruct Hp as [<-|[<-|[<-|[]]]]; vm_compute in Hid |- *; discriminate.
  - intros p Hp. vm_compute in Hp.
    destruct Hp as [<-|[<-|[]]]; vm_compute; discriminate.
  - exists product_not_found. split; [reflexivity|]. split; assumption.
Defined.

(** Amina's stall of 25: page 2 at 20 to a page, page 3 at 10 to a page,
    and a request for 101 to a page. *)
Lemma get_products_pagination_witness :
  (exists r,
     get_products (E := sample_env) None None None (Some 2%Z) (Some 20%Z) stall
     = (stall, Ok r) /\
     List.length (pr_products r) = 5%nat /\
     pg_pages (pr_pagination r) = 2%Z) /\
  (exists r,
     get_products (E := sample_env) None None None (Some 3%Z) (Some 10%Z) stall
     = (stall, Ok r) /\
     pg_limit (pr_pagination r) = 10%Z /\
     List.length (pr_products r) = 5%nat /\
     pg_pages (pr_pagination r) = 3%Z) /\
  (exists e,
     get_products (E := sample_env) None None None (Some 1%Z) (Some 101%Z) stall
     = (stall, Raise e) /\
     status_code e = 422%Z).
Proof.
  split; [|split].
  - destruct (proj1 (get_products_pagination (E := sample_env) None None None
                       2%Z 20%Z stall))
      as (r & Hrun & _ & _ & _ & _ & _ & Hcase); [lia | lia |].
    exists r. split; [exact Hrun|].
    apply Hcase; [reflexivity | reflexivity | vm_compute; reflexivity].
  - destruct (proj1 (get_products_pagination (E := sample_env) None None None
                       3%Z 10%Z stall))
      as (r & Hrun & _ & _ & Hlimit & _ & _ & _); [lia | lia |].
    exists r. split; [exact Hrun|]. split; [exact Hlimit|].
    vm_compute in Hrun. injection Hrun as <-. split; reflexivity.
  - apply (proj1 (proj2 (get_products_pagination (E := sample_env) None None None
                           1%Z 101%Z stall))).
    lia.
Defined.

(** Chebet asks for 4 of the maize she had 1 of, after the price rose. *)
Lemma add_again_replaces_line_witness :
  exists s' new,
    add_to_cart (E := sample_env) {| cia_product_id := "p-1"; cia_quantity := 4 |}
      chebet market_repriced
    = (s', Ok "Item added to cart successfully") /\
    filter (line_is "uuid-0" "p-1") (cart_items s') = [new] /\
    ci_quantity new = 4%Z /\
    ci_price new = shillings 12.
Proof.
  destruct (add_again_replaces_line (E := sample_env)
              {| cia_product_id := "p-1"; cia_quantity := 4 |} chebet market_repriced
              {| c_id := "uuid-0"; c_user_id := "buyer-1"; c_total := shillings 55 |} []
              (sample_product "p-1" "maize" 12 3 "farmer-1") []
              {| ci_id := "uuid-1"; ci_cart_id := "uuid-0"; ci_product_id := "p-1";
                 ci_quantity := 1; ci_price := shillings 10 |}
              eq_refl eq_refl eq_refl)
    as (s' & new & Hrun & Hline & Hq & Hp & _).
  exists s', new. repeat split; assumption.
Defined.

(** C4 fails on the order listing: Amina lists her orders and the row of
    the buyer embedded in the order comes with Chebet's password digest. *)
Theorem get_orders_returns_buyer_digest :
  exists r v buyer,
    get_orders (E := sample_env) None None None amina market = (market, Ok r) /\
    In v (or_orders r) /\
    ov_users v = Some buyer /\
    u_id buyer = "buyer-1" /\
    u_password_hash buyer = Some (PyStr (get_password_hash (E := sample_env) "sukuma")).
Proof.
  eexists. eexists. eexists. split; [vm_compute; reflexivity|].
  split; [left; reflexivity|]. repeat split.
Qed.

(** * More of the sample marketplace, checked *)

(** Going through the rows of a sample table. *)
Ltac for_each_row H tac :=
  vm_compute in H; repeat (destruct H as [<- | H]; [tac | ]); destruct H.

Ltac distinct_names :=
  vm_compute; repeat (constructor; [vm_compute; intuition discriminate | ]); constructor.

(** Chebet's email and Chebet's username are both taken. *)
Lemma register_refuses_taken_names_witness :
  register_user (E := sample_env)
    {| uc_username := "someone"; uc_email := "chebet@mail.example";
       uc_password := "x"; uc_user_type := "buyer";
       uc_first_name := None; uc_last_name := None; uc_farm_name := None;
       uc_location := None; uc_phone := None; uc_address := None;
       uc_profile_image_url := None |} market
  = (market, Raise email_taken) /\
  register_user (E := sample_env)
    {| uc_username := "chebet"; uc_email := "other@mail.example";
       uc_password := "x"; uc_user_type := "buyer";
       uc_first_name := None; uc_last_name := None; uc_farm_name := None;
       uc_location := None; uc_phone := None; uc_address := None;
       uc_profile_image_url := None |} market
  = (market, Raise username_taken).
Proof.
  split.
  - apply (proj1 (register_refuses_taken_names (E := sample_env) _ market)).
    exists chebet. split; [right; right; left; reflexivity | reflexivity].
  - apply (proj2 (register_refuses_taken_names (E := sample_env) _ market)).
    + intros u Hu. for_each_row Hu ltac:(vm_compute; discriminate).
    + exists chebet. split; [right; right; left; reflexivity | reflexivity].
Defined.

(** Faraja registers and logs in. *)
Lemma register_then_login_witness :
  exists s1 r1 r2,
    register_user (E := sample_env) faraja market = (s1, Ok r1) /\
    login_user (E := sample_env)
      {| ul_email := "faraja@mail.example"; ul_password := "chapati" |} s1
    = (s1, Ok r2) /\
    ar_user r2 = ar_user r1.
Proof.
  destruct (register_then_login (E := sample_env) faraja market)
    as (s1 & r1 & Hreg & _ & (r2 & Hlog & Hsame) & _).
  - intros u Hu. for_each_row Hu ltac:(vm_compute; discriminate).
  - intros u Hu. for_each_row Hu ltac:(vm_compute; discriminate).
  - exists s1, r1, r2. repeat split; assumption.
Defined.

(** The market's emails are distinct, and still are with Faraja's. *)
Lemma register_keeps_names_unique_witness :
  NoDup (map u_email (users market)) /\
  NoDup (map u_email (users (fst (register_user (E := sample_env) faraja market)))).
Proof.
  assert (H : NoDup (map u_email (users market))) by distinct_names.
  split; [exact H|].
  apply (proj1 (register_keeps_names_unique (E := sample_env) faraja market
                  (fst (register_user (E := sample_env) faraja market))
                  (snd (register_user (E := sample_env) faraja market))
                  ltac:(vm_compute; reflexivity))).
  exact H.
Defined.

(** A wrong guess at Chebet's password changes nothing. *)
Lemma login_changes_only_missing_digest_witness :
  snd (login_user (E := sample_env)
         {| ul_email := "chebet@mail.example"; ul_password := "guess" |} market)
  = Raise invalid_credentials /\
  fst (login_user (E := sample_env)
         {| ul_email := "chebet@mail.example"; ul_password := "guess" |} market)
  = market.
Proof.
  assert (Hfail : snd (login_user (E := sample_env)
                         {| ul_email := "chebet@mail.example"; ul_password := "guess" |}
                         market)
                  = Raise invalid_credentials) by (vm_compute; reflexivity).
  split; [exact Hfail|].
  exact (proj2 (proj1 (login_changes_only_missing_digest (E := sample_env)
                         {| ul_email := "chebet@mail.example"; ul_password := "guess" |}
                         market _ _ ltac:(vm_compute; reflexivity))
                      invalid_credentials Hfail)).
Defined.

(** Chebet gives her phone number; Baraka may not give it for her. *)
Lemma update_user_profile_scope_witness :
  update_user_profile (E := sample_env) "buyer-1" new_phone baraka market
  = (market, Raise not_authorized) /\
  exists s' r,
    update_user_profile (E := sample_env) "buyer-1" new_phone chebet market = (s', Ok r) /\
    map identity_of (users s') = map identity_of (users market).
Proof.
  split.
  - apply (proj1 (update_user_profile_scope (E := sample_env) "buyer-1" new_phone
                    baraka market)); vm_compute; discriminate.
  - destruct (proj1 (proj2 (update_user_profile_scope (E := sample_env) "buyer-1"
                              new_phone chebet market)
                           (or_introl eq_refl))
                    chebet [] eq_refl)
      as (s' & r & Hrun & _ & _ & Hsame & _).
    exists s', r. split; assumption.
Defined.

(** The admin's user list carries no digest. *)
Lemma account_endpoints_strip_digest_witness :
  exists r,
    get_all_users (E := sample_env) None None zawadi market = (market, Ok r) /\
    forall u, In u (usr_users r) -> u_password_hash u = None.
Proof.
  eexists. split; [vm_compute; reflexivity|].
  apply (proj2 (proj2 (proj2 (proj2 (proj2 (account_endpoints_strip_digest
                                              (E := sample_env))))))
           None None zawadi market market).
  vm_compute. reflexivity.
Defined.

(** Amina lists millet and finds it. *)
Lemma create_product_owned_by_creator_witness :
  create_product (E := sample_env) millet chebet market = (market, Raise only_farmers) /\
  exists s' r v,
    create_product (E := sample_env) millet amina market = (s', Ok r) /\
    get_product (E := sample_env) (p_id (prr_product r)) s' = (s', Ok v) /\
    pv_product v = prr_product r.
Proof.
  split.
  - apply (proj1 (create_product_owned_by_creator (E := sample_env) millet chebet market)).
    vm_compute. discriminate.
  - destruct (proj2 (create_product_owned_by_creator (E := sample_env) millet amina market)
                    eq_refl)
      as (s' & Hrun & _ & _ & Hfresh).
    destruct Hfresh as (_ & v & Hget & Hv).
    + intros q Hq. for_each_row Hq ltac:(vm_compute; discriminate).
    + exists s'. eexists. exists v. split; [exact Hrun|].
      split; [exact Hget | exact Hv].
Defined.


(** Amina withdraws her maize; it is gone. *)
Lemma delete_product_by_owner_witness :
  exists s',
    delete_product (E := sample_env) "p-1" amina market
    = (s', Ok "Product deleted successfully") /\
    get_product (E := sample_env) "p-1" s' = (s', Raise product_missing).
Proof.
  destruct (delete_product_by_owner (E := sample_env) "p-1" price_change amina market)
    as (s' & Hrun & _ & _ & Hget & _).
  - vm_compute. discriminate.
  - exists s'. split; assumption.
Defined.

(** Pages 1 and 2 of Amina's stall, 20 to a page. *)
Lemma get_products_pages_tile_witness :
  List.concat (map (fun p => listed (E := sample_env) None None None (Z.of_nat p) 20 stall)
                   (seq 1 2))
  = firstn (2 * Z.to_nat 20) (matching_products (E := sample_env) None None None stall).
Proof.
  exact (proj1 (get_products_pages_tile (E := sample_env) None None None 20%Z stall
                  ltac:(lia)) 2%nat).
Defined.


(** Chebet asks for more beans; her cart still has one line per product. *)
Lemma cart_lines_stay_unique_witness :
  lines_unique market_repriced /\
  lines_unique
    (fst (add_to_cart (E := sample_env)
            {| cia_product_id := "p-2"; cia_quantity := 3 |} chebet market_repriced)).
Proof.
  assert (H : lines_unique market_repriced) by (unfold lines_unique; distinct_names).
  split; [exact H|].
  apply (proj1 (cart_lines_stay_unique (E := sample_env) chebet market_repriced _ H)
           {| cia_product_id := "p-2"; cia_quantity := 3 |}
           (snd (add_to_cart (E := sample_env)
                   {| cia_product_id := "p-2"; cia_quantity := 3 |} chebet market_repriced))).
  vm_compute. reflexivity.
Defined.

(** Daudi asks for a product that is not there and is left with an empty
    cart. *)
Lemma add_to_cart_missing_product_witness :
  exists s',
    add_to_cart (E := sample_env) {| cia_product_id := "p-9"; cia_quantity := 1 |}
      daudi market
    = (s', Raise product_missing) /\
    carts s' = [{| c_id := "uuid-0"; c_user_id := "buyer-2"; c_total := shillings 0 |}].
Proof.
  destruct (proj2 (add_to_cart_missing_product (E := sample_env)
                     {| cia_product_id := "p-9"; cia_quantity := 1 |} daudi market eq_refl)
                  eq_refl)
    as (s' & Hrun & Hcarts & _).
  exists s'. split; [exact Hrun | exact Hcarts].
Defined.



(** Chebet drops the maize; Daudi has no cart to drop anything from. *)
Lemma remove_from_cart_scope_witness :
  (exists s',
     remove_from_cart (E := sample_env) "p-1" chebet market_repriced
     = (s', Ok "Item removed from cart successfully") /\
     filter (line_is "uuid-0" "p-1") (cart_items s') = []) /\
  remove_from_cart (E := sample_env) "p-1" daudi market_repriced
  = (market_repriced, Raise cart_not_found).
Proof.
  split.
  - destruct (proj1 (remove_from_cart_scope (E := sample_env) "p-1" chebet market_repriced)
                    {| c_id := "uuid-0"; c_user_id := "buyer-1"; c_total := shillings 55 |}
                    [] eq_refl)
      as (s' & Hrun & Hgone & _).
    exists s'. split; assumption.
  - apply (proj2 (remove_from_cart_scope (E := sample_env) "p-1" daudi market_repriced)).
    reflexivity.
Defined.


(** An order for kale and for a product that does not exist. *)
Lemma create_order_fails_halfway_witness :
  exists s',
    create_order (E := sample_env) (direct_order [kale_line 1; ghost_line]) chebet market
    = (s', Raise index_error) /\
    List.length (orders s') = 2%nat /\
    order_items s' = order_items market /\
    stock "p-3" (products s') = Some 3%Z.
Proof.
  destruct (create_order_fails_halfway (E := sample_env)
              (direct_order [kale_line 1; ghost_line]) chebet market
              [kale_line 1] [] ghost_line eq_refl)
    as (s' & Hrun & Horders & Hitems & _ & Hstock).
  - intros l Hl. for_each_row Hl ltac:(vm_compute; discriminate).
  - reflexivity.
  - exists s'. split; [exact Hrun|]. split; [rewrite Horders; reflexivity|].
    split; [exact Hitems|]. exact (Hstock "p-3" 4%Z eq_refl).
Defined.

(** One bunch of kale, billed at 100. *)
Lemma create_order_stores_what_was_sent_witness :
  exists s' o,
    create_order (E := sample_env) (direct_order [kale_line 1]) chebet market
    = (s', Ok {| orr_message := "Order created successfully"; orr_order := o |}) /\
    o_total_amount o = shillings 100.
Proof.
  destruct (create_order_stores_what_was_sent (E := sample_env)
              (direct_order [kale_line 1]) chebet market)
    as (s' & o & its & Hrun & _ & _ & _ & _ & Htotal & _).
  - intros l Hl. for_each_row Hl ltac:(vm_compute; discriminate).
  - exists s', o. split; assumption.
Defined.

(** Chebet's cart after the maize was withdrawn. *)
Lemma checkout_with_dangling_line_witness :
  checkout_order (E := sample_env) delivery "uuid-0" chebet market_dangling
  = (market_dangling, Raise none_subscript).
Proof.
  apply (checkout_with_dangling_line (E := sample_env) delivery "uuid-0" chebet
           market_dangling
           {| c_id := "uuid-0"; c_user_id := "buyer-1"; c_total := shillings 55 |} []
           eq_refl).
  exists {| ci_id := "uuid-1"; ci_cart_id := "uuid-0"; ci_product_id := "p-1";
            ci_quantity := 1%Z; ci_price := shillings 10 |}.
  split; [left; reflexivity | reflexivity].
Defined.

(** Chebet checks out, and tries again. *)
Lemma checkout_twice_is_refused_witness :
  exists s1 r,
    checkout_order (E := sample_env) delivery "uuid-0" chebet market_repriced = (s1, Ok r) /\
    checkout_order (E := sample_env) delivery "uuid-0" chebet s1
    = (s1, Raise cart_is_empty).
Proof.
  apply (checkout_twice_is_refused (E := sample_env) delivery "uuid-0" chebet
           market_repriced
           {| c_id := "uuid-0"; c_user_id := "buyer-1"; c_total := shillings 55 |} []
           eq_refl).
  - vm_compute. discriminate.
  - intros i Hi. for_each_row Hi ltac:(vm_compute; discriminate).
Defined.

(** Chebet's checkout leaves the users and the prices alone. *)
Lemma checkout_leaves_the_rest_witness :
  exists s' r,
    checkout_order (E := sample_env) delivery "uuid-0" chebet market_repriced = (s', Ok r) /\
    users s' = users market_repriced /\
    map listing_of (products s') = map listing_of (products market_repriced).
Proof.
  destruct (checkout_leaves_the_rest (E := sample_env) delivery "uuid-0" chebet
              market_repriced
              {| c_id := "uuid-0"; c_user_id := "buyer-1"; c_total := shillings 55 |} []
              eq_refl)
    as (s' & r & Hrun & Husers & _ & _ & _ & Hlisting & _).
  - vm_compute. discriminate.
  - intros i Hi. for_each_row Hi ltac:(vm_compute; discriminate).
  - exists s', r. repeat split; assumption.
Defined.

(** Baraka has no order to see, Amina has one. *)
Lemma get_orders_scope_witness :
  exists r,
    get_orders (E := sample_env) None None None baraka market = (market, Ok r) /\
    or_total r = 0%Z /\
    forall v, In v (or_orders r) -> o_farmer_id (ov_order v) = "farmer-2".
Proof.
  eexists. split; [vm_compute; reflexivity|].
  destruct (get_orders_scope (E := sample_env) None None None baraka market market _
              ltac:(vm_compute; reflexivity))
    as (_ & Htotal & _ & Hall).
  split; [exact Htotal|].
  intros v Hv. destruct (Hall v Hv) as (_ & Hfarmer & _). apply Hfarmer. reflexivity.
Defined.

(** Chebet orders kale and sees the order first. *)
Lemma new_order_heads_the_list_witness :
  exists s1 r1 r2 v others,
    create_order (E := sample_env) (direct_order [kale_line 1]) chebet market = (s1, Ok r1) /\
    get_orders (E := sample_env) None None None chebet s1 = (s1, Ok r2) /\
    or_orders r2 = v :: others /\
    ov_order v = orr_order r1.
Proof.
  apply (new_order_heads_the_list (E := sample_env) (direct_order [kale_line 1])
           chebet market eq_refl).
  intros l Hl. for_each_row Hl ltac:(vm_compute; discriminate).
Defined.

(** Baraka is no party to Chebet's order with Amina; Chebet is. *)
Lemma update_order_scope_witness :
  update_order (E := sample_env) "order-0" mark_completed baraka market
  = (market, Raise not_authorized) /\
  exists s',
    update_order (E := sample_env) "order-0" mark_completed chebet market
    = (s', Ok {| orr_message := "Order updated successfully";
                 orr_order := apply_order_update mark_completed earlier_order |}) /\
    o_status (apply_order_update mark_completed earlier_order) = "completed".
Proof.
  pose proof (proj2 (update_order_scope (E := sample_env) "order-0" mark_completed
                       baraka market) earlier_order [] eq_refl) as [Hno _].
  pose proof (proj2 (update_order_scope (E := sample_env) "order-0" mark_completed
                       chebet market) earlier_order [] eq_refl) as [_ Hyes].
  split.
  - apply Hno; vm_compute; discriminate.
  - destruct (Hyes (or_introl eq_refl)) as (s' & Hrun & Hstatus & _).
    exists s'. split; [exact Hrun|]. apply Hstatus. reflexivity.
Defined.

(** The figures are Zawadi's to see, not Chebet's. *)
Lemma admin_stats_scope_witness :
  get_admin_dashboard_stats (E := sample_env) chebet market
  = (market, Raise admin_required) /\
  exists r,
    get_admin_dashboard_stats (E := sample_env) zawadi market = (market, Ok r) /\
    as_total_revenue r = shillings 0.
Proof.
  split.
  - apply (proj1 (admin_stats_scope (E := sample_env) chebet market)).
    vm_compute. discriminate.
  - destruct (proj2 (admin_stats_scope (E := sample_env) zawadi market) eq_refl)
      as (r & Hrun & _ & _ & _ & _ & Hrev).
    exists r. split; [exact Hrun|]. apply Hrev.
    intros o Ho. for_each_row Ho ltac:(vm_compute; discriminate).
Defined.
